(** * moto.logs.models: a shallow embedding of the in-memory CloudWatch Logs
    backend ([src/moto/logs/models.py]) and the properties of its event
    retrieval, pagination, ingestion counters and group registry.

    Conventions of the embedding.
    - Python [int] is [Z] (unbounded); [int()] on text refuses more than
      4300 digits, the interpreter's default limit.
    - Python [str] is [string], one character per code point; the model
      covers text whose code points are below 256.
    - A method is a computation in the state-and-exception monad [M]: it
      receives the object it is called on ([self]) together with the
      class-level counters and the [dict] objects of the callers, and
      returns a value or raises, with the state it leaves behind.
    - The tags of a group are the caller's [dict] object itself: the group
      holds its address, and an update in place is seen by every holder.
    - [dict] objects whose iteration order is observable ([LogGroup.streams])
      are insertion-ordered association lists; the registry of groups, which
      is only ever looked up by name here, is a [gmap].
    - The clock ([unix_time_millis()]) is an explicit argument [now]. *)

From Stdlib Require Import ZArith NArith List Ascii String Bool Lia.
From Stdlib Require Import Sorting.Sorted Sorting.Permutation.
From stdpp Require Import base gmap strings list.

Local Open Scope Z_scope.

(** ** Python values *)

Module Py.

(** The character of a decimal digit, and back. *)
Definition digit_char (d : Z) : ascii := ascii_of_N (Z.to_N (48 + d)).
Definition digit_val (c : ascii) : Z := Z.of_N (N_of_ascii c) - 48.

(** Decimal digits of [z >= 0], least significant first; [fuel] bounds the
    number of digits. *)
Fixpoint digits_le (fuel : nat) (z : Z) : list ascii :=
  match fuel with
  | O => []
  | S fuel' =>
      digit_char (z mod 10)
      :: (if z / 10 =? 0 then [] else digits_le fuel' (z / 10))
  end.

(** [str(z)] for [z >= 0]: the decimal digits, most significant first. *)
Definition digits (z : Z) : string :=
  string_of_list_ascii (rev (digits_le (S (Z.to_nat (Z.log2 z))) z)).

(** [str(z)] for an [int]. *)
Definition str (z : Z) : string :=
  if z <? 0 then String "-" (digits (- z)) else digits z.

(** ['0' * k]. *)
Fixpoint zeros (k : nat) : string :=
  match k with
  | O => EmptyString
  | S k' => String "0" (zeros k')
  end.

(** [s.rjust(width, '0')]. *)
Definition lpad0 (width : nat) (s : string) : string :=
  String.append (zeros (width - String.length s)) s.

(** ["{:056d}".format(z)]: sign-aware zero padding to a minimum width of 56
    characters, the sign included.  This is the conversion for an [int] of
    at most 4300 digits ([int_max_str_digits] below), which every index of
    a list and every counter that is counted up from 0 is. *)
Definition format_056d (z : Z) : string :=
  if z <? 0 then String "-" (lpad0 55 (digits (- z)))
  else lpad0 56 (digits z).

(** Characters that [int()] strips, among the code points below 256. *)
Definition is_space (c : ascii) : bool :=
  let n := nat_of_ascii c in
  ((9 <=? n)%nat && (n <=? 13)%nat) || (n =? 32)%nat || (n =? 133)%nat
  || (n =? 160)%nat.

Definition is_digit (c : ascii) : bool :=
  (0 <=? digit_val c) && (digit_val c <=? 9).

Fixpoint lstrip (cs : list ascii) : list ascii :=
  match cs with
  | c :: r => if is_space c then lstrip r else cs
  | [] => []
  end.

Definition strip (cs : list ascii) : list ascii :=
  rev (lstrip (rev (lstrip cs))).

(** The digit part of an integer literal: digits, with single underscores
    allowed between two digits.  Returns the digits without underscores. *)
Fixpoint digitpart (after_digit : bool) (cs : list ascii)
  : option (list ascii) :=
  match cs with
  | [] => if after_digit then Some [] else None
  | c :: r =>
      if is_digit c then option_map (cons c) (digitpart true r)
      else if Ascii.eqb c "_" then
        if after_digit then digitpart false r else None
      else None
  end.

(** [sys.int_max_str_digits] as the interpreter starts with it: [int()]
    refuses a decimal literal of more digit characters than this. *)
Definition int_max_str_digits : nat := 4300.
Arguments int_max_str_digits : simpl never.

(** [int(s)] for a [str] argument, base 10; [None] stands for [ValueError].
    Surrounding whitespace is stripped, one sign is allowed, and the digits
    may be separated by single underscores.  A literal of more than
    [int_max_str_digits] digit characters (leading zeros counted, sign and
    underscores not) is refused, as one that is not a literal is. *)
Definition int (s : string) : option Z :=
  let cs := strip (list_ascii_of_string s) in
  let '(neg, body) :=
    match cs with
    | c :: r =>
        if Ascii.eqb c "-" then (true, r)
        else if Ascii.eqb c "+" then (false, r)
        else (false, cs)
    | [] => (false, cs)
    end in
  match digitpart false body with
  | Some ds =>
      if (int_max_str_digits <? length ds)%nat then None
      else
        let n := fold_left (fun acc c => 10 * acc + digit_val c) ds 0 in
        Some (if neg then - n else n)
  | None => None
  end.

(** [s[0]]; [None] stands for [IndexError]. *)
Definition head (s : string) : option ascii :=
  match s with
  | String c _ => Some c
  | EmptyString => None
  end.

(** [s[k:]] for [k >= 0]. *)
Fixpoint from (k : nat) (s : string) : string :=
  match k, s with
  | O, _ => s
  | S k', String _ r => from k' r
  | S _, EmptyString => EmptyString
  end.

(** [l[lo:hi]] for [int] bounds, negative bounds counting from the end. *)
Definition slice {A} (l : list A) (lo hi : Z) : list A :=
  let n := Z.of_nat (length l) in
  let norm i := if i <? 0 then Z.max 0 (i + n) else Z.min i n in
  firstn (Z.to_nat (norm hi - norm lo)) (skipn (Z.to_nat (norm lo)) l).

(** [sorted(l, key=key)]: the stable sort by an integer key. *)
Section Sorted.
Context {A : Type} (key : A -> Z).

Fixpoint insert (x : A) (l : list A) : list A :=
  match l with
  | [] => [x]
  | y :: r => if key x <=? key y then x :: l else y :: insert x r
  end.

Definition sorted (l : list A) : list A := fold_right insert [] l.
End Sorted.

(** [len(s)] for a [str]: its number of characters. *)
Definition len (s : string) : Z := Z.of_nat (String.length s).

(** [sum(l)]. *)
Definition sum (l : list Z) : Z := fold_right Z.add 0 l.

(** Insertion-ordered dictionaries with string keys. *)
Section Dict.
Context {V : Type}.

(** [k in d] *)
Fixpoint contains (k : string) (d : list (string * V)) : bool :=
  match d with
  | [] => false
  | (k', _) :: r => if String.eqb k k' then true else contains k r
  end.

(** [d[k]]; [None] stands for [KeyError]. *)
Fixpoint getitem (k : string) (d : list (string * V)) : option V :=
  match d with
  | [] => None
  | (k', v) :: r => if String.eqb k k' then Some v else getitem k r
  end.

(** [d[k] = v]: a present key keeps its position, a new one goes last. *)
Fixpoint setitem (k : string) (v : V) (d : list (string * V))
  : list (string * V) :=
  match d with
  | [] => [(k, v)]
  | (k', v') :: r =>
      if String.eqb k k' then (k', v) :: r else (k', v') :: setitem k v r
  end.

(** [del d[k]] for a present key. *)
Fixpoint delitem (k : string) (d : list (string * V)) : list (string * V) :=
  match d with
  | [] => []
  | (k', v') :: r =>
      if String.eqb k k' then r else (k', v') :: delitem k r
  end.
End Dict.

(** [d.update(other)]: the items of [other] assigned in its order. *)
Definition update {V} (d other : list (string * V)) : list (string * V) :=
  fold_left (fun acc item => setitem (fst item) (snd item) acc) other d.

(** [min(l)] and [max(l)] for a list of integers; [None] stands for the
    [ValueError] of an empty list. *)
Definition min_of (l : list Z) : option Z :=
  match l with
  | [] => None
  | x :: r => Some (fold_left Z.min r x)
  end.

Definition max_of (l : list Z) : option Z :=
  match l with
  | [] => None
  | x :: r => Some (fold_left Z.max r x)
  end.

(** [s.startswith(prefix)]. *)
Definition startswith (s prefix : string) : bool := String.prefix prefix s.

(** [sorted(l, key=key, reverse=reverse)] for keys compared by [leb]: the
    stable sort, which also with [reverse] keeps elements of equal keys in
    their original order. *)
Section SortedBy.
Context {A K : Type} (leb : K -> K -> bool) (key : A -> K).

Fixpoint insert_by (reverse : bool) (x : A) (l : list A) : list A :=
  match l with
  | [] => [x]
  | y :: r =>
      if (if reverse then leb (key y) (key x) else leb (key x) (key y))
      then x :: l
      else y :: insert_by reverse x r
  end.

Definition sorted_by (reverse : bool) (l : list A) : list A :=
  fold_right (insert_by reverse) [] l.
End SortedBy.

(** [x in l] for a list of strings. *)
Definition mem (x : string) (l : list string) : bool :=
  existsb (String.eqb x) l.

(** Truth value of an optional number ([None] and [0] are false). *)
Definition truthy_int (o : option Z) : bool :=
  match o with
  | Some z => negb (z =? 0)
  | None => false
  end.

(** Truth value of an optional string ([None] and [""] are false). *)
Definition truthy_str (o : option string) : bool :=
  match o with
  | Some (String _ _) => true
  | _ => false
  end.

(** Truth value of an optional list ([None] and [[]] are false). *)
Definition truthy_list {A} (o : option (list A)) : bool :=
  match o with
  | Some (_ :: _) => true
  | _ => false
  end.

(** UTF-8 length of a text whose code points are below 256: one byte below
    128, two bytes from 128 on. *)
Fixpoint utf8_len (s : string) : Z :=
  match s with
  | EmptyString => 0
  | String c r => (if (nat_of_ascii c <? 128)%nat then 1 else 2) + utf8_len r
  end.

End Py.

(** ** Exceptions and the method monad *)

Inductive exn : Type :=
| ResourceNotFoundException
| ResourceAlreadyExistsException
| InvalidParameterException (msg : string)
| NotImplementedError (msg : string)
| KeyError (key : string).

Inductive result (A : Type) : Type :=
| Ok (a : A)
| Raise (e : exn).
Arguments Ok {A} a.
Arguments Raise {A} e.

(** A method body: from the state it finds to its outcome and the state it
    leaves.  A raise keeps whatever was written before it. *)
Definition M (S A : Type) : Type := S -> result A * S.

Definition ret {S A} (a : A) : M S A := fun s => (Ok a, s).

Definition raise {S A} (e : exn) : M S A := fun s => (Raise e, s).

Definition bind {S A B} (m : M S A) (k : A -> M S B) : M S B :=
  fun s =>
    match m s with
    | (Ok a, s') => k a s'
    | (Raise e, s') => (Raise e, s')
    end.

Definition get {S} : M S S := fun s => (Ok s, s).

Definition modify {S} (f : S -> S) : M S unit := fun s => (Ok tt, f s).

Declare Scope method_scope.
Delimit Scope method_scope with method.
Notation "'let*' x ':=' m 'in' k" := (bind m (fun x => k))
  (at level 10, x pattern, m at level 100, k at level 200) : method_scope.
Notation "m ;; k" := (bind m (fun _ => k))
  (at level 100, right associativity) : method_scope.
Local Open Scope method_scope.

(** [[f(x) for x in l]] for an effectful [f]. *)
Fixpoint for_each {S A B} (f : A -> M S B) (l : list A) : M S (list B) :=
  match l with
  | [] => ret []
  | x :: r => let* y := f x in let* ys := for_each f r in ret (y :: ys)
  end.

(** Outcome and final state of a method run. *)
Definition outcome {S A} (m : M S A) (s : S) : result A := fst (m s).
Definition after {S A} (m : M S A) (s : S) : S := snd (m s).

(** The state outside the object a method runs on: the class-level
    counters, shared by all instances, and the [dict] objects that callers
    hand over as tags.  A [dict] object is known by its address in
    [dicts]: whoever holds the address sees what is written there. *)
Record Globals : Type := {
  LogEvent_event_id : Z;   (* LogEvent._event_id *)
  LogStream_log_ids : Z;   (* LogStream._log_ids *)
  dicts : list (list (string * string))   (* the dict objects, by address *)
}.

(** The state a method of an object of type [T] runs in. *)
Definition Heap (T : Type) : Type := Globals * T.

Definition self {T} : M (Heap T) T := fun h => (Ok (snd h), h).
Definition update_self {T} (f : T -> T) : M (Heap T) unit :=
  modify (fun h => (fst h, f (snd h))).
Definition globals {T} : M (Heap T) Globals := fun h => (Ok (fst h), h).
Definition update_globals {T} (f : Globals -> Globals) : M (Heap T) unit :=
  modify (fun h => (f (fst h), snd h)).

(** The address of a [dict] object, and the items of the object at an
    address. *)
Definition dict_ref : Type := nat.

Definition set_dicts (v : list (list (string * string))) (g : Globals)
  : Globals :=
  {| LogEvent_event_id := LogEvent_event_id g;
     LogStream_log_ids := LogStream_log_ids g;
     dicts := v |}.

Definition deref (g : Globals) (r : dict_ref) : list (string * string) :=
  default [] (dicts g !! r).

(** A dict display or comprehension: a new object that holds [d]. *)
Definition new_dict {T} (d : list (string * string)) : M (Heap T) dict_ref :=
  let* g := globals in
  update_globals (set_dicts (dicts g ++ [d])) ;;
  ret (length (dicts g)).

(** [d.update(other)] for the objects at [r] and [other]: the object at
    [r] is written in place. *)
Definition dict_update {T} (r other : dict_ref) : M (Heap T) unit :=
  update_globals (fun g =>
    set_dicts (<[r := Py.update (deref g r) (deref g other)]> (dicts g)) g).

(** The truth value of [tags], a [dict] object or [None]. *)
Definition truthy_dict (g : Globals) (tags : option dict_ref) : bool :=
  Py.truthy_list (option_map (deref g) tags).

(** ** LogEvent *)

(** An item of [log_events] as the caller supplies it. *)
Record InputLogEvent : Type := {
  in_timestamp : Z;
  in_message : string
}.

(** The dictionary [to_response_dict] builds. *)
Record ResponseDict : Type := {
  r_ingestionTime : Z;
  r_message : string;
  r_timestamp : Z
}.

(** The dictionary [to_filter_dict] builds; [logStreamName] is added by the
    stream. *)
Record FilterDict : Type := {
  f_eventId : string;
  f_ingestionTime : Z;
  f_logStreamName : option string;
  f_message : string;
  f_timestamp : Z
}.

Module LogEvent.

Record t : Type := {
  ingestionTime : Z;
  timestamp : Z;
  message : string;
  eventId : Z
}.

Definition __init__ {T} (ingestion_time : Z) (log_event : InputLogEvent)
  : M (Heap T) t :=
  let* g := globals in
  let this := {| ingestionTime := ingestion_time;
                 timestamp := in_timestamp log_event;
                 message := in_message log_event;
                 eventId := LogEvent_event_id g |} in
  update_globals (fun g =>
    {| LogEvent_event_id := LogEvent_event_id g + 1;
       LogStream_log_ids := LogStream_log_ids g;
       dicts := dicts g |}) ;;
  ret this.

Definition to_filter_dict (e : t) : FilterDict :=
  {| f_eventId := Py.str (eventId e);
     f_ingestionTime := ingestionTime e;
     f_logStreamName := None;
     f_message := message e;
     f_timestamp := timestamp e |}.

Definition to_response_dict (e : t) : ResponseDict :=
  {| r_ingestionTime := ingestionTime e;
     r_message := message e;
     r_timestamp := timestamp e |}.

End LogEvent.

(** The block [to_describe_dict] of a stream adds when the stream has
    events. *)
Record StreamEventsBlock : Type := {
  sd_firstEventTimestamp : option Z;
  sd_lastEventTimestamp : option Z;
  sd_lastIngestionTime : option Z;
  sd_uploadSequenceToken : string
}.

(** The dictionary [to_describe_dict] of a stream builds; [sd_rest] is
    [None] when the four keys of the block are absent. *)
Record StreamDescription : Type := {
  sd_arn : string;
  sd_creationTime : Z;
  sd_logStreamName : string;
  sd_storedBytes : Z;
  sd_rest : option StreamEventsBlock
}.

(** The dictionary [to_describe_dict] of a group builds;
    [gd_retentionInDays] is [None] when the key is absent. *)
Record GroupDescription : Type := {
  gd_arn : string;
  gd_creationTime : Z;
  gd_logGroupName : string;
  gd_metricFilterCount : Z;
  gd_storedBytes : Z;
  gd_retentionInDays : option Z
}.

(** ** LogStream *)

Module LogStream.

Record t : Type := {
  region : string;
  arn : string;
  creationTime : Z;
  firstEventTimestamp : option Z;
  lastEventTimestamp : option Z;
  lastIngestionTime : option Z;
  logStreamName : string;
  storedBytes : Z;
  uploadSequenceToken : Z;
  events : list LogEvent.t
}.

Definition set_lastIngestionTime (v : option Z) (s : t) : t :=
  {| region := region s; arn := arn s; creationTime := creationTime s;
     firstEventTimestamp := firstEventTimestamp s;
     lastEventTimestamp := lastEventTimestamp s;
     lastIngestionTime := v;
     logStreamName := logStreamName s; storedBytes := storedBytes s;
     uploadSequenceToken := uploadSequenceToken s; events := events s |}.

Definition set_storedBytes (v : Z) (s : t) : t :=
  {| region := region s; arn := arn s; creationTime := creationTime s;
     firstEventTimestamp := firstEventTimestamp s;
     lastEventTimestamp := lastEventTimestamp s;
     lastIngestionTime := lastIngestionTime s;
     logStreamName := logStreamName s; storedBytes := v;
     uploadSequenceToken := uploadSequenceToken s; events := events s |}.

Definition set_uploadSequenceToken (v : Z) (s : t) : t :=
  {| region := region s; arn := arn s; creationTime := creationTime s;
     firstEventTimestamp := firstEventTimestamp s;
     lastEventTimestamp := lastEventTimestamp s;
     lastIngestionTime := lastIngestionTime s;
     logStreamName := logStreamName s; storedBytes := storedBytes s;
     uploadSequenceToken := v; events := events s |}.

Definition set_events (v : list LogEvent.t) (s : t) : t :=
  {| region := region s; arn := arn s; creationTime := creationTime s;
     firstEventTimestamp := firstEventTimestamp s;
     lastEventTimestamp := lastEventTimestamp s;
     lastIngestionTime := lastIngestionTime s;
     logStreamName := logStreamName s; storedBytes := storedBytes s;
     uploadSequenceToken := uploadSequenceToken s; events := v |}.

(** The attributes [__init__] assigns, [id] being [LogStream._log_ids]. *)
Definition new (now id : Z) (region log_group name : string) : t :=
  {| region := region;
     arn := "arn:aws:logs:" +:+ region +:+ ":" +:+ Py.str id
            +:+ ":log-group:" +:+ log_group
            +:+ ":log-stream:" +:+ name;
     creationTime := now;
     firstEventTimestamp := None;
     lastEventTimestamp := None;
     lastIngestionTime := None;
     logStreamName := name;
     storedBytes := 0;
     uploadSequenceToken := 0;
     events := [] |}.

Definition __init__ {T} (now : Z) (region log_group name : string)
  : M (Heap T) t :=
  let* g := globals in
  let this := new now (LogStream_log_ids g) region log_group name in
  update_globals (fun g =>
    {| LogEvent_event_id := LogEvent_event_id g;
       LogStream_log_ids := LogStream_log_ids g + 1;
       dicts := dicts g |}) ;;
  ret this.

Definition put_log_events (now : Z) (log_group_name log_stream_name : string)
    (log_events : list InputLogEvent) (sequence_token : option string)
  : M (Heap t) string :=
  update_self (set_lastIngestionTime (Some now)) ;;
  update_self (fun s =>
    set_storedBytes
      (storedBytes s
       + Py.sum (map (fun log_event => Py.len (in_message log_event))
                     log_events)) s) ;;
  let* new_events := for_each (LogEvent.__init__ now) log_events in
  update_self (fun s => set_events (events s ++ new_events) s) ;;
  update_self (fun s =>
    set_uploadSequenceToken (uploadSequenceToken s + 1) s) ;;
  let* s := self in
  ret (Py.format_056d (uploadSequenceToken s)).

(** [bound and x < bound] *)
Definition and_lt (bound : option Z) (x : Z) : bool :=
  match bound with
  | Some b => Py.truthy_int bound && (x <? b)
  | None => false
  end.

(** [bound and x > bound] *)
Definition and_gt (bound : option Z) (x : Z) : bool :=
  match bound with
  | Some b => Py.truthy_int bound && (x >? b)
  | None => false
  end.

Definition filter_func (start_time end_time : option Z) (event : LogEvent.t)
  : bool :=
  if and_lt start_time (LogEvent.timestamp event) then false
  else if and_gt end_time (LogEvent.timestamp event) then false
  else true.

(** [sorted(filter(filter_func, self.events), key=lambda e: e.timestamp)] *)
Definition sorted_events (start_time end_time : option Z) (s : t)
  : list LogEvent.t :=
  Py.sorted LogEvent.timestamp
    (List.filter (filter_func start_time end_time) (events s)).

Definition invalid_token : exn :=
  InvalidParameterException "The specified nextToken is invalid.".

Definition get_index_and_direction_from_token (token : option string)
  : result (option ascii * Z) :=
  match token with
  | Some token =>
      match Py.head token, Py.int (Py.from 2 token) with
      | Some c, Some i => Ok (Some c, i)
      | _, _ => Raise invalid_token
      end
  | None => Ok (None, 0)
  end.

(** The window [start_index, end_index] before clamping. *)
Definition window (direction : option ascii) (index limit_index final_index : Z)
    (start_from_head : bool) : result (Z * Z) :=
  match direction with
  | None =>
      if start_from_head then
        let start_index := 0 in
        Ok (start_index, start_index + limit_index)
      else
        let end_index := final_index in
        Ok (end_index - limit_index, end_index)
  | Some c =>
      if Ascii.eqb c "f" then
        let start_index := index + 1 in
        Ok (start_index, start_index + limit_index)
      else if Ascii.eqb c "b" then
        let end_index := index - 1 in
        Ok (end_index - limit_index, end_index)
      else Raise invalid_token
  end.

Definition lift {S A} (r : result A) : M S A := fun s => (r, s).

Definition page := (list ResponseDict * string * string)%type.

Definition get_log_events (log_group_name log_stream_name : string)
    (start_time end_time : option Z) (limit : Z) (next_token : option string)
    (start_from_head : bool) : M (Heap t) page :=
  let* s := self in
  let events := sorted_events start_time end_time s in
  let* (direction, index) :=
    lift (get_index_and_direction_from_token next_token) in
  let limit_index := limit - 1 in
  let final_index := Z.of_nat (length events) - 1 in
  let* (start_index, end_index) :=
    lift (window direction index limit_index final_index start_from_head) in
  let finish (start_index end_index : Z) : M (Heap t) page :=
    ret (map LogEvent.to_response_dict
           (Py.slice events start_index (end_index + 1)),
         "b/" +:+ Py.format_056d start_index,
         "f/" +:+ Py.format_056d end_index) in
  let clamp_end (start_index : Z) : M (Heap t) page :=
    if end_index >? final_index then finish start_index final_index
    else if end_index <? 0 then
      ret ([], "b/" +:+ Py.format_056d 0, "f/" +:+ Py.format_056d 0)
    else finish start_index end_index in
  if start_index <? 0 then clamp_end 0
  else if start_index >? final_index then
    ret ([], "b/" +:+ Py.format_056d final_index,
             "f/" +:+ Py.format_056d final_index)
  else clamp_end start_index.

Definition with_logStreamName (name : string) (d : FilterDict) : FilterDict :=
  {| f_eventId := f_eventId d;
     f_ingestionTime := f_ingestionTime d;
     f_logStreamName := Some name;
     f_message := f_message d;
     f_timestamp := f_timestamp d |}.

Definition filter_log_events (log_group_name : string)
    (log_stream_names : option (list string)) (start_time end_time : option Z)
    (limit : Z) (next_token : option Z) (filter_pattern : option string)
    (interleaved : bool) : M (Heap t) (list FilterDict) :=
  if Py.truthy_str filter_pattern then
    raise (NotImplementedError "filter_pattern is not yet implemented")
  else
    let* s := self in
    ret (map (fun event =>
                with_logStreamName (logStreamName s)
                  (LogEvent.to_filter_dict event))
           (sorted_events start_time end_time s)).

Definition set_firstEventTimestamp (v : option Z) (s : t) : t :=
  {| region := region s; arn := arn s; creationTime := creationTime s;
     firstEventTimestamp := v;
     lastEventTimestamp := lastEventTimestamp s;
     lastIngestionTime := lastIngestionTime s;
     logStreamName := logStreamName s; storedBytes := storedBytes s;
     uploadSequenceToken := uploadSequenceToken s; events := events s |}.

Definition set_lastEventTimestamp (v : option Z) (s : t) : t :=
  {| region := region s; arn := arn s; creationTime := creationTime s;
     firstEventTimestamp := firstEventTimestamp s;
     lastEventTimestamp := v;
     lastIngestionTime := lastIngestionTime s;
     logStreamName := logStreamName s; storedBytes := storedBytes s;
     uploadSequenceToken := uploadSequenceToken s; events := events s |}.

Definition _update : M (Heap t) unit :=
  update_self (fun s =>
    set_firstEventTimestamp
      (match events s with
       | [] => None
       | _ :: _ => Py.min_of (map LogEvent.timestamp (events s))
       end) s) ;;
  update_self (fun s =>
    set_lastEventTimestamp
      (match events s with
       | [] => None
       | _ :: _ => Py.max_of (map LogEvent.timestamp (events s))
       end) s).

Definition to_describe_dict : M (Heap t) StreamDescription :=
  _update ;;
  let* s := self in
  ret {| sd_arn := arn s;
         sd_creationTime := creationTime s;
         sd_logStreamName := logStreamName s;
         sd_storedBytes := storedBytes s;
         sd_rest :=
           match events s with
           | [] => None
           | _ :: _ =>
               Some {| sd_firstEventTimestamp := firstEventTimestamp s;
                       sd_lastEventTimestamp := lastEventTimestamp s;
                       sd_lastIngestionTime := lastIngestionTime s;
                       sd_uploadSequenceToken :=
                         Py.str (uploadSequenceToken s) |}
           end |}.

End LogStream.

(** ** LogGroup *)

Record SearchedStream : Type := {
  ss_logStreamName : string;
  searchedCompletely : bool
}.

Module LogGroup.

Record t : Type := {
  name : string;
  region : string;
  arn : string;
  creationTime : Z;
  tags : option dict_ref;   (* the caller's dict object, or None *)
  streams : list (string * LogStream.t);   (* {name: LogStream} *)
  retentionInDays : option Z
}.

Definition set_streams (v : list (string * LogStream.t)) (g : t) : t :=
  {| name := name g; region := region g; arn := arn g;
     creationTime := creationTime g; tags := tags g; streams := v;
     retentionInDays := retentionInDays g |}.

(** The attributes [__init__] assigns; [tags] is the object the caller
    passed, not a copy of it. *)
Definition new (now : Z) (region name : string)
    (tags : option dict_ref) : t :=
  {| name := name;
     region := region;
     arn := "arn:aws:logs:" +:+ region +:+ ":1:log-group:" +:+ name;
     creationTime := now;
     tags := tags;
     streams := [];
     retentionInDays := None |}.

Definition __init__ {T} (now : Z) (region name : string)
    (tags : option dict_ref) : M (Heap T) t :=
  ret (new now region name tags).

(** A method call on the stream object stored under [log_stream_name]:
    the dictionary holds the object itself, so what the call writes is seen
    through the dictionary afterwards. *)
Definition call_stream {A} (log_stream_name : string)
    (m : M (Heap LogStream.t) A) : M (Heap t) A :=
  fun h =>
    match Py.getitem log_stream_name (streams (snd h)) with
    | None => (Raise (KeyError log_stream_name), h)
    | Some stream =>
        let '(r, (g', stream')) := m (fst h, stream) in
        (r, (g', set_streams
                   (Py.setitem log_stream_name stream' (streams (snd h)))
                   (snd h)))
    end.

Definition create_log_stream (now : Z) (log_stream_name : string)
  : M (Heap t) unit :=
  let* g := self in
  if Py.contains log_stream_name (streams g) then
    raise ResourceAlreadyExistsException
  else
    let* stream := LogStream.__init__ now (region g) (name g) log_stream_name in
    update_self (fun g =>
      set_streams (Py.setitem log_stream_name stream (streams g)) g).

Definition delete_log_stream (log_stream_name : string) : M (Heap t) unit :=
  let* g := self in
  if negb (Py.contains log_stream_name (streams g)) then
    raise ResourceNotFoundException
  else
    update_self (fun g =>
      set_streams (Py.delitem log_stream_name (streams g)) g).

Definition put_log_events (now : Z) (log_group_name log_stream_name : string)
    (log_events : list InputLogEvent) (sequence_token : option string)
  : M (Heap t) string :=
  let* g := self in
  if negb (Py.contains log_stream_name (streams g)) then
    raise ResourceNotFoundException
  else
    call_stream log_stream_name
      (LogStream.put_log_events now log_group_name log_stream_name
         log_events sequence_token).

Definition get_log_events (log_group_name log_stream_name : string)
    (start_time end_time : option Z) (limit : Z) (next_token : option string)
    (start_from_head : bool) : M (Heap t) LogStream.page :=
  let* g := self in
  if negb (Py.contains log_stream_name (streams g)) then
    raise ResourceNotFoundException
  else
    call_stream log_stream_name
      (LogStream.get_log_events log_group_name log_stream_name
         start_time end_time limit next_token start_from_head).

(** [not log_stream_names or name in log_stream_names] *)
Definition selected (log_stream_names : option (list string)) (name : string)
  : bool :=
  negb (Py.truthy_list log_stream_names)
  || match log_stream_names with
     | Some l => Py.mem name l
     | None => false
     end.

Definition filter_log_events (log_group_name : string)
    (log_stream_names : option (list string)) (start_time end_time : option Z)
    (limit : Z) (next_token : option Z) (filter_pattern : option string)
    (interleaved : bool)
  : M (Heap t) (list FilterDict * option Z * list SearchedStream) :=
  let* g := self in
  let streams :=
    List.filter (fun item => selected log_stream_names (fst item))
      (streams g) in
  let* per_stream :=
    for_each
      (fun item =>
         call_stream (fst item)
           (LogStream.filter_log_events log_group_name log_stream_names
              start_time end_time limit next_token filter_pattern
              interleaved))
      streams in
  let events := concat per_stream in
  let events :=
    if interleaved then Py.sorted f_timestamp events else events in
  let next_token :=
    match next_token with
    | None => 0
    | Some k => k
    end in
  let events_page := Py.slice events next_token (next_token + limit) in
  let next_token := next_token + limit in
  let next_token :=
    if next_token >=? Z.of_nat (length events) then None
    else Some next_token in
  let searched_streams :=
    map (fun item =>
           {| ss_logStreamName := LogStream.logStreamName (snd item);
              searchedCompletely := true |})
        streams in
  ret (events_page, next_token, searched_streams).

Definition set_tags (v : option dict_ref) (g : t) : t :=
  {| name := name g; region := region g; arn := arn g;
     creationTime := creationTime g; tags := v; streams := streams g;
     retentionInDays := retentionInDays g |}.

Definition set_retentionInDays (v : option Z) (g : t) : t :=
  {| name := name g; region := region g; arn := arn g;
     creationTime := creationTime g; tags := tags g; streams := streams g;
     retentionInDays := v |}.

(** [item[1].get("lastEventTimestamp", 0)] *)
Definition last_event_timestamp (d : StreamDescription) : Z :=
  match sd_rest d with
  | Some block =>
      match sd_lastEventTimestamp block with
      | Some ts => ts
      | None => 0
      end
  | None => 0
  end.

Definition describe_log_streams (descending : bool) (limit : Z)
    (log_group_name log_stream_name_prefix : string) (next_token : option Z)
    (order_by : string) : M (Heap t) (list StreamDescription * option Z) :=
  let* g := self in
  let* log_streams :=
    for_each
      (fun item =>
         let* d := call_stream (fst item) LogStream.to_describe_dict in
         ret (fst item, d))
      (List.filter
         (fun item => Py.startswith (fst item) log_stream_name_prefix)
         (streams g)) in
  let next_token :=
    match next_token with
    | None => 0
    | Some k => k
    end in
  let log_streams :=
    if String.eqb order_by "logStreamName" then
      Py.sorted_by String.leb fst descending log_streams
    else
      Py.sorted_by Z.leb (fun item => last_event_timestamp (snd item))
        descending log_streams in
  let new_token := next_token + limit in
  let log_streams_page :=
    map snd (Py.slice log_streams next_token new_token) in
  let new_token :=
    if new_token >=? Z.of_nat (length log_streams) then None
    else Some new_token in
  ret (log_streams_page, new_token).

Definition to_describe_dict : M (Heap t) GroupDescription :=
  let* g := self in
  ret {| gd_arn := arn g;
         gd_creationTime := creationTime g;
         gd_logGroupName := name g;
         gd_metricFilterCount := 0;
         gd_storedBytes :=
           Py.sum (map (fun item => LogStream.storedBytes (snd item))
                       (streams g));
         gd_retentionInDays :=
           if Py.truthy_int (retentionInDays g) then retentionInDays g
           else None |}.

Definition set_retention_policy (retention_in_days : option Z)
  : M (Heap t) unit :=
  update_self (set_retentionInDays retention_in_days).

(** [self.tags if self.tags else {}]: the object the group holds, or a
    new empty one. *)
Definition list_tags : M (Heap t) dict_ref :=
  let* g := self in
  let* gl := globals in
  match tags g with
  | Some r => if truthy_dict gl (tags g) then ret r else new_dict []
  | None => new_dict []
  end.

(** [tags] is a [dict] object.  A group whose tags are a dict that is not
    empty updates that object in place; otherwise it keeps the object it
    is given. *)
Definition tag (new_tags : dict_ref) : M (Heap t) unit :=
  let* g := self in
  let* gl := globals in
  match tags g with
  | Some r =>
      if truthy_dict gl (tags g) then dict_update r new_tags
      else update_self (set_tags (Some new_tags))
  | None => update_self (set_tags (Some new_tags))
  end.

(** The comprehension builds a new object. *)
Definition untag (tags_to_remove : list string) : M (Heap t) unit :=
  let* g := self in
  let* gl := globals in
  match tags g with
  | Some r =>
      if truthy_dict gl (tags g) then
        let* kept :=
          new_dict
            (List.filter (fun kv => negb (Py.mem (fst kv) tags_to_remove))
               (deref gl r)) in
        update_self (set_tags (Some kept))
      else ret tt
  | None => ret tt
  end.

End LogGroup.

(** ** LogsBackend *)

Module LogsBackend.

(** [filters], the metric-filter collaborator, is not part of this model. *)
Record t : Type := {
  region_name : string;
  groups : gmap string LogGroup.t   (* {logGroupName: LogGroup} *)
}.

Definition set_groups (v : gmap string LogGroup.t) (b : t) : t :=
  {| region_name := region_name b; groups := v |}.

Definition __init__ (region_name : string) : t :=
  {| region_name := region_name; groups := ∅ |}.

(** A method call on the group object stored under [log_group_name]. *)
Definition call_group {A} (log_group_name : string)
    (m : M (Heap LogGroup.t) A) : M (Heap t) A :=
  fun h =>
    match groups (snd h) !! log_group_name with
    | None => (Raise (KeyError log_group_name), h)
    | Some group =>
        let '(r, (g', group')) := m (fst h, group) in
        (r, (g', set_groups (<[log_group_name := group']> (groups (snd h)))
                   (snd h)))
    end.

Definition contains (log_group_name : string) (b : t) : bool :=
  bool_decide (is_Some (groups b !! log_group_name)).

Definition create_log_group (now : Z) (log_group_name : string)
    (tags : option dict_ref) : M (Heap t) unit :=
  let* b := self in
  if contains log_group_name b then raise ResourceAlreadyExistsException
  else
    let* group := LogGroup.__init__ now (region_name b) log_group_name tags in
    update_self (fun b =>
      set_groups (<[log_group_name := group]> (groups b)) b).

Definition ensure_log_group (now : Z) (log_group_name : string)
    (tags : option dict_ref) : M (Heap t) unit :=
  let* b := self in
  if contains log_group_name b then ret tt
  else
    let* group := LogGroup.__init__ now (region_name b) log_group_name tags in
    update_self (fun b =>
      set_groups (<[log_group_name := group]> (groups b)) b).

Definition delete_log_group (log_group_name : string) : M (Heap t) unit :=
  let* b := self in
  if negb (contains log_group_name b) then raise ResourceNotFoundException
  else
    update_self (fun b => set_groups (delete log_group_name (groups b)) b).

Definition create_log_stream (now : Z) (log_group_name log_stream_name : string)
  : M (Heap t) unit :=
  let* b := self in
  if negb (contains log_group_name b) then raise ResourceNotFoundException
  else
    call_group log_group_name (LogGroup.create_log_stream now log_stream_name).

Definition put_log_events (now : Z) (log_group_name log_stream_name : string)
    (log_events : list InputLogEvent) (sequence_token : option string)
  : M (Heap t) string :=
  let* b := self in
  if negb (contains log_group_name b) then raise ResourceNotFoundException
  else
    call_group log_group_name
      (LogGroup.put_log_events now log_group_name log_stream_name
         log_events sequence_token).

Definition get_log_events (log_group_name log_stream_name : string)
    (start_time end_time : option Z) (limit : Z) (next_token : option string)
    (start_from_head : bool) : M (Heap t) LogStream.page :=
  let* b := self in
  if negb (contains log_group_name b) then raise ResourceNotFoundException
  else
    call_group log_group_name
      (LogGroup.get_log_events log_group_name log_stream_name
         start_time end_time limit next_token start_from_head).

Definition filter_log_events (log_group_name : string)
    (log_stream_names : option (list string)) (start_time end_time : option Z)
    (limit : Z) (next_token : option Z) (filter_pattern : option string)
    (interleaved : bool)
  : M (Heap t) (list FilterDict * option Z * list SearchedStream) :=
  let* b := self in
  if negb (contains log_group_name b) then raise ResourceNotFoundException
  else
    call_group log_group_name
      (LogGroup.filter_log_events log_group_name log_stream_names
         start_time end_time limit next_token filter_pattern interleaved).

(** [reset]: the attributes are dropped and [__init__] runs again. *)
Definition reset : M (Heap t) unit :=
  let* b := self in
  let region_name := region_name b in
  update_self (fun _ => __init__ region_name).

Definition delete_log_stream (log_group_name log_stream_name : string)
  : M (Heap t) unit :=
  let* b := self in
  if negb (contains log_group_name b) then raise ResourceNotFoundException
  else
    call_group log_group_name (LogGroup.delete_log_stream log_stream_name).

Definition describe_log_streams (descending : bool) (limit : Z)
    (log_group_name log_stream_name_prefix : string) (next_token : option Z)
    (order_by : string) : M (Heap t) (list StreamDescription * option Z) :=
  let* b := self in
  if negb (contains log_group_name b) then raise ResourceNotFoundException
  else
    call_group log_group_name
      (LogGroup.describe_log_streams descending limit log_group_name
         log_stream_name_prefix next_token order_by).

Definition put_retention_policy (log_group_name : string)
    (retention_in_days : option Z) : M (Heap t) unit :=
  let* b := self in
  if negb (contains log_group_name b) then raise ResourceNotFoundException
  else
    call_group log_group_name (LogGroup.set_retention_policy retention_in_days).

Definition delete_retention_policy (log_group_name : string)
  : M (Heap t) unit :=
  let* b := self in
  if negb (contains log_group_name b) then raise ResourceNotFoundException
  else call_group log_group_name (LogGroup.set_retention_policy None).

Definition list_tags_log_group (log_group_name : string)
  : M (Heap t) dict_ref :=
  let* b := self in
  if negb (contains log_group_name b) then raise ResourceNotFoundException
  else call_group log_group_name LogGroup.list_tags.

Definition tag_log_group (log_group_name : string)
    (tags : dict_ref) : M (Heap t) unit :=
  let* b := self in
  if negb (contains log_group_name b) then raise ResourceNotFoundException
  else call_group log_group_name (LogGroup.tag tags).

Definition untag_log_group (log_group_name : string) (tags : list string)
  : M (Heap t) unit :=
  let* b := self in
  if negb (contains log_group_name b) then raise ResourceNotFoundException
  else call_group log_group_name (LogGroup.untag tags).

End LogsBackend.

(** ** Clients and sample states *)

Definition globals0 : Globals :=
  {| LogEvent_event_id := 0; LogStream_log_ids := 0;
       dicts := [] |}.

Definition ev (ts : Z) (msg : string) : InputLogEvent :=
  {| in_timestamp := ts; in_message := msg |}.

(** The stream [LogStream("r", "g", "s")] makes at time 0. *)
Definition fresh_stream : LogStream.t := LogStream.new 0 0 "r" "g" "s".

Definition demo_stream : Heap LogStream.t :=
  after (LogStream.put_log_events 7 "g" "s"
           [ev 30 "c"; ev 10 "a"; ev 50 "e"; ev 20 "b"; ev 40 "d"] None)
        (globals0, fresh_stream).

(** A client paging forward through a stream: a fresh query from the head,
    then each call fed the forward token of the call before it, with the
    same limit.  [forward_page k] is the outcome of call number [k]. *)
Fixpoint forward_page (k : nat) (log_group_name log_stream_name : string)
    (start_time end_time : option Z) (limit : Z)
  : M (Heap LogStream.t) LogStream.page :=
  match k with
  | O =>
      LogStream.get_log_events log_group_name log_stream_name
        start_time end_time limit None true
  | S k' =>
      let* prev :=
        forward_page k' log_group_name log_stream_name
          start_time end_time limit in
      LogStream.get_log_events log_group_name log_stream_name
        start_time end_time limit (Some (snd prev)) true
  end.

(** A sequence of [put_log_events] calls on one stream, each with its own
    clock reading and batch; the tokens they return, in order. *)
Definition put_all (log_group_name log_stream_name : string)
    (calls : list (Z * list InputLogEvent)) : M (Heap LogStream.t) (list string) :=
  for_each
    (fun call =>
       LogStream.put_log_events (fst call) log_group_name log_stream_name
         (snd call) None)
    calls.

(** All the messages of a sequence of calls. *)
Definition messages (calls : list (Z * list InputLogEvent)) : list string :=
  map in_message (concat (map snd calls)).

Definition all_digits (s : string) : Prop :=
  Forall (fun c => Py.is_digit c = true) (list_ascii_of_string s).

(** The token grammar in the words of the specification: a direction
    character, two spacer characters, fifty-six decimal digits. *)
Definition spec_token_format (token : string) : Prop :=
  exists d s1 s2 index,
    token = String d (String s1 (String s2 index))
    /\ (d = "f"%char \/ d = "b"%char)
    /\ String.length index = 56%nat
    /\ all_digits index.

(** The least positive integer whose decimal digits [int()] refuses to
    read: every index below it, rendered by ["{:056d}"], is read back. *)
Definition max_int_read : Z := 10 ^ Z.of_nat Py.int_max_str_digits.

(** The token grammar of the code: a direction character, the separator
    [/], and the index as [format_056d] renders it. *)
Definition token (d : ascii) (index : Z) : string :=
  String d (String "/" (Py.format_056d index)).

(** The view a query pages over, and the index of its last event. *)
Definition view (start_time end_time : option Z) (h : Heap LogStream.t)
  : list LogEvent.t :=
  LogStream.sorted_events start_time end_time (snd h).

Definition final_index (start_time end_time : option Z) (h : Heap LogStream.t)
  : Z :=
  Z.of_nat (length (view start_time end_time h)) - 1.

(** What [LogStream.filter_log_events] returns for a stream when no filter
    pattern is given. *)
Definition stream_filter_result (start_time end_time : option Z)
    (s : LogStream.t) : list FilterDict :=
  map (fun event =>
         LogStream.with_logStreamName (LogStream.logStreamName s)
           (LogEvent.to_filter_dict event))
      (LogStream.sorted_events start_time end_time s).

(** The streams of a group that [log_stream_names] selects, in the
    iteration order of the dictionary. *)
Definition selected_streams (log_stream_names : option (list string))
    (g : LogGroup.t) : list (string * LogStream.t) :=
  List.filter (fun item => LogGroup.selected log_stream_names (fst item))
    (LogGroup.streams g).

(** A group with the streams "a" (timestamps 10, 30) and "b" (timestamps
    20, 40), made by the operations of the group. *)
Definition demo_group : Heap LogGroup.t :=
  after (LogGroup.create_log_stream 1 "a" ;;
         LogGroup.create_log_stream 2 "b" ;;
         LogGroup.put_log_events 3 "g" "a" [ev 10 "a1"; ev 30 "a2"] None ;;
         LogGroup.put_log_events 4 "g" "b" [ev 20 "b1"; ev 40 "b2"] None)
        (globals0, LogGroup.new 0 "r" "g" None).

(** A registry holding the group "g". *)
Definition demo_backend : Heap LogsBackend.t :=
  after (LogsBackend.create_log_group 0 "g" None)
        (globals0, LogsBackend.__init__ "r").

(** The one-character message U+00E9 (e with acute accent), two bytes in
    UTF-8. *)
Definition e_acute : string := String (ascii_of_nat 233) EmptyString.

(** Text of code points below 128 only. *)
Definition is_ascii_text (s : string) : Prop :=
  Forall (fun c => (nat_of_ascii c < 128)%nat) (list_ascii_of_string s).

(** The timestamps of a returned page and its forward token. *)
Definition page_timestamps (r : result LogStream.page)
  : option (list Z * string) :=
  match r with
  | Ok (events_page, _, forward) => Some (map r_timestamp events_page, forward)
  | Raise _ => None
  end.

(** The events of [l] at the indices [a..b], indices outside [l] left out. *)
Definition between {A} (l : list A) (a b : Z) : list A :=
  firstn (Z.to_nat (b + 1) - Z.to_nat a) (skipn (Z.to_nat a) l).

(** A token whose direction character is there and is neither [f] nor
    [b]. *)
Definition other_direction (t : string) : Prop :=
  exists c r, t = String c r /\ c <> "f"%char /\ c <> "b"%char.

(** Ascending order by an integer key. *)
Definition le_key {A} (key : A -> Z) (x y : A) : Prop := key x <= key y.
Definition ascending {A} (key : A -> Z) (l : list A) : Prop :=
  StronglySorted (le_key key) l.

(** The number a list of digit characters denotes, and the digit characters
    of a number. *)
Definition value (ds : list ascii) : Z :=
  fold_left (fun acc c => 10 * acc + Py.digit_val c) ds 0.

Definition digit_list (z : Z) : list ascii :=
  rev (Py.digits_le (S (Z.to_nat (Z.log2 z))) z).

(** ** Further clients and predicates *)

(** The events [[LogEvent(now, e) for e in log_events]] builds when
    [LogEvent._event_id] is [id]. *)
Fixpoint new_events (now id : Z) (log_events : list InputLogEvent)
  : list LogEvent.t :=
  match log_events with
  | [] => []
  | e :: r =>
      {| LogEvent.ingestionTime := now;
         LogEvent.timestamp := in_timestamp e;
         LogEvent.message := in_message e;
         LogEvent.eventId := id |}
      :: new_events now (id + 1) r
  end.

(** A timestamp that a time range lets through: a bound that is absent or
    0 asks for nothing. *)
Definition within (start_time end_time : option Z) (ts : Z) : Prop :=
  (forall b, start_time = Some b -> b <> 0 -> b <= ts)
  /\ (forall b, end_time = Some b -> b <> 0 -> ts <= b).

(** The events of a list that carry the timestamp [ts], in their order. *)
Definition at_timestamp (ts : Z) (l : list LogEvent.t) : list LogEvent.t :=
  List.filter (fun e => LogEvent.timestamp e =? ts) l.

(** The response form of an input event ingested at [now]. *)
Definition response_of (now : Z) (e : InputLogEvent) : ResponseDict :=
  {| r_ingestionTime := now;
     r_message := in_message e;
     r_timestamp := in_timestamp e |}.

(** A client paging backward through a stream: a fresh query from the
    tail, then each call fed the backward token of the call before it, with
    the same limit.  [backward_page k] is the outcome of call number [k]. *)
Fixpoint backward_page (k : nat) (log_group_name log_stream_name : string)
    (start_time end_time : option Z) (limit : Z)
  : M (Heap LogStream.t) LogStream.page :=
  match k with
  | O =>
      LogStream.get_log_events log_group_name log_stream_name
        start_time end_time limit None false
  | S k' =>
      let* prev :=
        backward_page k' log_group_name log_stream_name
          start_time end_time limit in
      LogStream.get_log_events log_group_name log_stream_name
        start_time end_time limit (Some (snd (fst prev))) false
  end.

(** A client reading a whole result of [filter_log_events] of a group: it
    calls with the token it has, keeps the page, and calls again with the
    token returned until that token is [None].  The pages are joined in
    order; [None] is returned when [fuel] calls were not enough. *)
Fixpoint filter_all_pages (fuel : nat) (log_group_name : string)
    (log_stream_names : option (list string)) (start_time end_time : option Z)
    (limit : Z) (next_token : option Z) (interleaved : bool)
  : M (Heap LogGroup.t) (option (list FilterDict)) :=
  match fuel with
  | O => ret None
  | S fuel' =>
      let* r :=
        LogGroup.filter_log_events log_group_name log_stream_names
          start_time end_time limit next_token None interleaved in
      match snd (fst r) with
      | None => ret (Some (fst (fst r)))
      | Some t =>
          let* rest :=
            filter_all_pages fuel' log_group_name log_stream_names
              start_time end_time limit (Some t) interleaved in
          ret (option_map (app (fst (fst r))) rest)
      end
  end.

(** The whole sequence [filter_log_events] pages over when no pattern is
    given. *)
Definition filter_result (log_stream_names : option (list string))
    (start_time end_time : option Z) (interleaved : bool) (g : LogGroup.t)
  : list FilterDict :=
  let all :=
    concat (map (fun item => stream_filter_result start_time end_time
                               (snd item))
                (selected_streams log_stream_names g)) in
  if interleaved then Py.sorted f_timestamp all else all.

(** The description [to_describe_dict] returns for a stream. *)
Definition description_of (s : LogStream.t) : StreamDescription :=
  {| sd_arn := LogStream.arn s;
     sd_creationTime := LogStream.creationTime s;
     sd_logStreamName := LogStream.logStreamName s;
     sd_storedBytes := LogStream.storedBytes s;
     sd_rest :=
       match LogStream.events s with
       | [] => None
       | _ :: _ =>
           Some {| sd_firstEventTimestamp :=
                     Py.min_of (map LogEvent.timestamp (LogStream.events s));
                   sd_lastEventTimestamp :=
                     Py.max_of (map LogEvent.timestamp (LogStream.events s));
                   sd_lastIngestionTime := LogStream.lastIngestionTime s;
                   sd_uploadSequenceToken :=
                     Py.str (LogStream.uploadSequenceToken s) |}
       end |}.

(** The streams of a group whose name starts with a prefix, each with its
    description, in the iteration order of the dictionary. *)
Definition described_streams (prefix : string) (g : LogGroup.t)
  : list (string * StreamDescription) :=
  map (fun item => (fst item, description_of (snd item)))
      (List.filter (fun item => Py.startswith (fst item) prefix)
         (LogGroup.streams g)).

(** Two elements in the order of [sorted(key=key, reverse=reverse)]. *)
Definition in_order {A K} (leb : K -> K -> bool) (key : A -> K)
    (reverse : bool) (x y : A) : Prop :=
  if reverse then leb (key y) (key x) = true
  else leb (key x) (key y) = true.

(** The order [describe_log_streams] asks of two neighbours, by name or by
    last event timestamp, ascending or descending. *)
Definition by_name (descending : bool) (x y : string * StreamDescription)
  : Prop :=
  if descending then String.leb (fst y) (fst x) = true
  else String.leb (fst x) (fst y) = true.

Definition by_last_event (descending : bool)
    (x y : string * StreamDescription) : Prop :=
  if descending then
    LogGroup.last_event_timestamp (snd y)
    <= LogGroup.last_event_timestamp (snd x)
  else
    LogGroup.last_event_timestamp (snd x)
    <= LogGroup.last_event_timestamp (snd y).

(** An operation [op] of the registry that hands a call over to the group
    [g] stored under [name]: it ends as the method [m] of the group ends,
    leaves the class counters and the dict objects as [m] leaves them,
    stores the group as [m] leaves it, and leaves every other group object
    as it is.  A group object holds its tags by address: what the dict at
    that address contains is among the dict objects. *)
Definition delegates {A} (op : M (Heap LogsBackend.t) A) (name : string)
    (m : M (Heap LogGroup.t) A) (h : Heap LogsBackend.t) (g : LogGroup.t)
  : Prop :=
  outcome op h = outcome m (fst h, g)
  /\ fst (after op h) = fst (after m (fst h, g))
  /\ LogsBackend.groups (snd (after op h)) !! name
     = Some (snd (after m (fst h, g)))
  /\ (forall other,
        other <> name ->
        LogsBackend.groups (snd (after op h)) !! other
        = LogsBackend.groups (snd h) !! other)
  /\ LogsBackend.region_name (snd (after op h))
     = LogsBackend.region_name (snd h).

(** The event ids a stream holds, and those all the streams of a group
    hold, in the iteration order of the dictionary. *)
Definition event_ids (s : LogStream.t) : list Z :=
  map LogEvent.eventId (LogStream.events s).

Definition group_event_ids (g : LogGroup.t) : list Z :=
  concat (map (fun item => event_ids (snd item)) (LogGroup.streams g)).

(** The event ids of a group are ids that [LogEvent._event_id] has given
    out: each is below the counter and none occurs twice. *)
Definition ids_issued (h : Heap LogGroup.t) : Prop :=
  List.NoDup (group_event_ids (snd h))
  /\ Forall (fun i => i < LogEvent_event_id (fst h))
            (group_event_ids (snd h)).

(** The operations of a group that write to it, and a client that applies
    a sequence of them, going on after a call that raised. *)
Inductive group_write : Type :=
| CreateLogStream (now : Z) (log_stream_name : string)
| DeleteLogStream (log_stream_name : string)
| PutLogEvents (now : Z) (log_group_name log_stream_name : string)
    (log_events : list InputLogEvent) (sequence_token : option string).

Definition apply_write (h : Heap LogGroup.t) (w : group_write)
  : Heap LogGroup.t :=
  match w with
  | CreateLogStream now n => after (LogGroup.create_log_stream now n) h
  | DeleteLogStream n => after (LogGroup.delete_log_stream n) h
  | PutLogEvents now g n batch tok =>
      after (LogGroup.put_log_events now g n batch tok) h
  end.

Definition apply_writes (ws : list group_write) (h : Heap LogGroup.t)
  : Heap LogGroup.t :=
  fold_left apply_write ws h.

(** A client that reads the tags of a group: it calls [list_tags] and
    looks at the items of the object returned. *)
Definition read_tags : M (Heap LogGroup.t) (list (string * string)) :=
  let* r := LogGroup.list_tags in
  let* gl := globals in
  ret (deref gl r).

(** The tags a group shows while the [dict] objects are as in [gl]. *)
Definition shown_tags (gl : Globals) (g : LogGroup.t)
  : list (string * string) :=
  match LogGroup.tags g with
  | Some r => deref gl r
  | None => []
  end.

(** The group of [demo_group] after a client has built the dict
    [{"k": "v"}], which is then the object at address 0. *)
Definition demo_group_and_dict : Heap LogGroup.t :=
  after (new_dict [("k", "v")]) demo_group.

(** A registry whose groups "g1" and "g2" were created with one and the
    same dict object [{"k": "v"}] (address 0), beside a second dict
    [{"n": "w"}] (address 1) that no group holds. *)
Definition shared_tags_backend : Heap LogsBackend.t :=
  after (let* d := new_dict [("k", "v")] in
         let* e := new_dict [("n", "w")] in
         LogsBackend.create_log_group 0 "g1" (Some d) ;;
         LogsBackend.create_log_group 0 "g2" (Some d))
        (globals0, LogsBackend.__init__ "r").

(** ** Decimal rendering and parsing *)

Section Decimal.

Lemma digit_val_char d : 0 <= d <= 9 -> Py.digit_val (Py.digit_char d) = d.
Proof.
  intros Hd. unfold Py.digit_val, Py.digit_char.
  rewrite N_ascii_embedding by lia. lia.
Qed.

Lemma is_digit_char d : 0 <= d <= 9 -> Py.is_digit (Py.digit_char d) = true.
Proof.
  intros Hd. unfold Py.is_digit. rewrite digit_val_char by assumption.
  apply andb_true_intro; split; apply Z.leb_le; lia.
Qed.

Lemma value_snoc ds c : value (ds ++ [c]) = 10 * value ds + Py.digit_val c.
Proof. unfold value. rewrite fold_left_app. reflexivity. Qed.

Lemma digits_le_value fuel : forall z,
  0 <= z < 2 ^ Z.of_nat fuel -> value (rev (Py.digits_le fuel z)) = z.
Proof.
  induction fuel as [|fuel IH]; intros z Hz.
  - cbn in Hz. assert (z = 0) by lia. subst. reflexivity.
  - cbn [Py.digits_le rev]. rewrite value_snoc.
    assert (Hm : 0 <= z mod 10 <= 9) by (pose proof (Z.mod_pos_bound z 10); lia).
    rewrite digit_val_char by assumption.
    pose proof (Z.div_mod z 10 ltac:(lia)) as Hdm.
    destruct (Z.eqb_spec (z / 10) 0) as [H0|H0].
    + cbn. lia.
    + rewrite IH; [lia|].
      rewrite Nat2Z.inj_succ, Z.pow_succ_r in Hz by lia.
      split; [apply Z.div_pos; lia|].
      apply Z.div_lt_upper_bound; lia.
Qed.

Lemma digits_le_digit fuel : forall z,
  Forall (fun c => Py.is_digit c = true) (Py.digits_le fuel z).
Proof.
  induction fuel as [|fuel IH]; intros z; cbn [Py.digits_le].
  - constructor.
  - constructor.
    + apply is_digit_char. pose proof (Z.mod_pos_bound z 10). lia.
    + destruct (z / 10 =? 0); [constructor | apply IH].
Qed.

Lemma digits_le_length fuel : forall z k,
  0 <= z < 10 ^ Z.of_nat k -> (1 <= k)%nat ->
  (length (Py.digits_le fuel z) <= k)%nat.
Proof.
  induction fuel as [|fuel IH]; intros z k Hz Hk; cbn [Py.digits_le length].
  - lia.
  - destruct (Z.eqb_spec (z / 10) 0) as [H0|H0]; [cbn; lia|].
    destruct k as [|k]; [lia|].
    destruct k as [|k].
    + exfalso. apply H0. apply Z.div_small. cbn in Hz. lia.
    + apply le_n_S. apply IH; [|lia].
      rewrite (Nat2Z.inj_succ (S k)), Z.pow_succ_r in Hz by lia.
      split; [apply Z.div_pos; lia|].
      apply Z.div_lt_upper_bound; lia.
Qed.

Lemma digits_le_nonempty fuel z : Py.digits_le (S fuel) z <> [].
Proof. cbn. discriminate. Qed.

Lemma digits_eq z : Py.digits z = string_of_list_ascii (digit_list z).
Proof. reflexivity. Qed.

Lemma digit_list_value z : 0 <= z -> value (digit_list z) = z.
Proof.
  intros Hz. apply digits_le_value. split; [assumption|].
  destruct (Z.eq_dec z 0) as [->|Hnz]; [cbn; lia|].
  rewrite Nat2Z.inj_succ, Z2Nat.id by apply Z.log2_nonneg.
  apply Z.log2_lt_pow2; lia.
Qed.

Lemma digit_list_digit z :
  Forall (fun c => Py.is_digit c = true) (digit_list z).
Proof. apply Forall_rev, digits_le_digit. Qed.

Lemma digit_list_nonempty z : digit_list z <> [].
Proof.
  unfold digit_list. intros H. apply (f_equal (@rev ascii)) in H.
  rewrite rev_involutive in H. revert H. apply digits_le_nonempty.
Qed.

Lemma digit_list_length z k :
  0 <= z < 10 ^ Z.of_nat k -> (1 <= k)%nat -> (length (digit_list z) <= k)%nat.
Proof.
  intros Hz Hk. unfold digit_list. rewrite length_rev.
  apply digits_le_length; assumption.
Qed.

Lemma digit_char_class c :
  Py.is_digit c = true ->
  Py.is_space c = false /\ Ascii.eqb c "-" = false
  /\ Ascii.eqb c "+" = false /\ Ascii.eqb c "_" = false.
Proof.
  destruct c as [[] [] [] [] [] [] [] []]; vm_compute; intuition congruence.
Qed.

Lemma lstrip_id l :
  match l with c :: _ => Py.is_space c = false | [] => True end ->
  Py.lstrip l = l.
Proof. destruct l as [|c r]; cbn; [reflexivity|]. intros ->. reflexivity. Qed.

Lemma lstrip_digits ds :
  Forall (fun c => Py.is_digit c = true) ds -> Py.lstrip ds = ds.
Proof.
  intros H. apply lstrip_id. destruct H as [|c r Hc _]; [exact I|].
  apply digit_char_class, Hc.
Qed.

Lemma strip_digits ds :
  Forall (fun c => Py.is_digit c = true) ds -> Py.strip ds = ds.
Proof.
  intros H. unfold Py.strip. rewrite (lstrip_digits ds H).
  rewrite lstrip_digits by (apply Forall_rev, H). apply rev_involutive.
Qed.

Lemma strip_minus_digits ds :
  ds <> [] -> Forall (fun c => Py.is_digit c = true) ds ->
  Py.strip ("-"%char :: ds) = "-"%char :: ds.
Proof.
  intros Hne H. unfold Py.strip.
  rewrite (lstrip_id ("-"%char :: ds)) by reflexivity.
  rewrite lstrip_id; [apply rev_involutive|].
  cbn [rev]. apply Forall_rev in H.
  destruct (rev ds) as [|c r] eqn:E.
  - exfalso. apply Hne. apply (f_equal (@rev ascii)) in E.
    rewrite rev_involutive in E. exact E.
  - cbn. inversion H; subst. apply digit_char_class. assumption.
Qed.

Lemma digitpart_true_digits ds :
  Forall (fun c => Py.is_digit c = true) ds -> Py.digitpart true ds = Some ds.
Proof.
  induction 1 as [|c r Hc _ IH]; cbn; [reflexivity|].
  rewrite Hc, IH. reflexivity.
Qed.

Lemma digitpart_false_digits ds :
  ds <> [] -> Forall (fun c => Py.is_digit c = true) ds ->
  Py.digitpart false ds = Some ds.
Proof.
  intros Hne H. destruct H as [|c r Hc Hr]; [congruence|].
  cbn. rewrite Hc, digitpart_true_digits by assumption. reflexivity.
Qed.

(** A literal of digits only: read when it has at most
    [int_max_str_digits] digits, refused when it has more. *)
Lemma int_of_digits ds :
  ds <> [] -> Forall (fun c => Py.is_digit c = true) ds ->
  Py.int (string_of_list_ascii ds)
  = if (Py.int_max_str_digits <? length ds)%nat then None
    else Some (value ds).
Proof.
  intros Hne H. unfold Py.int.
  rewrite list_ascii_of_string_of_list_ascii, strip_digits by assumption.
  destruct ds as [|c r]; [congruence|].
  inversion H as [|? ? Hc Hr]; subst.
  destruct (digit_char_class c Hc) as (_ & -> & -> & _).
  rewrite digitpart_false_digits by assumption. reflexivity.
Qed.

Lemma int_digits ds :
  ds <> [] -> Forall (fun c => Py.is_digit c = true) ds ->
  (length ds <= Py.int_max_str_digits)%nat ->
  Py.int (string_of_list_ascii ds) = Some (value ds).
Proof.
  intros Hne H Hlen. rewrite int_of_digits by assumption.
  destruct (Nat.ltb_spec Py.int_max_str_digits (length ds)); [lia|].
  reflexivity.
Qed.

Lemma int_too_long ds :
  Forall (fun c => Py.is_digit c = true) ds ->
  (Py.int_max_str_digits < length ds)%nat ->
  Py.int (string_of_list_ascii ds) = None.
Proof.
  intros H Hlen. rewrite int_of_digits; [| |exact H].
  - destruct (Nat.ltb_spec Py.int_max_str_digits (length ds)); [|lia].
    reflexivity.
  - intros ->. cbn in Hlen. lia.
Qed.

Lemma int_minus_digits ds :
  ds <> [] -> Forall (fun c => Py.is_digit c = true) ds ->
  (length ds <= Py.int_max_str_digits)%nat ->
  Py.int (String "-" (string_of_list_ascii ds)) = Some (- value ds).
Proof.
  intros Hne H Hlen. unfold Py.int.
  change (list_ascii_of_string (String "-" (string_of_list_ascii ds)))
    with ("-"%char :: list_ascii_of_string (string_of_list_ascii ds)).
  rewrite list_ascii_of_string_of_list_ascii, strip_minus_digits by assumption.
  change (Ascii.eqb "-"%char "-"%char) with true. cbv beta iota zeta.
  rewrite digitpart_false_digits by assumption.
  destruct (Nat.ltb_spec Py.int_max_str_digits (length ds)); [lia|].
  reflexivity.
Qed.

Lemma chars_append a b :
  list_ascii_of_string (String.append a b)
  = list_ascii_of_string a ++ list_ascii_of_string b.
Proof. induction a as [|c a IH]; simpl; [reflexivity|]. now rewrite IH. Qed.

Lemma chars_zeros k : list_ascii_of_string (Py.zeros k) = repeat "0"%char k.
Proof. induction k as [|k IH]; cbn; [reflexivity|]. now rewrite IH. Qed.

Lemma length_chars s : length (list_ascii_of_string s) = String.length s.
Proof. induction s as [|c s IH]; cbn; [reflexivity|]. now rewrite IH. Qed.

Lemma length_digits z : String.length (Py.digits z) = length (digit_list z).
Proof.
  rewrite digits_eq, <- length_chars, list_ascii_of_string_of_list_ascii.
  reflexivity.
Qed.

Lemma chars_lpad0 w z :
  list_ascii_of_string (Py.lpad0 w (Py.digits z))
  = repeat "0"%char (w - length (digit_list z)) ++ digit_list z.
Proof.
  unfold Py.lpad0. rewrite chars_append, chars_zeros, length_digits.
  rewrite digits_eq, list_ascii_of_string_of_list_ascii. reflexivity.
Qed.

Lemma value_zeros k ds : value (repeat "0"%char k ++ ds) = value ds.
Proof.
  unfold value. rewrite fold_left_app. f_equal.
  induction k as [|k IH]; [reflexivity|].
  replace (S k) with (k + 1)%nat by lia.
  rewrite repeat_app, fold_left_app, IH. reflexivity.
Qed.

Lemma padded_digits w z :
  Forall (fun c => Py.is_digit c = true)
    (repeat "0"%char w ++ digit_list z).
Proof.
  apply Forall_app; split; [|apply digit_list_digit].
  induction w as [|w IH]; cbn; constructor; [reflexivity | exact IH].
Qed.

Lemma padded_nonempty w z : repeat "0"%char w ++ digit_list z <> [].
Proof.
  intros H. apply app_eq_nil in H. destruct H as [_ H].
  revert H. apply digit_list_nonempty.
Qed.

Lemma lpad0_repr w z :
  Py.lpad0 w (Py.digits z)
  = string_of_list_ascii
      (repeat "0"%char (w - length (digit_list z)) ++ digit_list z).
Proof. rewrite <- chars_lpad0, string_of_list_ascii_of_string. reflexivity. Qed.

Lemma max_digits_ge : (56 <= Py.int_max_str_digits)%nat.
Proof. apply Nat.leb_le. vm_compute. reflexivity. Qed.

Lemma padded_length w z :
  0 <= z < max_int_read -> (w <= Py.int_max_str_digits)%nat ->
  (length (repeat "0"%char (w - length (digit_list z)) ++ digit_list z)
   <= Py.int_max_str_digits)%nat.
Proof.
  intros Hz Hw. rewrite length_app, repeat_length.
  pose proof (digit_list_length z Py.int_max_str_digits Hz) as Hl.
  pose proof max_digits_ge. lia.
Qed.

(** Parsing inverts rendering, for every integer of at most
    [int_max_str_digits] digits. *)
Lemma int_format_056d z :
  - max_int_read < z < max_int_read -> Py.int (Py.format_056d z) = Some z.
Proof.
  intros Hz. pose proof max_digits_ge as H56.
  unfold Py.format_056d. destruct (Z.ltb_spec z 0) as [Hneg|Hpos].
  - rewrite lpad0_repr, int_minus_digits
      by (apply padded_nonempty || apply padded_digits
          || (apply padded_length; lia)).
    rewrite value_zeros, digit_list_value by lia. f_equal. lia.
  - rewrite lpad0_repr, int_digits
      by (apply padded_nonempty || apply padded_digits
          || (apply padded_length; lia)).
    rewrite value_zeros, digit_list_value by lia. reflexivity.
Qed.

Lemma max_int_read_ge : 10 ^ 56 <= max_int_read.
Proof.
  unfold max_int_read. apply Z.pow_le_mono_r; [lia|].
  pose proof max_digits_ge. lia.
Qed.

(** A rendering is the rendering of one integer only. *)
Lemma format_056d_chars z :
  list_ascii_of_string (Py.format_056d z)
  = if z <? 0 then
      "-"%char :: repeat "0"%char (55 - length (digit_list (- z)))
                  ++ digit_list (- z)
    else repeat "0"%char (56 - length (digit_list z)) ++ digit_list z.
Proof.
  unfold Py.format_056d. destruct (z <? 0).
  - cbn [list_ascii_of_string]. rewrite chars_lpad0. reflexivity.
  - apply chars_lpad0.
Qed.

Lemma length_lpad0 w z k :
  0 <= z < 10 ^ Z.of_nat k -> (1 <= k <= w)%nat ->
  String.length (Py.lpad0 w (Py.digits z)) = w.
Proof.
  intros Hz Hk. rewrite <- length_chars, chars_lpad0, length_app, repeat_length.
  pose proof (digit_list_length z k Hz ltac:(lia)). lia.
Qed.

(** Fifty-six characters, for every index a list can have and for -1. *)
Lemma length_format_056d z :
  - 10 ^ 55 < z < 10 ^ 56 -> String.length (Py.format_056d z) = 56%nat.
Proof.
  intros Hz. unfold Py.format_056d. destruct (Z.ltb_spec z 0) as [Hneg|Hpos].
  - cbn [String.length]. f_equal. apply (length_lpad0 55 (- z) 55); lia.
  - apply (length_lpad0 56 z 56); lia.
Qed.

Lemma all_digits_format_056d z : 0 <= z -> all_digits (Py.format_056d z).
Proof.
  intros Hz. unfold all_digits, Py.format_056d.
  destruct (Z.ltb_spec z 0); [lia|].
  rewrite chars_lpad0. apply padded_digits.
Qed.

End Decimal.

(** ** Sorting and slicing *)

Section Sorting.
Context {A : Type} (key : A -> Z).

Lemma insert_Permutation x l : Permutation (Py.insert key x l) (x :: l).
Proof.
  induction l as [|y r IH]; cbn; [reflexivity|].
  destruct (key x <=? key y); [reflexivity|].
  rewrite IH. apply perm_swap.
Qed.

Lemma sorted_Permutation l : Permutation (Py.sorted key l) l.
Proof.
  induction l as [|x r IH]; cbn; [reflexivity|].
  rewrite insert_Permutation. now constructor.
Qed.

Lemma sorted_length l : length (Py.sorted key l) = length l.
Proof. apply Permutation_length, sorted_Permutation. Qed.

Lemma insert_StronglySorted x l :
  ascending key l -> ascending key (Py.insert key x l).
Proof.
  induction 1 as [|y r Hr IH Hy]; cbn.
  - repeat constructor.
  - destruct (Z.leb_spec (key x) (key y)) as [Hxy|Hxy].
    + constructor; [constructor; assumption|].
      constructor; [exact Hxy|].
      eapply List.Forall_impl; [|exact Hy]. unfold le_key in *. intros; lia.
    + constructor; [exact IH|].
      eapply Permutation_Forall; [symmetry; apply insert_Permutation|].
      constructor; [unfold le_key in *; lia | exact Hy].
Qed.

Lemma sorted_StronglySorted l : ascending key (Py.sorted key l).
Proof.
  induction l as [|x r IH]; cbn; [constructor|].
  apply insert_StronglySorted, IH.
Qed.

(** A contiguous part of an ascending list is ascending. *)
Lemma StronglySorted_skipn k l :
  ascending key l -> ascending key (skipn k l).
Proof.
  revert l. induction k as [|k IH]; intros l H; [exact H|].
  destruct l as [|x r]; [constructor|]. cbn. apply IH.
  now inversion H.
Qed.

Lemma StronglySorted_firstn k l :
  ascending key l -> ascending key (firstn k l).
Proof.
  revert l. induction k as [|k IH]; intros l H; [constructor|].
  destruct l as [|x r]; [constructor|]. cbn.
  inversion H as [|? ? Hr Hx]; subst. constructor; [apply IH, Hr|].
  clear -Hx. revert k. induction Hx as [|y r Hy _ IHr]; intros k.
  - destruct k; constructor.
  - destruct k; cbn; constructor; [exact Hy | apply IHr].
Qed.

Lemma StronglySorted_slice l lo hi :
  ascending key l -> ascending key (Py.slice l lo hi).
Proof.
  intros H. unfold Py.slice.
  apply StronglySorted_firstn, StronglySorted_skipn, H.
Qed.
End Sorting.

Section Slicing.
Context {A : Type}.

(** The part of [l] at the indices [a..b], indices outside [l] left out,
    is [l[max(0,a) : min(b, len(l) - 1) + 1]]. *)
Lemma slice_clamped (l : list A) a b :
  a <= Z.of_nat (length l) - 1 -> 0 <= b ->
  Py.slice l (Z.max 0 a) (Z.min b (Z.of_nat (length l) - 1) + 1)
  = firstn (Z.to_nat (b + 1) - Z.to_nat a) (skipn (Z.to_nat a) l).
Proof.
  intros Ha Hb. unfold Py.slice.
  set (n := Z.of_nat (length l)) in *.
  destruct (Z.ltb_spec (Z.max 0 a) 0); [lia|].
  destruct (Z.ltb_spec (Z.min b (n - 1) + 1) 0); [lia|].
  replace (Z.to_nat (Z.min (Z.max 0 a) n)) with (Z.to_nat a) by lia.
  set (k := Z.to_nat a).
  destruct (Z.le_gt_cases b (n - 1)) as [Hle|Hgt].
  - f_equal. lia.
  - rewrite !firstn_all2; [reflexivity| |]; rewrite length_skipn; lia.
Qed.

Lemma slice_length (l : list A) lo hi :
  0 <= lo -> 0 <= hi <= Z.of_nat (length l) ->
  Z.of_nat (length (Py.slice l lo hi)) = Z.max 0 (hi - lo).
Proof.
  intros Hlo Hhi. unfold Py.slice.
  destruct (Z.ltb_spec lo 0); [lia|]. destruct (Z.ltb_spec hi 0); [lia|].
  rewrite length_firstn, length_skipn. lia.
Qed.

Lemma firstn_skipn_out (l : list A) a b :
  Z.of_nat (length l) - 1 < a \/ b < 0 ->
  firstn (Z.to_nat (b + 1) - Z.to_nat a) (skipn (Z.to_nat a) l) = [].
Proof.
  intros [Ha|Hb].
  - rewrite skipn_all2 by lia. apply firstn_nil.
  - replace (Z.to_nat (b + 1) - Z.to_nat a)%nat with O by lia. reflexivity.
Qed.
End Slicing.

(** ** get_log_events, case by case *)

Section GetLogEvents.
Variables (log_group_name log_stream_name : string).
Variables (start_time end_time : option Z) (limit : Z).
Variable h : Heap LogStream.t.

Let evs := LogStream.sorted_events start_time end_time (snd h).
Let final_index := Z.of_nat (length evs) - 1.

Lemma get_log_events_frame next_token start_from_head :
  after (LogStream.get_log_events log_group_name log_stream_name
           start_time end_time limit next_token start_from_head) h = h.
Proof.
  unfold after, LogStream.get_log_events, bind, self, LogStream.lift, ret.
  cbn [fst snd].
  destruct (LogStream.get_index_and_direction_from_token next_token)
    as [[d i]|e]; [|reflexivity].
  destruct (LogStream.window d i _ _ start_from_head) as [[a b]|e];
    [|reflexivity].
  repeat match goal with |- context [if ?c then _ else _] => destruct c end;
    reflexivity.
Qed.

(** The outcome, by the three ways the window can lie. *)
Lemma get_log_events_outcome next_token start_from_head :
  outcome (LogStream.get_log_events log_group_name log_stream_name
             start_time end_time limit next_token start_from_head) h
  = match LogStream.get_index_and_direction_from_token next_token with
    | Raise e => Raise e
    | Ok (direction, index) =>
        match LogStream.window direction index (limit - 1) final_index
                start_from_head with
        | Raise e => Raise e
        | Ok (a, b) =>
            if final_index <? a then
              Ok ([], token "b" final_index, token "f" final_index)
            else if b <? 0 then Ok ([], token "b" 0, token "f" 0)
            else
              Ok (map LogEvent.to_response_dict
                    (Py.slice evs (Z.max 0 a) (Z.min b final_index + 1)),
                  token "b" (Z.max 0 a), token "f" (Z.min b final_index))
        end
    end.
Proof.
  unfold outcome, LogStream.get_log_events, bind, self, LogStream.lift, ret.
  cbn [fst snd]. fold evs. fold final_index.
  destruct (LogStream.get_index_and_direction_from_token next_token)
    as [[d i]|e]; [|reflexivity].
  destruct (LogStream.window d i _ _ start_from_head) as [[a b]|e];
    [|reflexivity].
  assert (Hf : -1 <= final_index) by (unfold final_index; lia).
  rewrite !Z.gtb_ltb.
  destruct (Z.ltb_spec a 0), (Z.ltb_spec final_index a),
    (Z.ltb_spec final_index b), (Z.ltb_spec b 0);
    cbn [fst]; try lia; try reflexivity;
    rewrite ?Z.max_l, ?Z.max_r, ?Z.min_l, ?Z.min_r by lia; reflexivity.
Qed.

(** In every case the page holds the events of the view at the indices of
    the window, the indices outside the view left out. *)
Lemma get_log_events_page next_token start_from_head direction index a b :
  LogStream.get_index_and_direction_from_token next_token
  = Ok (direction, index) ->
  LogStream.window direction index (limit - 1) final_index start_from_head
  = Ok (a, b) ->
  exists backward forward,
    outcome (LogStream.get_log_events log_group_name log_stream_name
               start_time end_time limit next_token start_from_head) h
    = Ok (map LogEvent.to_response_dict
            (firstn (Z.to_nat (b + 1) - Z.to_nat a)
               (skipn (Z.to_nat a) evs)),
          backward, forward).
Proof.
  intros Htok Hwin. rewrite get_log_events_outcome, Htok, Hwin.
  destruct (Z.ltb_spec final_index a) as [Ha|Ha].
  - rewrite firstn_skipn_out by (left; exact Ha). eauto.
  - destruct (Z.ltb_spec b 0) as [Hb|Hb].
    + rewrite firstn_skipn_out by (right; exact Hb). eauto.
    + unfold final_index in *. rewrite slice_clamped by lia. eauto.
Qed.
End GetLogEvents.

(** ** Tokens *)

Lemma max_int_read_gt : 1 < max_int_read.
Proof.
  pose proof max_int_read_ge.
  assert (1 < 10 ^ 56) by (vm_compute; reflexivity). lia.
Qed.

(** The indices a call puts in its tokens lie between -1 and final_index
    (or 0): [int()] reads them back when the view has fewer than
    [max_int_read] events. *)
Lemma index_readable final i :
  final < max_int_read -> -1 <= i <= Z.max 0 final ->
  - max_int_read < i < max_int_read.
Proof. intros Hf Hi. pose proof max_int_read_gt. lia. Qed.

Lemma get_index_token c i :
  - max_int_read < i < max_int_read ->
  LogStream.get_index_and_direction_from_token (Some (token c i))
  = Ok (Some c, i).
Proof.
  intros Hi. unfold LogStream.get_index_and_direction_from_token, token.
  cbn [Py.head Py.from]. rewrite int_format_056d by exact Hi. reflexivity.
Qed.

Lemma window_f i limit_index final start_from_head :
  LogStream.window (Some "f"%char) i limit_index final start_from_head
  = Ok (i + 1, i + 1 + limit_index).
Proof. reflexivity. Qed.

Lemma window_b i limit_index final start_from_head :
  LogStream.window (Some "b"%char) i limit_index final start_from_head
  = Ok (i - 1 - limit_index, i - 1).
Proof. reflexivity. Qed.

Lemma final_index_ge st et h : -1 <= final_index st et h.
Proof. unfold final_index. lia. Qed.

(** ** The claims *)

(** C10. [get_log_events] and [filter_log_events] of a stream only read:
    whatever the arguments, and whether the call returns or raises, the
    state it leaves (the stream with its events, storedBytes,
    uploadSequenceToken and lastIngestionTime, and the class counters) is
    the state it found. *)
Theorem C10_reads_leave_stream_unchanged :
  forall (h : Heap LogStream.t) (log_group_name log_stream_name : string)
         (log_stream_names : option (list string))
         (start_time end_time : option Z) (limit : Z)
         (next_token : option string) (start_from_head : bool)
         (offset : option Z) (filter_pattern : option string)
         (interleaved : bool),
    let h1 :=
      after (LogStream.get_log_events log_group_name log_stream_name
               start_time end_time limit next_token start_from_head) h in
    let h2 :=
      after (LogStream.filter_log_events log_group_name log_stream_names
               start_time end_time limit offset filter_pattern interleaved)
            h in
    (h1 = h
     /\ LogStream.events (snd h1) = LogStream.events (snd h)
     /\ LogStream.storedBytes (snd h1) = LogStream.storedBytes (snd h)
     /\ LogStream.uploadSequenceToken (snd h1)
        = LogStream.uploadSequenceToken (snd h)
     /\ LogStream.lastIngestionTime (snd h1)
        = LogStream.lastIngestionTime (snd h))
    /\ (h2 = h
        /\ LogStream.events (snd h2) = LogStream.events (snd h)
        /\ LogStream.storedBytes (snd h2) = LogStream.storedBytes (snd h)
        /\ LogStream.uploadSequenceToken (snd h2)
           = LogStream.uploadSequenceToken (snd h)
        /\ LogStream.lastIngestionTime (snd h2)
           = LogStream.lastIngestionTime (snd h)).
Proof.
  intros h g n names st et limit tok sfh off pat il h1 h2.
  assert (E1 : h1 = h) by apply get_log_events_frame.
  assert (E2 : h2 = h).
  { unfold h2, after, LogStream.filter_log_events.
    destruct (Py.truthy_str pat); reflexivity. }
  rewrite E1, E2. repeat split.
Qed.

(** C3. [get_log_events] raises InvalidParameter, with the message
    "The specified nextToken is invalid.", exactly when a token is supplied
    whose direction character is neither [f] nor [b] or whose part after
    the first two characters [int()] does not parse; it raises nothing
    else.  With direction [f] the window starts at [index + 1], with
    direction [b] it ends at [index - 1], and the page holds the events of
    the view in that window.  What [int()] does not parse includes a
    numeral of more than 4300 digits, the interpreter's limit: a token with
    such a part raises as well. *)
Theorem C3_invalid_token_and_directions :
  forall (h : Heap LogStream.t) (log_group_name log_stream_name : string)
         (start_time end_time : option Z) (limit : Z)
         (next_token : option string) (start_from_head : bool),
    let call tok :=
      outcome (LogStream.get_log_events log_group_name log_stream_name
                 start_time end_time limit tok start_from_head) h in
    let evs := view start_time end_time h in
    (call next_token
       = Raise (InvalidParameterException "The specified nextToken is invalid.")
     <-> exists t, next_token = Some t
                   /\ (other_direction t \/ Py.int (Py.from 2 t) = None))
    /\ (forall e, call next_token = Raise e ->
          e = InvalidParameterException "The specified nextToken is invalid.")
    /\ (forall t index,
          Py.head t = Some "f"%char -> Py.int (Py.from 2 t) = Some index ->
          exists a b backward forward,
            LogStream.window (Some "f"%char) index (limit - 1)
              (final_index start_time end_time h) start_from_head = Ok (a, b)
            /\ a = index + 1 /\ b - a + 1 = limit
            /\ call (Some t)
               = Ok (map LogEvent.to_response_dict (between evs a b),
                     backward, forward))
    /\ (forall t index,
          Py.head t = Some "b"%char -> Py.int (Py.from 2 t) = Some index ->
          exists a b backward forward,
            LogStream.window (Some "b"%char) index (limit - 1)
              (final_index start_time end_time h) start_from_head = Ok (a, b)
            /\ b = index - 1 /\ b - a + 1 = limit
            /\ call (Some t)
               = Ok (map LogEvent.to_response_dict (between evs a b),
                     backward, forward))
    /\ (forall t digits,
          Py.from 2 t = string_of_list_ascii digits ->
          Forall (fun c => Py.is_digit c = true) digits ->
          (Py.int_max_str_digits < length digits)%nat ->
          call (Some t)
          = Raise (InvalidParameterException
                     "The specified nextToken is invalid.")).
Proof.
  intros h g n st et limit tok sfh call evs.
  assert (Hcases :
    match tok with
    | None => exists p, call tok = Ok p
    | Some t =>
        match Py.head t, Py.int (Py.from 2 t) with
        | Some c, Some i =>
            if Ascii.eqb c "f" then exists p, call tok = Ok p
            else if Ascii.eqb c "b" then exists p, call tok = Ok p
            else call tok = Raise LogStream.invalid_token
        | _, _ => call tok = Raise LogStream.invalid_token
        end
    end).
  { unfold call. rewrite get_log_events_outcome.
    destruct tok as [t|]; cbn [LogStream.get_index_and_direction_from_token].
    - destruct (Py.head t) as [c|]; [|reflexivity].
      destruct (Py.int (Py.from 2 t)) as [i|]; [|reflexivity].
      unfold LogStream.window.
      destruct (Ascii.eqb c "f");
        [repeat match goal with
                | |- context [if ?c then _ else _] => destruct c
                end; eauto|].
      destruct (Ascii.eqb c "b");
        [repeat match goal with
                | |- context [if ?c then _ else _] => destruct c
                end; eauto|].
      reflexivity.
    - unfold LogStream.window.
      repeat match goal with
             | |- context [if ?c then _ else _] => destruct c
             end; eauto. }
  unfold LogStream.invalid_token in Hcases.
  split; [|split; [|split; [|split]]].
  5:{ intros t ds Hfrom Hds Hlen. unfold call.
      rewrite get_log_events_outcome.
      cbn [LogStream.get_index_and_direction_from_token].
      rewrite Hfrom, (int_too_long ds Hds Hlen).
      destruct (Py.head t); reflexivity. }
  - split.
    + intros Hr. destruct tok as [t|].
      * exists t. split; [reflexivity|].
        destruct t as [|c r]; [right; reflexivity|].
        cbn [Py.head] in Hcases.
        destruct (Py.int (Py.from 2 (String c r))) as [i|]; [|right; reflexivity].
        left. exists c, r. split; [reflexivity|].
        destruct (Ascii.eqb_spec c "f") as [->|Hf].
        { destruct Hcases as [p Hp]. congruence. }
        destruct (Ascii.eqb_spec c "b") as [->|Hb].
        { destruct Hcases as [p Hp]. congruence. }
        split; assumption.
      * destruct Hcases as [p Hp]. congruence.
    + intros (t & -> & Hbad).
      destruct Hbad as [(c & r & -> & Hf & Hb)|Hint].
      * cbn [Py.head] in Hcases.
        destruct (Py.int (Py.from 2 (String c r))); [|exact Hcases].
        destruct (Ascii.eqb_spec c "f"); [contradiction|].
        destruct (Ascii.eqb_spec c "b"); [contradiction|]. exact Hcases.
      * rewrite Hint in Hcases. destruct (Py.head t); exact Hcases.
  - intros e He. destruct tok as [t|].
    + destruct (Py.head t) as [c|]; [|congruence].
      destruct (Py.int (Py.from 2 t)) as [i|]; [|congruence].
      destruct (Ascii.eqb c "f"); [destruct Hcases; congruence|].
      destruct (Ascii.eqb c "b"); [destruct Hcases; congruence|].
      congruence.
    + destruct Hcases; congruence.
  - intros t i Hd Hi.
    destruct (get_log_events_page g n st et limit h (Some t) sfh
                (Some "f"%char) i (i + 1) (i + 1 + (limit - 1)))
      as (bt & ft & Hp).
    { cbn [LogStream.get_index_and_direction_from_token].
      rewrite Hd, Hi. reflexivity. }
    { reflexivity. }
    exists (i + 1), (i + 1 + (limit - 1)), bt, ft.
    repeat split; [lia | exact Hp].
  - intros t i Hd Hi.
    destruct (get_log_events_page g n st et limit h (Some t) sfh
                (Some "b"%char) i (i - 1 - (limit - 1)) (i - 1))
      as (bt & ft & Hp).
    { cbn [LogStream.get_index_and_direction_from_token].
      rewrite Hd, Hi. reflexivity. }
    { reflexivity. }
    exists (i - 1 - (limit - 1)), (i - 1), bt, ft.
    repeat split; [lia | exact Hp].
Qed.

(** C2, counterexample.  On a stream without events, a fresh query from the
    head with limit 0 has the window [0, -1]: its start exceeds
    final_index = -1 and its end is below 0.  The call answers with both
    tokens at final_index, not at 0.  Besides, of the two tokens a boundary
    page returns only the one in the direction of travel repeats it: on the
    stream with timestamps 10..50 and limit 2, the token f/4 gives the empty
    page with b/4 and f/4, and the call repeated with b/4 gives the page
    [30, 40]. *)
Lemma C2_counterexample_end_below_zero_anchored_at_final :
  (let h := (globals0, fresh_stream) in
   final_index None None h = -1
   /\ LogStream.get_index_and_direction_from_token None = Ok (None, 0)
   /\ LogStream.window None 0 (0 - 1) (final_index None None h) true
      = Ok (0, -1)
   /\ -1 < 0
   /\ outcome (LogStream.get_log_events "g" "s" None None 0 None true) h
      = Ok ([], token "b" (-1), token "f" (-1))
   /\ outcome (LogStream.get_log_events "g" "s" None None 0 None true) h
      <> Ok ([], token "b" 0, token "f" 0))
  /\ (outcome (LogStream.get_log_events "g" "s" None None 2
                 (Some (token "f" 4)) true) demo_stream
      = Ok ([], token "b" 4, token "f" 4)
      /\ page_timestamps
           (outcome (LogStream.get_log_events "g" "s" None None 2
                       (Some (token "b" 4)) true) demo_stream)
         = Some ([30; 40], token "f" 3)).
Proof.
  cbv zeta. repeat split; try reflexivity; try lia.
  vm_compute. discriminate.
Qed.

(** C2, as amended.  For a window [a, b] (before clamping) of any token:
    if [a] exceeds final_index the page is empty with both tokens at
    final_index, and the call repeated with the returned forward token gives
    the same answer; if [a] does not exceed final_index and [b] is below 0
    the page is empty with both tokens at 0, and, for a limit of at least 1,
    the call repeated with the returned backward token gives the same
    answer. *)
Theorem C2_boundary_pages :
  forall (h : Heap LogStream.t) (log_group_name log_stream_name : string)
         (start_time end_time : option Z) (limit : Z)
         (next_token : option string) (start_from_head : bool)
         (direction : option ascii) (index a b : Z),
    let call tok :=
      outcome (LogStream.get_log_events log_group_name log_stream_name
                 start_time end_time limit tok start_from_head) h in
    let final := final_index start_time end_time h in
    LogStream.get_index_and_direction_from_token next_token
    = Ok (direction, index) ->
    LogStream.window direction index (limit - 1) final start_from_head
    = Ok (a, b) ->
    (final < a ->
       call next_token = Ok ([], token "b" final, token "f" final)
       /\ (final < max_int_read ->
             call (Some (token "f" final))
             = Ok ([], token "b" final, token "f" final)))
    /\ (a <= final -> b < 0 ->
          call next_token = Ok ([], token "b" 0, token "f" 0)
          /\ (1 <= limit ->
                call (Some (token "b" 0))
                = Ok ([], token "b" 0, token "f" 0))).
Proof.
  intros h g n st et limit tok sfh d i a b call final Htok Hwin.
  pose proof (final_index_ge st et h) as Hfin. fold final in Hfin.
  unfold call. split.
  - intros Ha. split.
    + rewrite get_log_events_outcome, Htok. fold (view st et h).
      fold (final_index st et h). fold final. rewrite Hwin.
      destruct (Z.ltb_spec final a); [reflexivity | lia].
    + intros Hread. rewrite get_log_events_outcome.
      rewrite get_index_token by (apply (index_readable final); lia).
      rewrite window_f.
      fold (view st et h). fold (final_index st et h). fold final.
      destruct (Z.ltb_spec final (final + 1)); [reflexivity | lia].
  - intros Ha Hb. split.
    + rewrite get_log_events_outcome, Htok. fold (view st et h).
      fold (final_index st et h). fold final. rewrite Hwin.
      destruct (Z.ltb_spec final a); [lia|].
      destruct (Z.ltb_spec b 0); [reflexivity | lia].
    + intros Hlimit.
      rewrite get_log_events_outcome.
      rewrite get_index_token by (pose proof max_int_read_gt; lia).
      rewrite window_b.
      fold (view st et h). fold (final_index st et h). fold final.
      destruct (Z.ltb_spec final (0 - 1 - (limit - 1))); [lia|].
      destruct (Z.ltb_spec (0 - 1) 0); [reflexivity | lia].
Qed.

(** C4, counterexample.  The forward token of the first page of the stream
    with timestamps 10, 20, 30, 40, 50 (limit 2, from the head) has one
    separator character between the direction and the digits, so it is not
    of the form direction, two spacers, fifty-six digits. *)
Lemma C4_counterexample_one_separator :
  exists events_page backward forward,
    outcome (LogStream.get_log_events "g" "s" None None 2 None true)
            demo_stream
    = Ok (events_page, backward, forward)
    /\ events_page <> []
    /\ forward = "f/00000000000000000000000000000000000000000000000000000001"
    /\ ~ spec_token_format forward
    /\ ~ spec_token_format backward.
Proof.
  do 3 eexists. split; [vm_compute; reflexivity|].
  split; [discriminate|]. split; [reflexivity|].
  split; intros (d & s1 & s2 & ix & E & _ & Hlen & _);
    injection E as _ _ _ <-; vm_compute in Hlen; discriminate.
Qed.

(** C4, as amended.  Every token [get_log_events] returns is a direction
    character ([b] for backwardToken, [f] for forwardToken), the single
    separator [/], and an index rendered by ["{:056d}"]; the index is
    between -1 and final_index (or 0), and negative only when the view is
    empty.  For a view of fewer than 10^56 events the rendering has 56
    characters, all of them decimal digits when the index is not negative,
    and parses back to the index.  A page that is not empty is the part
    [start_index .. end_index] of the view, backwardToken holding
    [start_index] and forwardToken [end_index]. *)
Theorem C4_token_format :
  forall (h : Heap LogStream.t) (log_group_name log_stream_name : string)
         (start_time end_time : option Z) (limit : Z)
         (next_token : option string) (start_from_head : bool)
         (events_page : list ResponseDict) (backward forward : string),
    let evs := view start_time end_time h in
    let final := final_index start_time end_time h in
    outcome (LogStream.get_log_events log_group_name log_stream_name
               start_time end_time limit next_token start_from_head) h
    = Ok (events_page, backward, forward) ->
    exists start_index end_index,
      backward = String "b" (String "/" (Py.format_056d start_index))
      /\ forward = String "f" (String "/" (Py.format_056d end_index))
      /\ -1 <= start_index <= Z.max 0 final
      /\ -1 <= end_index <= Z.max 0 final
      /\ (0 <= final -> 0 <= start_index /\ 0 <= end_index)
      /\ (events_page <> [] ->
            0 <= start_index <= end_index /\ end_index <= final
            /\ events_page
               = map LogEvent.to_response_dict
                   (Py.slice evs start_index (end_index + 1))
            /\ Z.of_nat (length events_page) = end_index - start_index + 1)
      /\ (final < 10 ^ 56 ->
            String.length (Py.format_056d start_index) = 56%nat
            /\ String.length (Py.format_056d end_index) = 56%nat
            /\ (0 <= start_index -> all_digits (Py.format_056d start_index))
            /\ (0 <= end_index -> all_digits (Py.format_056d end_index))
            /\ Py.int (Py.format_056d start_index) = Some start_index
            /\ Py.int (Py.format_056d end_index) = Some end_index).
Proof.
  intros h g n st et limit tok sfh page bt ft evs final H.
  pose proof (final_index_ge st et h) as Hfin. fold final in Hfin.
  assert (Hfmt : forall i j, -1 <= i <= Z.max 0 final ->
                   -1 <= j <= Z.max 0 final -> final < 10 ^ 56 ->
            String.length (Py.format_056d i) = 56%nat
            /\ String.length (Py.format_056d j) = 56%nat
            /\ (0 <= i -> all_digits (Py.format_056d i))
            /\ (0 <= j -> all_digits (Py.format_056d j))
            /\ Py.int (Py.format_056d i) = Some i
            /\ Py.int (Py.format_056d j) = Some j).
  { intros i j Hi Hj Hbig.
    assert (- 10 ^ 55 < -1) by (vm_compute; reflexivity).
    assert (0 < 10 ^ 56) by (vm_compute; reflexivity).
    repeat split; try (apply length_format_056d; lia);
      try (apply all_digits_format_056d; lia);
      apply int_format_056d; pose proof max_int_read_ge; lia. }
  rewrite get_log_events_outcome in H.
  fold (view st et h) in H.
  fold (final_index st et h) in H. fold final in H. fold evs in H.
  destruct (LogStream.get_index_and_direction_from_token tok) as [[d i]|e];
    [|discriminate].
  destruct (LogStream.window d i (limit - 1) final sfh) as [[a b]|e];
    [|discriminate].
  revert H. destruct (Z.ltb_spec final a) as [Ha|Ha].
  { intros H. injection H as <- <- <-. exists final, final.
    split; [reflexivity|]. split; [reflexivity|].
    split; [lia|]. split; [lia|]. split; [lia|].
    split; [congruence | apply Hfmt; lia]. }
  destruct (Z.ltb_spec b 0) as [Hb|Hb].
  { intros H. injection H as <- <- <-. exists 0, 0.
    split; [reflexivity|]. split; [reflexivity|].
    split; [lia|]. split; [lia|]. split; [lia|].
    split; [congruence | apply Hfmt; lia]. }
  intros H. injection H as <- <- <-. exists (Z.max 0 a), (Z.min b final).
  split; [reflexivity|]. split; [reflexivity|].
  split; [lia|]. split; [lia|]. split; [lia|].
  split; [|apply Hfmt; lia].
  intros Hne.
  assert (Hlen : Z.of_nat (length (Py.slice evs (Z.max 0 a) (Z.min b final + 1)))
                 = Z.max 0 (Z.min b final + 1 - Z.max 0 a)).
  { apply slice_length; [lia|]. subst final evs. unfold final_index in *.
    lia. }
  rewrite List.length_map.
  destruct (Py.slice evs (Z.max 0 a) (Z.min b final + 1)) eqn:E;
    [cbn in Hne; congruence|].
  cbn [length] in Hlen |- *. repeat split; try lia.
Qed.

(** ** Paging forward *)

Section ForwardPaging.
Variables (log_group_name log_stream_name : string).
Variables (start_time end_time : option Z) (limit : Z).
Variable h : Heap LogStream.t.

Let evs := view start_time end_time h.
Let final := final_index start_time end_time h.
Let get tok sfh :=
  LogStream.get_log_events log_group_name log_stream_name
    start_time end_time limit tok sfh.

(** The view has fewer events than [int()] reads digits for. *)
Hypothesis Hreadable : final < max_int_read.

Lemma get_log_events_run tok sfh :
  get tok sfh h = (outcome (get tok sfh) h, h).
Proof.
  rewrite <- (get_log_events_frame log_group_name log_stream_name
                start_time end_time limit h tok sfh) at 3.
  unfold outcome, after, get. apply surjective_pairing.
Qed.

(** The call that follows a forward token. *)
Lemma forward_call e sfh :
  - max_int_read < e < max_int_read ->
  outcome (get (Some (token "f" e)) sfh) h
  = if final <? e + 1 then Ok ([], token "b" final, token "f" final)
    else if e + 1 + (limit - 1) <? 0 then Ok ([], token "b" 0, token "f" 0)
    else
      Ok (map LogEvent.to_response_dict
            (Py.slice evs (Z.max 0 (e + 1))
               (Z.min (e + 1 + (limit - 1)) final + 1)),
          token "b" (Z.max 0 (e + 1)),
          token "f" (Z.min (e + 1 + (limit - 1)) final)).
Proof.
  intros He. unfold get.
  rewrite get_log_events_outcome, get_index_token, window_f by exact He.
  reflexivity.
Qed.

Lemma head_call :
  outcome (get None true) h
  = if final <? 0 then Ok ([], token "b" final, token "f" final)
    else if 0 + (limit - 1) <? 0 then Ok ([], token "b" 0, token "f" 0)
    else
      Ok (map LogEvent.to_response_dict
            (Py.slice evs (Z.max 0 0) (Z.min (0 + (limit - 1)) final + 1)),
          token "b" (Z.max 0 0),
          token "f" (Z.min (0 + (limit - 1)) final)).
Proof. unfold get. rewrite get_log_events_outcome. reflexivity. Qed.

Let L := Z.to_nat limit.

(** The forward token after call [k]. *)
Let J (k : nat) : Z :=
  if 1 <=? limit then Z.min ((Z.of_nat k + 1) * limit - 1) final
  else Z.min 0 final.

Lemma forward_page_run k :
  exists backward,
    forward_page k log_group_name log_stream_name start_time end_time limit h
    = (Ok (map LogEvent.to_response_dict (firstn L (skipn (k * L) evs)),
           backward, token "f" (J k)), h).
Proof.
  assert (Hfin : final = Z.of_nat (length evs) - 1) by reflexivity.
  induction k as [|k IH].
  - cbn [forward_page]. fold (get None true).
    rewrite get_log_events_run, head_call. unfold J.
    destruct (Z.ltb_spec final 0) as [H0|H0].
    + assert (Hnil : evs = []) by (destruct evs; [reflexivity | cbn in Hfin; lia]).
      rewrite Hnil, skipn_nil, firstn_nil. eexists. repeat f_equal.
      destruct (Z.leb_spec 1 limit); lia.
    + destruct (Z.ltb_spec (0 + (limit - 1)) 0) as [H1|H1].
      * replace L with O by (unfold L; lia). cbn [firstn map].
        eexists. repeat f_equal. destruct (Z.leb_spec 1 limit); lia.
      * rewrite Hfin, slice_clamped by lia.
        replace (Z.to_nat (0 + (limit - 1) + 1) - Z.to_nat 0)%nat with L
          by (unfold L; lia).
        eexists. repeat f_equal. destruct (Z.leb_spec 1 limit); lia.
  - destruct IH as [bt IH]. cbn [forward_page]. unfold bind.
    rewrite IH. cbn [snd]. fold (get (Some (token "f" (J k))) true).
    assert (Hge : -1 <= final) by apply final_index_ge.
    rewrite get_log_events_run, forward_call
      by (apply (index_readable final); [exact Hreadable|];
          unfold J; destruct (Z.leb_spec 1 limit); [nia | lia]).
    unfold J.
    destruct (Z.leb_spec 1 limit) as [Hl|Hl].
    + assert (HL : limit = Z.of_nat L) by (unfold L; lia).
      set (e := Z.min ((Z.of_nat k + 1) * limit - 1) final).
      assert (Hk : (Z.of_nat k + 1) * limit = Z.of_nat (S k * L)) by lia.
      assert (Hk' : (Z.of_nat (S k) + 1) * limit = Z.of_nat (S k * L) + limit)
        by lia.
      destruct (Z.ltb_spec final (e + 1)) as [H0|H0].
      * rewrite skipn_all2 by lia. rewrite firstn_nil.
        eexists. repeat f_equal. lia.
      * destruct (Z.ltb_spec (e + 1 + (limit - 1)) 0) as [H1|H1]; [lia|].
        rewrite Hfin, slice_clamped by lia.
        replace (Z.to_nat (e + 1)) with (S k * L)%nat by lia.
        replace (Z.to_nat (e + 1 + (limit - 1) + 1) - S k * L)%nat with L
          by lia.
        eexists. repeat f_equal. lia.
    + replace L with O by (unfold L; lia). cbn [firstn map].
      set (e := Z.min 0 final).
      destruct (Z.ltb_spec final (e + 1)) as [H0|H0].
      * eexists. repeat f_equal; lia.
      * destruct (Z.ltb_spec (e + 1 + (limit - 1)) 0) as [H1|H1].
        { eexists. repeat f_equal; lia. }
        rewrite Hfin, slice_clamped by lia.
        replace (Z.to_nat (e + 1 + (limit - 1) + 1) - Z.to_nat (e + 1))%nat
          with O by lia.
        cbn [firstn map]. eexists. repeat f_equal; lia.
Qed.
End ForwardPaging.

Lemma between_head {A} (l : list A) (limit : Z) :
  between l 0 (0 + (limit - 1)) = firstn (Z.to_nat limit) l.
Proof.
  unfold between. cbn [Z.to_nat skipn]. f_equal. lia.
Qed.

Lemma between_tail {A} (l : list A) (limit : Z) :
  between l (Z.of_nat (length l) - 1 - (limit - 1)) (Z.of_nat (length l) - 1)
  = skipn (length l - Z.to_nat limit) l.
Proof.
  unfold between. destruct (Z.le_gt_cases limit 0) as [Hl|Hl].
  - rewrite !skipn_all2 by lia. apply firstn_nil.
  - replace (Z.to_nat (Z.of_nat (length l) - 1 - (limit - 1)))
      with (length l - Z.to_nat limit)%nat by lia.
    apply firstn_all2. rewrite length_skipn. lia.
Qed.

(** C1.  The view a query pages over is the time-filtered events in
    ascending timestamp order.  Without a token the window has length
    [limit]; from the head it starts at index 0 and the page is the first
    [limit] events of the view, otherwise it ends at final_index and the
    page is the last [limit] events.  Paging forward from the head, each
    call fed the forward token of the one before with the same limit, call
    number [k] returns the [k]-th block of [limit] events of the view.  For
    timestamps 10..50 and limit 2 the pages are [10, 20], [30, 40], [50] and
    then the empty page.  The tokens carry indices of the view, which
    [int()] reads back as long as the view has fewer than 10^4300 events
    (the interpreter's limit on the digits of a literal). *)
Theorem C1_fresh_query_and_forward_paging :
  (forall (h : Heap LogStream.t) (log_group_name log_stream_name : string)
          (start_time end_time : option Z) (limit : Z),
     let evs := view start_time end_time h in
     let final := final_index start_time end_time h in
     let fresh start_from_head :=
       outcome (LogStream.get_log_events log_group_name log_stream_name
                  start_time end_time limit None start_from_head) h in
     ascending LogEvent.timestamp evs
     /\ Permutation evs
          (List.filter (LogStream.filter_func start_time end_time)
             (LogStream.events (snd h)))
     /\ (exists a b backward forward,
           LogStream.window None 0 (limit - 1) final true = Ok (a, b)
           /\ a = 0 /\ b - a + 1 = limit
           /\ between evs a b = firstn (Z.to_nat limit) evs
           /\ fresh true
              = Ok (map LogEvent.to_response_dict (between evs a b),
                    backward, forward))
     /\ (exists a b backward forward,
           LogStream.window None 0 (limit - 1) final false = Ok (a, b)
           /\ b = final /\ b - a + 1 = limit
           /\ between evs a b = skipn (length evs - Z.to_nat limit) evs
           /\ fresh false
              = Ok (map LogEvent.to_response_dict (between evs a b),
                    backward, forward))
     /\ (final < max_int_read ->
         forall k : nat,
           exists backward forward,
             outcome (forward_page k log_group_name log_stream_name
                        start_time end_time limit) h
             = Ok (map LogEvent.to_response_dict
                     (firstn (Z.to_nat limit)
                        (skipn (k * Z.to_nat limit) evs)),
                   backward, forward)))
  /\ (let page k :=
        page_timestamps
          (outcome (forward_page k "g" "s" None None 2) demo_stream) in
      page 0%nat = Some ([10; 20], token "f" 1)
      /\ page 1%nat = Some ([30; 40], token "f" 3)
      /\ page 2%nat = Some ([50], token "f" 4)
      /\ page 3%nat = Some ([], token "f" 4)).
Proof.
  split.
  - intros h g n st et limit evs final fresh.
    split; [apply sorted_StronglySorted|].
    split; [apply sorted_Permutation|].
    split; [|split].
    + destruct (get_log_events_page g n st et limit h None true None 0
                  0 (0 + (limit - 1)) eq_refl eq_refl) as (bt & ft & Hp).
      exists 0, (0 + (limit - 1)), bt, ft.
      split; [reflexivity|]. split; [reflexivity|]. split; [lia|].
      split; [apply between_head | exact Hp].
    + destruct (get_log_events_page g n st et limit h None false None 0
                  (final - (limit - 1)) final eq_refl eq_refl)
        as (bt & ft & Hp).
      exists (final - (limit - 1)), final, bt, ft.
      split; [reflexivity|]. split; [reflexivity|]. split; [lia|].
      split; [apply between_tail | exact Hp].
    + intros Hread k.
      destruct (forward_page_run g n st et limit h Hread k) as [bt Hk].
      unfold outcome. rewrite Hk. eauto.
  - cbv zeta. repeat split; vm_compute; reflexivity.
Qed.

(** ** put_log_events *)

Lemma for_each_cons {S A B} (f : A -> M S B) x r s :
  for_each f (x :: r) s
  = match f x s with
    | (Ok y, s') =>
        match for_each f r s' with
        | (Ok ys, s'') => (Ok (y :: ys), s'')
        | (Raise e, s'') => (Raise e, s'')
        end
    | (Raise e, s') => (Raise e, s')
    end.
Proof.
  cbn [for_each]. unfold bind. destruct (f x s) as [[y|e] s']; [|reflexivity].
  destruct (for_each f r s') as [[ys|e] s'']; reflexivity.
Qed.

Lemma LogEvent_init_all {T} now (log_events : list InputLogEvent) :
  forall (gl : Globals) (s : T),
  exists new gl',
    for_each (LogEvent.__init__ now) log_events (gl, s) = (Ok new, (gl', s))
    /\ map LogEvent.message new = map in_message log_events
    /\ map LogEvent.timestamp new = map in_timestamp log_events.
Proof.
  induction log_events as [|e r IH]; intros gl s.
  - exists [], gl. repeat split.
  - rewrite for_each_cons. cbn.
    destruct (IH {| LogEvent_event_id := LogEvent_event_id gl + 1;
                    LogStream_log_ids := LogStream_log_ids gl;
       dicts := dicts gl |} s)
      as (new & gl' & -> & Hm & Ht).
    eexists _, gl'. split; [reflexivity|]. cbn. rewrite Hm, Ht. split; reflexivity.
Qed.

Lemma put_log_events_run now g n log_events tok (h : Heap LogStream.t) :
  exists new gl',
    LogStream.put_log_events now g n log_events tok h
    = (Ok (Py.format_056d (LogStream.uploadSequenceToken (snd h) + 1)),
       (gl',
        LogStream.set_uploadSequenceToken
          (LogStream.uploadSequenceToken (snd h) + 1)
          (LogStream.set_events (LogStream.events (snd h) ++ new)
             (LogStream.set_storedBytes
                (LogStream.storedBytes (snd h)
                 + Py.sum (map (fun e => Py.len (in_message e)) log_events))
                (LogStream.set_lastIngestionTime (Some now) (snd h))))))
    /\ map LogEvent.message new = map in_message log_events.
Proof.
  destruct h as [gl s].
  destruct (LogEvent_init_all now log_events gl
              (LogStream.set_storedBytes
                 (LogStream.storedBytes s
                  + Py.sum (map (fun e => Py.len (in_message e)) log_events))
                 (LogStream.set_lastIngestionTime (Some now) s)))
    as (new & gl' & Hnew & Hm & _).
  exists new, gl'. split; [|exact Hm].
  unfold LogStream.put_log_events, bind, update_self, modify, self, ret.
  cbn [fst snd]. cbn [LogStream.set_lastIngestionTime LogStream.storedBytes] in *.
  rewrite Hnew. reflexivity.
Qed.

Lemma sum_len_nonneg (l : list string) : 0 <= Py.sum (map Py.len l).
Proof.
  induction l as [|x r IH]; [cbn; lia|].
  change (Py.sum (map Py.len (x :: r)))
    with (Py.len x + Py.sum (map Py.len r)).
  unfold Py.len at 1. lia.
Qed.

Lemma sum_app (l1 l2 : list Z) : Py.sum (l1 ++ l2) = Py.sum l1 + Py.sum l2.
Proof.
  induction l1 as [|x r IH]; [reflexivity|].
  change (Py.sum ((x :: r) ++ l2)) with (x + Py.sum (r ++ l2)).
  change (Py.sum (x :: r)) with (x + Py.sum r). lia.
Qed.

Lemma put_all_run g n calls :
  forall h : Heap LogStream.t,
  exists h',
    put_all g n calls h
    = (Ok (map (fun k => Py.format_056d
                           (LogStream.uploadSequenceToken (snd h) + Z.of_nat k))
               (seq 1 (length calls))), h')
    /\ LogStream.uploadSequenceToken (snd h')
       = LogStream.uploadSequenceToken (snd h) + Z.of_nat (length calls)
    /\ LogStream.storedBytes (snd h')
       = LogStream.storedBytes (snd h) + Py.sum (map Py.len (messages calls)).
Proof.
  induction calls as [|[now batch] r IH]; intros h.
  - exists h. cbn. repeat split; lia.
  - unfold put_all in *. rewrite for_each_cons. cbn [fst snd].
    destruct (put_log_events_run now g n batch None h)
      as (new & gl' & -> & _).
    match goal with |- context [for_each _ r ?s] =>
      destruct (IH s) as (h' & -> & Hu & Hb) end.
    exists h'. cbn [snd LogStream.uploadSequenceToken LogStream.storedBytes
                    LogStream.set_uploadSequenceToken LogStream.set_events
                    LogStream.set_storedBytes LogStream.set_lastIngestionTime]
      in *.
    split; [|split].
    + cbn [length seq map]. do 3 f_equal.
      rewrite <- (seq_shift (length r) 1), List.map_map.
      apply List.map_ext. intros k.
      f_equal. lia.
    + rewrite Hu. cbn [length]. lia.
    + rewrite Hb. unfold messages. cbn [map concat fst snd].
      rewrite List.map_app, List.map_app, sum_app, !List.map_map. lia.
Qed.

Lemma utf8_len_ascii s : is_ascii_text s -> Py.utf8_len s = Py.len s.
Proof.
  unfold is_ascii_text, Py.len.
  induction s as [|c r IH]; intros H; [reflexivity|].
  cbn [list_ascii_of_string] in H. inversion H as [|? ? Hc Hr]; subst.
  cbn [Py.utf8_len String.length]. rewrite (IH Hr).
  destruct (Nat.ltb_spec (nat_of_ascii c) 128); lia.
Qed.

Lemma map_utf8_len_ascii (l : list string) :
  Forall is_ascii_text l -> map Py.utf8_len l = map Py.len l.
Proof.
  induction 1 as [|m r Hm _ IH]; [reflexivity|].
  cbn [map]. rewrite IH, (utf8_len_ascii m Hm). reflexivity.
Qed.

(** C5, counterexample.  One call with the single message U+00E9 leaves
    storedBytes at 1, while the message takes 2 bytes in UTF-8. *)
Lemma C5_counterexample_non_ascii_message :
  let calls := [(0, [ev 1 e_acute])] in
  let h' := after (put_all "g" "s" calls) (globals0, fresh_stream) in
  LogStream.storedBytes (snd h') = 1
  /\ Py.sum (map Py.utf8_len (messages calls)) = 2
  /\ LogStream.storedBytes (snd h')
     <> Py.sum (map Py.utf8_len (messages calls)).
Proof. cbv zeta. repeat split; vm_compute; congruence. Qed.

(** C5, as amended.  A sequence of put_log_events calls on a stream
    succeeds, and storedBytes afterwards is its value before plus the sum of
    [len(message)], the number of characters, over all messages of all
    calls, however the messages are grouped into batches; starting from a
    new stream it is that sum.  For messages of ASCII characters this is
    the sum of their UTF-8 byte lengths.  storedBytes never decreases. *)
Theorem C5_stored_bytes_counts_characters :
  forall (h : Heap LogStream.t) (log_group_name log_stream_name : string)
         (calls : list (Z * list InputLogEvent)),
    let h' := after (put_all log_group_name log_stream_name calls) h in
    (exists tokens,
        outcome (put_all log_group_name log_stream_name calls) h = Ok tokens)
    /\ LogStream.storedBytes (snd h')
       = LogStream.storedBytes (snd h) + Py.sum (map Py.len (messages calls))
    /\ (LogStream.storedBytes (snd h) = 0 ->
          LogStream.storedBytes (snd h')
          = Py.sum (map Py.len (messages calls)))
    /\ (LogStream.storedBytes (snd h) = 0 ->
        Forall is_ascii_text (messages calls) ->
          LogStream.storedBytes (snd h')
          = Py.sum (map Py.utf8_len (messages calls)))
    /\ (forall calls' : list (Z * list InputLogEvent),
          messages calls' = messages calls ->
          LogStream.storedBytes
            (snd (after (put_all log_group_name log_stream_name calls') h))
          = LogStream.storedBytes (snd h'))
    /\ LogStream.storedBytes (snd h) <= LogStream.storedBytes (snd h').
Proof.
  intros h g n calls h'.
  destruct (put_all_run g n calls h) as (h1 & Hrun & _ & Hb).
  assert (Eh : h' = h1) by (unfold h', after; rewrite Hrun; reflexivity).
  rewrite Eh. split; [unfold outcome; rewrite Hrun; eauto|].
  split; [exact Hb|]. split; [intros H0; lia|].
  split; [|split].
  - intros H0 Hascii.
    rewrite (map_utf8_len_ascii _ Hascii), Hb, H0. lia.
  - intros calls' Hsame.
    destruct (put_all_run g n calls' h) as (h2 & Hrun2 & _ & Hb2).
    unfold after. rewrite Hrun2. cbn [snd]. rewrite Hb2, Hb, Hsame.
    reflexivity.
  - pose proof (sum_len_nonneg (messages calls)). lia.
Qed.

(** C7.  Each put_log_events call adds exactly 1 to uploadSequenceToken and
    returns the new value rendered by ["{:056d}"].  A new stream starts at
    0, so the calls made on it over its lifetime return the renderings of
    1, 2, 3, ... in this order; and the rendering of a counter below 10^56
    is a string of 56 decimal digits, zero-padded, that reads as the
    counter. *)
Theorem C7_upload_sequence_token :
  (forall (h : Heap LogStream.t) (now : Z)
          (log_group_name log_stream_name : string)
          (log_events : list InputLogEvent) (sequence_token : option string),
     let call :=
       LogStream.put_log_events now log_group_name log_stream_name
         log_events sequence_token in
     outcome call h
     = Ok (Py.format_056d (LogStream.uploadSequenceToken (snd h) + 1))
     /\ LogStream.uploadSequenceToken (snd (after call h))
        = LogStream.uploadSequenceToken (snd h) + 1)
  /\ (forall (now id : Z) (region log_group name : string),
        LogStream.uploadSequenceToken
          (LogStream.new now id region log_group name) = 0)
  /\ (forall (gl : Globals) (now id : Z) (region log_group name : string)
             (log_group_name log_stream_name : string)
             (calls : list (Z * list InputLogEvent)),
        let h := (gl, LogStream.new now id region log_group name) in
        outcome (put_all log_group_name log_stream_name calls) h
        = Ok (map (fun k => Py.format_056d (Z.of_nat k))
                  (seq 1 (length calls)))
        /\ LogStream.uploadSequenceToken
             (snd (after (put_all log_group_name log_stream_name calls) h))
           = Z.of_nat (length calls))
  /\ (forall k : Z,
        1 <= k < 10 ^ 56 ->
        String.length (Py.format_056d k) = 56%nat
        /\ all_digits (Py.format_056d k)
        /\ Py.int (Py.format_056d k) = Some k).
Proof.
  split; [|split; [|split]].
  - intros h now g n batch tok call.
    destruct (put_log_events_run now g n batch tok h) as (new & gl' & Hrun & _).
    unfold outcome, after, call. rewrite Hrun. split; reflexivity.
  - reflexivity.
  - intros gl now id r lg nm g n calls h.
    destruct (put_all_run g n calls h) as (h1 & Hrun & Hu & _).
    unfold outcome, after. rewrite Hrun. cbn [fst snd]. split.
    + reflexivity.
    + rewrite Hu. reflexivity.
  - intros k Hk.
    assert (- 10 ^ 55 < 0) by (vm_compute; reflexivity).
    split; [apply length_format_056d; lia|].
    split; [apply all_digits_format_056d; lia|].
    apply int_format_056d. pose proof max_int_read_ge. lia.
Qed.

(** ** Groups *)

Section Dicts.
Context {V : Type}.

Lemma setitem_getitem k (v : V) d :
  Py.getitem k d = Some v -> Py.setitem k v d = d.
Proof.
  induction d as [|[k' v'] r IH]; cbn; [discriminate|].
  destruct (String.eqb_spec k k') as [->|Hne].
  - intros [= ->]. reflexivity.
  - intros H. rewrite (IH H). reflexivity.
Qed.

Lemma getitem_In k (v : V) d :
  List.NoDup (map fst d) -> In (k, v) d -> Py.getitem k d = Some v.
Proof.
  induction d as [|[k' v'] r IH]; cbn; [contradiction|].
  intros Hnd [Hin|Hin].
  - injection Hin as -> ->. rewrite String.eqb_refl. reflexivity.
  - inversion Hnd as [|? ? Hnot Hr]; subst.
    destruct (String.eqb_spec k k') as [->|Hne]; [|apply IH; assumption].
    exfalso. apply Hnot. apply (in_map fst) in Hin. exact Hin.
Qed.
End Dicts.

(** The operations on a dictionary keep its keys distinct. *)
Lemma setitem_keys {V} k (v : V) d :
  List.NoDup (map fst d) -> List.NoDup (map fst (Py.setitem k v d)).
Proof.
  induction d as [|[k' v'] r IH]; cbn; intros Hnd.
  - repeat constructor. intros [].
  - destruct (String.eqb_spec k k') as [->|Hne]; [exact Hnd|].
    inversion Hnd as [|? ? Hnot Hr]; subst. cbn. constructor; [|apply IH, Hr].
    intros Hin. apply Hnot. clear -Hin Hne.
    induction r as [|[k2 v2] r IHr]; cbn in *.
    + destruct Hin as [E|[]]. congruence.
    + destruct (String.eqb_spec k k2) as [->|Hne2]; cbn in Hin; tauto.
Qed.

Lemma delitem_keys {V} k (d : list (string * V)) :
  List.NoDup (map fst d) -> List.NoDup (map fst (Py.delitem k d)).
Proof.
  induction d as [|[k' v'] r IH]; cbn; intros Hnd; [exact Hnd|].
  inversion Hnd as [|? ? Hnot Hr]; subst.
  destruct (String.eqb_spec k k') as [->|Hne]; [exact Hr|].
  cbn. constructor; [|apply IH, Hr].
  intros Hin. apply Hnot. clear -Hin.
  induction r as [|[k2 v2] r IHr]; cbn in *; [exact Hin|].
  destruct (String.eqb k k2); cbn in Hin; tauto.
Qed.

Lemma set_streams_id g : LogGroup.set_streams (LogGroup.streams g) g = g.
Proof. destruct g. reflexivity. Qed.

Section GroupFilter.
Variables (log_group_name : string) (log_stream_names : option (list string)).
Variables (start_time end_time : option Z) (limit : Z) (offset : option Z).
Variables (filter_pattern : option string) (interleaved : bool).

Let stream_call :=
  LogStream.filter_log_events log_group_name log_stream_names
    start_time end_time limit offset filter_pattern interleaved.

Lemma call_stream_filter_ok (h : Heap LogGroup.t) name s :
  Py.getitem name (LogGroup.streams (snd h)) = Some s ->
  Py.truthy_str filter_pattern = false ->
  LogGroup.call_stream name stream_call h
  = (Ok (stream_filter_result start_time end_time s), h).
Proof.
  intros Hget Hpat. unfold LogGroup.call_stream. rewrite Hget.
  unfold stream_call, LogStream.filter_log_events. rewrite Hpat.
  unfold bind, self, ret. cbn [fst snd].
  rewrite (setitem_getitem _ _ _ Hget), set_streams_id.
  destruct h; reflexivity.
Qed.

Lemma call_stream_filter_raise (h : Heap LogGroup.t) name s :
  Py.getitem name (LogGroup.streams (snd h)) = Some s ->
  Py.truthy_str filter_pattern = true ->
  LogGroup.call_stream name stream_call h
  = (Raise (NotImplementedError "filter_pattern is not yet implemented"), h).
Proof.
  intros Hget Hpat. unfold LogGroup.call_stream. rewrite Hget.
  unfold stream_call, LogStream.filter_log_events. rewrite Hpat.
  unfold raise. cbn [fst snd].
  rewrite (setitem_getitem _ _ _ Hget), set_streams_id.
  destruct h; reflexivity.
Qed.

Lemma for_each_stream_ok (h : Heap LogGroup.t) items :
  Forall (fun item =>
            Py.getitem (fst item) (LogGroup.streams (snd h))
            = Some (snd item)) items ->
  Py.truthy_str filter_pattern = false ->
  for_each (fun item => LogGroup.call_stream (fst item) stream_call) items h
  = (Ok (map (fun item => stream_filter_result start_time end_time (snd item))
             items), h).
Proof.
  intros Hall Hpat. induction Hall as [|item r Hitem _ IH]; [reflexivity|].
  rewrite for_each_cons, (call_stream_filter_ok h _ _ Hitem Hpat), IH.
  reflexivity.
Qed.

Lemma selected_streams_getitem (g : LogGroup.t) :
  List.NoDup (map fst (LogGroup.streams g)) ->
  Forall (fun item =>
            Py.getitem (fst item) (LogGroup.streams g) = Some (snd item))
         (selected_streams log_stream_names g).
Proof.
  intros Hnd. apply List.Forall_forall. intros [k v] Hin.
  apply filter_In in Hin. destruct Hin as [Hin _].
  apply getitem_In; assumption.
Qed.

(** With a pattern and at least one selected stream the call raises. *)
Lemma filter_pattern_raises_with_streams (h : Heap LogGroup.t) :
  List.NoDup (map fst (LogGroup.streams (snd h))) ->
  Py.truthy_str filter_pattern = true ->
  selected_streams log_stream_names (snd h) <> [] ->
  outcome (LogGroup.filter_log_events log_group_name log_stream_names
             start_time end_time limit offset filter_pattern interleaved) h
  = Raise (NotImplementedError "filter_pattern is not yet implemented").
Proof.
  intros Hnd Hpat Hne.
  pose proof (selected_streams_getitem (snd h) Hnd) as Hall.
  unfold outcome, LogGroup.filter_log_events, bind, self. cbn [fst snd].
  fold (selected_streams log_stream_names (snd h)).
  destruct (selected_streams log_stream_names (snd h)) as [|item r];
    [congruence|].
  inversion Hall as [|? ? Hitem _]; subst.
  rewrite for_each_cons. fold stream_call.
  rewrite (call_stream_filter_raise h _ _ Hitem Hpat). reflexivity.
Qed.

(** Without a pattern the call returns the page of the concatenated, or
    re-sorted, results of the selected streams. *)
Lemma filter_log_events_run (h : Heap LogGroup.t) :
  List.NoDup (map fst (LogGroup.streams (snd h))) ->
  Py.truthy_str filter_pattern = false ->
  let all :=
    concat (map (fun item =>
                   stream_filter_result start_time end_time (snd item))
                (selected_streams log_stream_names (snd h))) in
  let events := if interleaved then Py.sorted f_timestamp all else all in
  let lo := match offset with None => 0 | Some k => k end in
  exists next_token searched_streams,
    LogGroup.filter_log_events log_group_name log_stream_names
      start_time end_time limit offset filter_pattern interleaved h
    = (Ok (Py.slice events lo (lo + limit), next_token, searched_streams),
       h).
Proof.
  intros Hnd Hpat all events lo.
  pose proof (selected_streams_getitem (snd h) Hnd) as Hall.
  unfold LogGroup.filter_log_events, bind, self. cbn [fst snd].
  fold (selected_streams log_stream_names (snd h)). fold stream_call.
  rewrite (for_each_stream_ok h _ Hall Hpat).
  unfold ret. eauto.
Qed.
End GroupFilter.

Lemma ascending_map {A B} (key : A -> Z) (key' : B -> Z) (F : A -> B) l :
  (forall x, key' (F x) = key x) ->
  ascending key l -> ascending key' (map F l).
Proof.
  intros HF. induction 1 as [|x r Hr IH Hx]; cbn; constructor; [exact IH|].
  clear -HF Hx. induction Hx as [|y r Hy _ IH]; cbn; constructor; [|exact IH].
  unfold le_key in *. rewrite !HF. exact Hy.
Qed.

Lemma stream_filter_result_ascending st et s :
  ascending f_timestamp (stream_filter_result st et s).
Proof.
  apply (ascending_map LogEvent.timestamp); [reflexivity|].
  apply sorted_StronglySorted.
Qed.

(** C8.  Without a filter pattern, [filter_log_events] of a group returns
    the page [events[offset : offset + limit]] of a sequence [events] made
    of the results of the selected streams, each of them time-filtered and
    in ascending timestamp order.  With interleaved, [events] is the
    concatenation of these results re-sorted: one sequence in ascending
    timestamp order across all selected streams, and so is the page.
    Without interleaved, [events] is the concatenation of the per-stream
    results in the iteration order of the streams, nothing moved. *)
Theorem C8_interleaved_and_stream_order :
  forall (h : Heap LogGroup.t) (log_group_name : string)
         (log_stream_names : option (list string))
         (start_time end_time : option Z) (limit : Z) (offset : option Z)
         (filter_pattern : option string),
    List.NoDup (map fst (LogGroup.streams (snd h))) ->
    Py.truthy_str filter_pattern = false ->
    let per_stream :=
      map (fun item => stream_filter_result start_time end_time (snd item))
          (selected_streams log_stream_names (snd h)) in
    let lo := match offset with None => 0 | Some k => k end in
    let call interleaved :=
      outcome (LogGroup.filter_log_events log_group_name log_stream_names
                 start_time end_time limit offset filter_pattern interleaved)
              h in
    Forall (ascending f_timestamp) per_stream
    /\ (exists events_page next_token searched_streams,
          call true = Ok (events_page, next_token, searched_streams)
          /\ events_page
             = Py.slice (Py.sorted f_timestamp (concat per_stream))
                 lo (lo + limit)
          /\ ascending f_timestamp (Py.sorted f_timestamp (concat per_stream))
          /\ Permutation (Py.sorted f_timestamp (concat per_stream))
               (concat per_stream)
          /\ ascending f_timestamp events_page)
    /\ (exists events_page next_token searched_streams,
          call false = Ok (events_page, next_token, searched_streams)
          /\ events_page = Py.slice (concat per_stream) lo (lo + limit)).
Proof.
  intros h g names st et limit off pat Hnd Hpat per_stream lo call.
  split; [|split].
  - unfold per_stream. apply List.Forall_forall. intros l Hin.
    apply in_map_iff in Hin. destruct Hin as (item & <- & _).
    apply stream_filter_result_ascending.
  - destruct (filter_log_events_run g names st et limit off pat true h Hnd Hpat)
      as (tok & searched & Hrun).
    unfold call, outcome. rewrite Hrun. cbn [fst].
    eexists _, tok, searched. split; [reflexivity|]. split; [reflexivity|].
    split; [apply sorted_StronglySorted|].
    split; [apply sorted_Permutation|].
    apply StronglySorted_slice, sorted_StronglySorted.
  - destruct (filter_log_events_run g names st et limit off pat false h Hnd Hpat)
      as (tok & searched & Hrun).
    unfold call, outcome. rewrite Hrun. cbn [fst].
    eexists _, tok, searched. split; reflexivity.
Qed.

(** C6.  [filter_log_events] of a stream raises NotImplementedError for
    every non-empty pattern.  The group reaches that check only through its
    selected streams: on a group without streams, and on a group whose
    streams are all left out by [log_stream_names], the call with the
    pattern "ERROR" returns the empty result and raises nothing. *)
Theorem C6_filter_pattern_ignored_without_streams :
  (forall (h : Heap LogStream.t) (log_group_name : string)
          (log_stream_names : option (list string))
          (start_time end_time : option Z) (limit : Z) (offset : option Z)
          (c : ascii) (pattern : string) (interleaved : bool),
     outcome (LogStream.filter_log_events log_group_name log_stream_names
                start_time end_time limit offset (Some (String c pattern))
                interleaved) h
     = Raise (NotImplementedError "filter_pattern is not yet implemented"))
  /\ outcome (LogGroup.filter_log_events "g" None None None 50 None
                (Some "ERROR") false)
             (globals0, LogGroup.new 0 "r" "g" None)
     = Ok ([], None, [])
  /\ outcome (LogGroup.filter_log_events "g" (Some ["c"]) None None 50 None
                (Some "ERROR") false)
             demo_group
     = Ok ([], None, []).
Proof.
  split; [|split].
  - intros. reflexivity.
  - vm_compute. reflexivity.
  - vm_compute. reflexivity.
Qed.

(** C9.  [create_log_group] succeeds and stores the group when the name is
    absent, and raises ResourceAlreadyExistsException, changing nothing,
    when the name is present; so creating the same name twice in a row
    always ends in that exception.  [delete_log_group] of a present name
    removes it, and a [create_log_group] of the same name then succeeds. *)
Theorem C9_create_and_delete_log_group :
  forall (h : Heap LogsBackend.t) (now : Z) (log_group_name : string)
         (tags : option dict_ref),
    let create := LogsBackend.create_log_group now log_group_name tags in
    let delete := LogsBackend.delete_log_group log_group_name in
    (LogsBackend.groups (snd h) !! log_group_name = None ->
       outcome create h = Ok tt
       /\ LogsBackend.groups (snd (after create h)) !! log_group_name
          = Some (LogGroup.new now (LogsBackend.region_name (snd h))
                    log_group_name tags))
    /\ (is_Some (LogsBackend.groups (snd h) !! log_group_name) ->
          outcome create h = Raise ResourceAlreadyExistsException
          /\ after create h = h)
    /\ (forall (now' : Z) (tags' : option dict_ref),
          outcome (create ;;
                   LogsBackend.create_log_group now' log_group_name tags') h
          = Raise ResourceAlreadyExistsException)
    /\ (is_Some (LogsBackend.groups (snd h) !! log_group_name) ->
          outcome delete h = Ok tt
          /\ LogsBackend.groups (snd (after delete h)) !! log_group_name = None
          /\ forall (now' : Z) (tags' : option dict_ref),
               outcome (LogsBackend.create_log_group now' log_group_name tags')
                       (after delete h)
               = Ok tt).
Proof.
  intros [gl b] now name tags create delete. cbn [snd].
  assert (Hcreate_absent : forall now0 tags0 gl0 b0,
            LogsBackend.groups b0 !! name = None ->
            LogsBackend.create_log_group now0 name tags0 (gl0, b0)
            = (Ok tt,
               (gl0, LogsBackend.set_groups
                       (<[name := LogGroup.new now0
                                    (LogsBackend.region_name b0) name tags0]>
                          (LogsBackend.groups b0)) b0))).
  { intros now0 tags0 gl0 b0 Hnone.
    unfold LogsBackend.create_log_group, bind, self, LogsBackend.contains.
    cbn [fst snd]. rewrite Hnone.
    rewrite bool_decide_eq_false_2 by (intros [? ?]; discriminate).
    reflexivity. }
  assert (Hcreate_present : forall now0 tags0 gl0 b0,
            is_Some (LogsBackend.groups b0 !! name) ->
            LogsBackend.create_log_group now0 name tags0 (gl0, b0)
            = (Raise ResourceAlreadyExistsException, (gl0, b0))).
  { intros now0 tags0 gl0 b0 Hsome.
    unfold LogsBackend.create_log_group, bind, self, LogsBackend.contains.
    cbn [fst snd]. rewrite bool_decide_eq_true_2 by exact Hsome.
    reflexivity. }
  split; [|split; [|split]].
  - intros Hnone. unfold outcome, after, create.
    rewrite (Hcreate_absent now tags gl b Hnone). cbn [fst snd].
    split; [reflexivity|]. cbn [LogsBackend.groups LogsBackend.set_groups].
    apply lookup_insert_eq.
  - intros Hsome. unfold outcome, after, create.
    rewrite (Hcreate_present now tags gl b Hsome). split; reflexivity.
  - intros now' tags'. unfold outcome, bind, create.
    destruct (LogsBackend.groups b !! name) as [g0|] eqn:E.
    + rewrite (Hcreate_present now tags gl b) by (rewrite E; eauto).
      reflexivity.
    + rewrite (Hcreate_absent now tags gl b E).
      rewrite Hcreate_present; [reflexivity|].
      cbn [LogsBackend.groups LogsBackend.set_groups].
      rewrite lookup_insert_eq. eauto.
  - intros Hsome.
    assert (Hdel : delete (gl, b)
                   = (Ok tt, (gl, LogsBackend.set_groups
                                    (base.delete name (LogsBackend.groups b)) b))).
    { unfold delete, LogsBackend.delete_log_group, bind, self,
        LogsBackend.contains.
      cbn [fst snd]. rewrite bool_decide_eq_true_2 by exact Hsome.
      reflexivity. }
    unfold outcome, after. rewrite Hdel. cbn [fst snd].
    split; [reflexivity|].
    cbn [LogsBackend.groups LogsBackend.set_groups].
    split; [apply lookup_delete_eq|].
    intros now' tags'. rewrite Hcreate_absent; [reflexivity|].
    cbn [LogsBackend.groups LogsBackend.set_groups]. apply lookup_delete_eq.
Qed.

(** ** The theorems at concrete inputs *)

(** C1 on the stream with timestamps 10..50: the second call of a client
    paging forward by two. *)
Lemma C1_fresh_query_and_forward_paging_witness :
  exists backward forward,
    outcome (forward_page 1 "g" "s" None None 2) demo_stream
    = Ok (map LogEvent.to_response_dict
            (firstn (Z.to_nat 2)
               (skipn (1 * Z.to_nat 2) (view None None demo_stream))),
          backward, forward).
Proof.
  destruct (proj1 C1_fresh_query_and_forward_paging demo_stream "g" "s"
              None None 2) as (_ & _ & _ & _ & Hpages).
  apply (Hpages ltac:(vm_compute; reflexivity) 1%nat).
Defined.

(** C2 on the stream with timestamps 10..50 and limit 2: the token "f/7"
    has the window [8, 9] past final_index = 4, and the token "b/-3" has
    the window [-5, -4] before index 0. *)
Lemma C2_boundary_pages_witness :
  (let call tok :=
     outcome (LogStream.get_log_events "g" "s" None None 2 tok true)
             demo_stream in
   call (Some "f/7") = Ok ([], token "b" 4, token "f" 4)
   /\ call (Some (token "f" 4)) = Ok ([], token "b" 4, token "f" 4))
  /\ (let call tok :=
        outcome (LogStream.get_log_events "g" "s" None None 2 tok true)
                demo_stream in
      call (Some "b/-3") = Ok ([], token "b" 0, token "f" 0)
      /\ call (Some (token "b" 0)) = Ok ([], token "b" 0, token "f" 0)).
Proof.
  split.
  - destruct (proj1 (C2_boundary_pages demo_stream "g" "s" None None 2
                       (Some "f/7") true (Some "f"%char) 7 8 9
                       ltac:(vm_compute; reflexivity) ltac:(reflexivity))
                ltac:(vm_compute; reflexivity)) as [H1 H2].
    split; [exact H1 | apply H2; vm_compute; reflexivity].
  - destruct (proj2 (C2_boundary_pages demo_stream "g" "s" None None 2
                       (Some "b/-3") true (Some "b"%char) (-3) (-5) (-4)
                       ltac:(vm_compute; reflexivity) ltac:(reflexivity))
                ltac:(vm_compute; discriminate) ltac:(lia)) as [H1 H2].
    split; [exact H1 | apply H2; lia].
Defined.

(** C3 on the same stream: the tokens "f/1" and "b/3". *)
Lemma C3_invalid_token_and_directions_witness :
  (exists a b backward forward,
     LogStream.window (Some "f"%char) 1 (2 - 1)
       (final_index None None demo_stream) true = Ok (a, b)
     /\ a = 1 + 1 /\ b - a + 1 = 2
     /\ outcome (LogStream.get_log_events "g" "s" None None 2
                   (Some "f/1") true) demo_stream
        = Ok (map LogEvent.to_response_dict
                (between (view None None demo_stream) a b),
              backward, forward))
  /\ (exists a b backward forward,
        LogStream.window (Some "b"%char) 3 (2 - 1)
          (final_index None None demo_stream) true = Ok (a, b)
        /\ b = 3 - 1 /\ b - a + 1 = 2
        /\ outcome (LogStream.get_log_events "g" "s" None None 2
                      (Some "b/3") true) demo_stream
           = Ok (map LogEvent.to_response_dict
                   (between (view None None demo_stream) a b),
                 backward, forward)).
Proof.
  pose proof (C3_invalid_token_and_directions demo_stream "g" "s" None None 2
                None true) as (_ & _ & Hf & Hb & _).
  split.
  - apply (Hf "f/1" 1); [reflexivity | vm_compute; reflexivity].
  - apply (Hb "b/3" 3); [reflexivity | vm_compute; reflexivity].
Defined.

(** C4 on the first page of the same stream. *)
Lemma C4_token_format_witness :
  exists start_index end_index,
    "b/00000000000000000000000000000000000000000000000000000000"
    = String "b" (String "/" (Py.format_056d start_index))
    /\ "f/00000000000000000000000000000000000000000000000000000001"
       = String "f" (String "/" (Py.format_056d end_index))
    /\ 0 <= start_index <= end_index
    /\ String.length (Py.format_056d end_index) = 56%nat.
Proof.
  destruct (C4_token_format demo_stream "g" "s" None None 2 None true
              [ {| r_ingestionTime := 7; r_message := "a"; r_timestamp := 10 |};
                {| r_ingestionTime := 7; r_message := "b"; r_timestamp := 20 |} ]
              "b/00000000000000000000000000000000000000000000000000000000"
              "f/00000000000000000000000000000000000000000000000000000001"
              ltac:(vm_compute; reflexivity))
    as (s & e & Hb & Hf & _ & _ & _ & Hpage & Hlen).
  exists s, e. split; [exact Hb|]. split; [exact Hf|].
  split; [apply Hpage; discriminate|].
  apply Hlen. vm_compute. reflexivity.
Defined.

(** C5 on a new stream and two batches of ASCII messages. *)
Lemma C5_stored_bytes_counts_characters_witness :
  let calls := [(0, [ev 1 "ab"]); (5, [ev 2 "c"; ev 3 "de"])] in
  LogStream.storedBytes
    (snd (after (put_all "g" "s" calls) (globals0, fresh_stream)))
  = Py.sum (map Py.utf8_len (messages calls)).
Proof.
  cbv zeta.
  apply (proj1 (proj2 (proj2 (proj2
           (C5_stored_bytes_counts_characters (globals0, fresh_stream)
              "g" "s" [(0, [ev 1 "ab"]); (5, [ev 2 "c"; ev 3 "de"])]))))).
  - reflexivity.
  - repeat (constructor; [repeat (constructor; [vm_compute; lia|]);
                          constructor|]).
    constructor.
Defined.

(** C7 at the counter value 3. *)
Lemma C7_upload_sequence_token_witness :
  String.length (Py.format_056d 3) = 56%nat
  /\ all_digits (Py.format_056d 3)
  /\ Py.int (Py.format_056d 3) = Some 3.
Proof.
  apply (proj2 (proj2 (proj2 C7_upload_sequence_token)) 3).
  split; [lia | vm_compute; reflexivity].
Defined.

(** C8 on the group with the streams "a" (10, 30) and "b" (20, 40). *)
Lemma C8_interleaved_and_stream_order_witness :
  (exists events_page next_token searched_streams,
     outcome (LogGroup.filter_log_events "g" None None None 10 None None true)
             demo_group
     = Ok (events_page, next_token, searched_streams)
     /\ map f_timestamp events_page = [10; 20; 30; 40])
  /\ (exists events_page next_token searched_streams,
        outcome (LogGroup.filter_log_events "g" None None None 10 None None
                   false) demo_group
        = Ok (events_page, next_token, searched_streams)
        /\ map f_timestamp events_page = [10; 30; 20; 40]).
Proof.
  destruct (C8_interleaved_and_stream_order demo_group "g" None None None 10
              None None)
    as (_ & (p1 & t1 & s1 & H1 & E1 & _) & (p2 & t2 & s2 & H2 & E2)).
  - vm_compute. repeat constructor; cbn; intuition discriminate.
  - reflexivity.
  - split.
    + exists p1, t1, s1. split; [exact H1|]. rewrite E1. vm_compute. reflexivity.
    + exists p2, t2, s2. split; [exact H2|]. rewrite E2. vm_compute. reflexivity.
Defined.

(** C9 on an empty registry and on a registry holding "g". *)
Lemma C9_create_and_delete_log_group_witness :
  outcome (LogsBackend.create_log_group 1 "g" None)
          (globals0, LogsBackend.__init__ "r") = Ok tt
  /\ outcome (LogsBackend.create_log_group 1 "g" None) demo_backend
     = Raise ResourceAlreadyExistsException
  /\ outcome (LogsBackend.create_log_group 2 "g" None)
             (after (LogsBackend.delete_log_group "g") demo_backend)
     = Ok tt.
Proof.
  split; [|split].
  - apply (proj1 (C9_create_and_delete_log_group
                    (globals0, LogsBackend.__init__ "r") 1 "g" None)).
    vm_compute. reflexivity.
  - apply (proj1 (proj2 (C9_create_and_delete_log_group demo_backend 1 "g"
                           None))).
    eexists. vm_compute. reflexivity.
  - apply (proj2 (proj2 (proj2 (C9_create_and_delete_log_group demo_backend 1
                                  "g" None)))).
    eexists. vm_compute. reflexivity.
Defined.


(** * Further properties of the code *)

(** ** Streams: ingestion *)

Lemma LogEvent_init_new_events {T} now (log_events : list InputLogEvent) :
  forall (gl : Globals) (s : T),
    for_each (LogEvent.__init__ now) log_events (gl, s)
    = (Ok (new_events now (LogEvent_event_id gl) log_events),
       ({| LogEvent_event_id :=
             LogEvent_event_id gl + Z.of_nat (length log_events);
           LogStream_log_ids := LogStream_log_ids gl;
       dicts := dicts gl |}, s)).
Proof.
  induction log_events as [|e r IH]; intros gl s.
  - cbn. destruct gl as [i j]. cbn. rewrite Z.add_0_r. reflexivity.
  - rewrite for_each_cons. cbn -[Z.of_nat]. rewrite IH. cbn -[Z.of_nat].
    replace (Z.of_nat (S (length r))) with (1 + Z.of_nat (length r)) by lia.
    rewrite Z.add_assoc. reflexivity.
Qed.

Lemma put_log_events_state now g n log_events tok (h : Heap LogStream.t) :
  LogStream.put_log_events now g n log_events tok h
  = (Ok (Py.format_056d (LogStream.uploadSequenceToken (snd h) + 1)),
     ({| LogEvent_event_id :=
           LogEvent_event_id (fst h) + Z.of_nat (length log_events);
         LogStream_log_ids := LogStream_log_ids (fst h);
         dicts := dicts (fst h) |},
      LogStream.set_uploadSequenceToken
        (LogStream.uploadSequenceToken (snd h) + 1)
        (LogStream.set_events
           (LogStream.events (snd h)
            ++ new_events now (LogEvent_event_id (fst h)) log_events)
           (LogStream.set_storedBytes
              (LogStream.storedBytes (snd h)
               + Py.sum (map (fun e => Py.len (in_message e)) log_events))
              (LogStream.set_lastIngestionTime (Some now) (snd h)))))).
Proof.
  destruct h as [gl s].
  unfold LogStream.put_log_events, bind, update_self, modify, self, ret.
  cbn [fst snd]. rewrite LogEvent_init_new_events. reflexivity.
Qed.

Lemma new_events_fields now log_events : forall id,
  map LogEvent.timestamp (new_events now id log_events)
  = map in_timestamp log_events
  /\ map LogEvent.message (new_events now id log_events)
     = map in_message log_events
  /\ map LogEvent.ingestionTime (new_events now id log_events)
     = map (fun _ => now) log_events
  /\ map LogEvent.eventId (new_events now id log_events)
     = map (fun k => id + Z.of_nat k) (seq 0 (length log_events)).
Proof.
  induction log_events as [|e r IH]; intros id; [repeat split|].
  destruct (IH (id + 1)) as (Ht & Hm & Hi & He).
  cbn [new_events map length seq LogEvent.timestamp LogEvent.message
       LogEvent.ingestionTime LogEvent.eventId].
  rewrite Ht, Hm, Hi, He. repeat split.
  f_equal; [f_equal; lia|].
  rewrite <- (seq_shift (length r) 0), List.map_map.
  apply List.map_ext. intros k. lia.
Qed.

(** X1.  put_log_events keeps the events the stream has and appends one
    event per item of the batch, in the order of the batch, with the
    timestamp and message of the item, the clock reading of the call as
    ingestionTime and consecutive eventIds starting at the class counter,
    which it advances by the size of the batch.  lastIngestionTime becomes
    the clock reading; name, arn and creation time are not touched. *)
Theorem X1_put_log_events_appends_batch :
  forall (h : Heap LogStream.t) (now : Z)
         (log_group_name log_stream_name : string)
         (log_events : list InputLogEvent) (sequence_token : option string),
    let h' :=
      after (LogStream.put_log_events now log_group_name log_stream_name
               log_events sequence_token) h in
    let fresh_events := skipn (length (LogStream.events (snd h)))
                              (LogStream.events (snd h')) in
    LogStream.events (snd h') = LogStream.events (snd h) ++ fresh_events
    /\ map LogEvent.timestamp fresh_events = map in_timestamp log_events
    /\ map LogEvent.message fresh_events = map in_message log_events
    /\ map LogEvent.ingestionTime fresh_events = map (fun _ => now) log_events
    /\ map LogEvent.eventId fresh_events
       = map (fun k => LogEvent_event_id (fst h) + Z.of_nat k)
             (seq 0 (length log_events))
    /\ LogEvent_event_id (fst h')
       = LogEvent_event_id (fst h) + Z.of_nat (length log_events)
    /\ LogStream.lastIngestionTime (snd h') = Some now
    /\ LogStream.logStreamName (snd h') = LogStream.logStreamName (snd h)
    /\ LogStream.arn (snd h') = LogStream.arn (snd h)
    /\ LogStream.creationTime (snd h') = LogStream.creationTime (snd h).
Proof.
  intros h now g n batch tok h' fresh_events.
  assert (Eh : LogStream.events (snd h')
               = LogStream.events (snd h)
                 ++ new_events now (LogEvent_event_id (fst h)) batch).
  { unfold h', after. rewrite put_log_events_state. reflexivity. }
  assert (Ef : fresh_events
               = new_events now (LogEvent_event_id (fst h)) batch).
  { unfold fresh_events. rewrite Eh, skipn_app, skipn_all, Nat.sub_diag.
    reflexivity. }
  destruct (new_events_fields now batch (LogEvent_event_id (fst h)))
    as (Ht & Hm & Hi & He).
  rewrite Ef. repeat split; try assumption;
    unfold h', after; rewrite put_log_events_state; reflexivity.
Qed.

(** ** Streams: retrieval *)

Lemma insert_map {A B} (key : A -> Z) (key' : B -> Z) (F : A -> B) x l :
  (forall y, key' (F y) = key y) ->
  Py.insert key' (F x) (map F l) = map F (Py.insert key x l).
Proof.
  intros HF. induction l as [|y r IH]; [reflexivity|].
  cbn. rewrite !HF. destruct (key x <=? key y); [reflexivity|].
  cbn. rewrite IH. reflexivity.
Qed.

Lemma sorted_map {A B} (key : A -> Z) (key' : B -> Z) (F : A -> B) l :
  (forall y, key' (F y) = key y) ->
  Py.sorted key' (map F l) = map F (Py.sorted key l).
Proof.
  intros HF. induction l as [|x r IH]; [reflexivity|].
  change (Py.insert key' (F x) (Py.sorted key' (map F r))
          = map F (Py.insert key x (Py.sorted key r))).
  rewrite IH. apply insert_map, HF.
Qed.

Lemma and_lt_false st ts :
  LogStream.and_lt st ts = false
  <-> (forall b, st = Some b -> b <> 0 -> b <= ts).
Proof.
  unfold LogStream.and_lt, Py.truthy_int. destruct st as [a|].
  - destruct (Z.eqb_spec a 0) as [E|E], (Z.ltb_spec ts a) as [L|L]; cbn;
      (split; [intros H0 c [= <-] Hc; first [lia | discriminate]
              | intros H0; first [reflexivity
                                 | specialize (H0 _ eq_refl E); lia]]).
  - split; [intros _ c [=] | reflexivity].
Qed.

Lemma and_gt_false et ts :
  LogStream.and_gt et ts = false
  <-> (forall b, et = Some b -> b <> 0 -> ts <= b).
Proof.
  unfold LogStream.and_gt, Py.truthy_int. destruct et as [a|].
  - rewrite Z.gtb_ltb.
    destruct (Z.eqb_spec a 0) as [E|E], (Z.ltb_spec a ts) as [L|L]; cbn;
      (split; [intros H0 c [= <-] Hc; first [lia | discriminate]
              | intros H0; first [reflexivity
                                 | specialize (H0 _ eq_refl E); lia]]).
  - split; [intros _ c [=] | reflexivity].
Qed.

Lemma filter_func_within st et e :
  LogStream.filter_func st et e = true <-> within st et (LogEvent.timestamp e).
Proof.
  unfold LogStream.filter_func, within.
  rewrite <- and_lt_false, <- and_gt_false.
  destruct (LogStream.and_lt st (LogEvent.timestamp e)),
           (LogStream.and_gt et (LogEvent.timestamp e));
    intuition congruence.
Qed.

Lemma view_In st et (h : Heap LogStream.t) e :
  In e (view st et h)
  <-> In e (LogStream.events (snd h)) /\ within st et (LogEvent.timestamp e).
Proof.
  unfold view, LogStream.sorted_events.
  rewrite <- filter_func_within, <- filter_In.
  split; apply Permutation_in;
    [|symmetry]; apply sorted_Permutation.
Qed.

Lemma window_length d i limit final sfh a b :
  LogStream.window d i (limit - 1) final sfh = Ok (a, b) -> b - a + 1 = limit.
Proof.
  unfold LogStream.window. destruct d as [c|].
  - destruct (Ascii.eqb c "f"); [intros [= <- <-]; lia|].
    destruct (Ascii.eqb c "b"); [intros [= <- <-]; lia | discriminate].
  - destruct sfh; intros [= <- <-]; lia.
Qed.

(** A page that is returned is the part of the view in a window of length
    [limit]. *)
Lemma get_log_events_ok_between g n st et limit (h : Heap LogStream.t)
      tok sfh page bt ft :
  outcome (LogStream.get_log_events g n st et limit tok sfh) h
  = Ok (page, bt, ft) ->
  exists a b,
    b - a + 1 = limit
    /\ page = map LogEvent.to_response_dict (between (view st et h) a b).
Proof.
  intros H.
  destruct (LogStream.get_index_and_direction_from_token tok) as [[d i]|e]
    eqn:Htok.
  2:{ rewrite get_log_events_outcome, Htok in H. discriminate. }
  destruct (LogStream.window d i (limit - 1) (final_index st et h) sfh)
    as [[a b]|e] eqn:Hwin.
  2:{ rewrite get_log_events_outcome, Htok in H.
      unfold final_index, view in Hwin. rewrite Hwin in H. discriminate. }
  destruct (get_log_events_page g n st et limit h tok sfh d i a b Htok Hwin)
    as (bt' & ft' & Hp).
  rewrite Hp in H. injection H as <- _ _.
  exists a, b. split; [eapply window_length; exact Hwin | reflexivity].
Qed.

Lemma between_incl {A} (l : list A) a b x : In x (between l a b) -> In x l.
Proof.
  unfold between. intros H.
  rewrite <- (firstn_skipn (Z.to_nat a) l). apply in_or_app. right.
  set (r := skipn (Z.to_nat a) l) in *.
  rewrite <- (firstn_skipn (Z.to_nat (b + 1) - Z.to_nat a) r).
  apply in_or_app. left. exact H.
Qed.

Lemma between_length {A} (l : list A) a b :
  (length (between l a b) <= Z.to_nat (b - a + 1))%nat
  /\ (length (between l a b) <= length l)%nat.
Proof.
  unfold between. rewrite length_firstn, length_skipn. lia.
Qed.

Lemma insert_at_timestamp ts x l :
  at_timestamp ts (Py.insert LogEvent.timestamp x l)
  = at_timestamp ts (x :: l).
Proof.
  unfold at_timestamp. induction l as [|y r IH]; [reflexivity|].
  cbn [Py.insert].
  destruct (Z.leb_spec (LogEvent.timestamp x) (LogEvent.timestamp y));
    [reflexivity|].
  cbn [List.filter] in *. rewrite IH.
  destruct (Z.eqb_spec (LogEvent.timestamp x) ts),
           (Z.eqb_spec (LogEvent.timestamp y) ts); try reflexivity. lia.
Qed.

Lemma sorted_at_timestamp ts l :
  at_timestamp ts (Py.sorted LogEvent.timestamp l) = at_timestamp ts l.
Proof.
  induction l as [|x r IH]; [reflexivity|].
  cbn [Py.sorted fold_right]. rewrite insert_at_timestamp.
  unfold at_timestamp in *. cbn [List.filter].
  change (fold_right (Py.insert LogEvent.timestamp) [] r)
    with (Py.sorted LogEvent.timestamp r).
  rewrite IH. reflexivity.
Qed.

Lemma outcome_seq {S A B} (m : M S A) (k : M S B) s x s' :
  m s = (Ok x, s') -> outcome (m ;; k) s = outcome k s'.
Proof. intros H. unfold outcome, bind. rewrite H. reflexivity. Qed.

Lemma filter_func_unbounded l :
  List.filter (LogStream.filter_func None None) l = l.
Proof.
  induction l as [|x r IH]; [reflexivity|]. cbn. rewrite IH. reflexivity.
Qed.

Lemma response_new_events now batch : forall id,
  map LogEvent.to_response_dict (new_events now id batch)
  = map (response_of now) batch.
Proof.
  induction batch as [|e r IH]; intros id; [reflexivity|].
  cbn. rewrite IH. reflexivity.
Qed.

(** A stream without events gives back what one put_log_events call
    gave it. *)
Lemma put_then_get_on_empty_stream now g n batch tok limit sfh
      (h : Heap LogStream.t) :
  LogStream.events (snd h) = [] ->
  Z.of_nat (length batch) <= limit ->
  exists backward forward,
    outcome
      (LogStream.put_log_events now g n batch tok ;;
       LogStream.get_log_events g n None None limit None sfh) h
    = Ok (map (response_of now) (Py.sorted in_timestamp batch),
          backward, forward).
Proof.
  intros Hev Hlimit.
  rewrite (outcome_seq _ _ _ _ _ (put_log_events_state now g n batch tok _)).
  match goal with |- context [outcome _ ?h] => set (h1 := h) end.
  assert (Hview : map LogEvent.to_response_dict (view None None h1)
                  = map (response_of now) (Py.sorted in_timestamp batch)).
  { unfold view, LogStream.sorted_events, h1.
    cbn [snd fst LogStream.events LogStream.set_uploadSequenceToken
         LogStream.set_events].
    rewrite filter_func_unbounded, Hev. cbn [app].
    rewrite <- (sorted_map LogEvent.timestamp r_timestamp) by reflexivity.
    rewrite response_new_events.
    apply (sorted_map in_timestamp r_timestamp). reflexivity. }
  assert (Hlen : length (view None None h1) = length batch).
  { rewrite <- (List.length_map LogEvent.to_response_dict), Hview.
    rewrite List.length_map. apply sorted_length. }
  destruct sfh.
  - destruct (get_log_events_page g n None None limit h1 None true None 0
                0 (0 + (limit - 1)) eq_refl eq_refl) as (bt & ft & Hp).
    exists bt, ft. rewrite Hp.
    change (LogStream.sorted_events None None (snd h1))
      with (view None None h1).
    change (firstn _ (skipn _ _))
      with (between (view None None h1) 0 (0 + (limit - 1))).
    rewrite between_head, firstn_all2 by lia. rewrite Hview. reflexivity.
  - destruct (get_log_events_page g n None None limit h1 None false None 0
                (final_index None None h1 - (limit - 1))
                (final_index None None h1) eq_refl eq_refl)
      as (bt & ft & Hp).
    exists bt, ft. rewrite Hp.
    change (LogStream.sorted_events None None (snd h1))
      with (view None None h1).
    change (firstn _ (skipn _ _))
      with (between (view None None h1)
              (Z.of_nat (length (view None None h1)) - 1 - (limit - 1))
              (Z.of_nat (length (view None None h1)) - 1)).
    rewrite between_tail.
    replace (length (view None None h1) - Z.to_nat limit)%nat with O by lia.
    rewrite skipn_O, Hview. reflexivity.
Qed.

(** X2.  What a new stream is given by one put_log_events call, it gives
    back: a get_log_events call without time bounds and with a limit of at
    least the size of the batch (from the head or not) returns every item
    of the batch in response form, with the clock reading of the put as
    ingestionTime, in ascending timestamp order, items of equal timestamp
    in batch order. *)
Theorem X2_get_returns_what_was_put :
  forall (gl : Globals) (created id now limit : Z)
         (region log_group name log_group_name log_stream_name : string)
         (log_events : list InputLogEvent) (sequence_token : option string)
         (start_from_head : bool),
    Z.of_nat (length log_events) <= limit ->
    exists backward forward,
      outcome
        (LogStream.put_log_events now log_group_name log_stream_name
           log_events sequence_token ;;
         LogStream.get_log_events log_group_name log_stream_name None None
           limit None start_from_head)
        (gl, LogStream.new created id region log_group name)
      = Ok (map (response_of now) (Py.sorted in_timestamp log_events),
            backward, forward).
Proof.
  intros gl created id now limit r lg nm g n batch tok sfh Hlimit.
  apply put_then_get_on_empty_stream; [reflexivity | exact Hlimit].
Qed.

(** X3.  The view of a query holds exactly the events of the stream whose
    timestamp lies in the time range, both ends included, where a bound
    that is absent or 0 leaves that side open; and every entry of a
    returned page is the response form of such an event. *)
Theorem X3_time_range_is_inclusive_and_zero_is_open :
  forall (h : Heap LogStream.t) (log_group_name log_stream_name : string)
         (start_time end_time : option Z) (limit : Z)
         (next_token : option string) (start_from_head : bool),
    (forall e,
        In e (view start_time end_time h)
        <-> In e (LogStream.events (snd h))
            /\ within start_time end_time (LogEvent.timestamp e))
    /\ (forall events_page backward forward,
          outcome (LogStream.get_log_events log_group_name log_stream_name
                     start_time end_time limit next_token start_from_head) h
          = Ok (events_page, backward, forward) ->
          forall d, In d events_page ->
            exists e, In e (LogStream.events (snd h))
                      /\ within start_time end_time (LogEvent.timestamp e)
                      /\ d = LogEvent.to_response_dict e).
Proof.
  intros h g n st et limit tok sfh. split; [apply view_In|].
  intros page bt ft H d Hd.
  destruct (get_log_events_ok_between _ _ _ _ _ _ _ _ _ _ _ H)
    as (a & b & _ & ->).
  apply in_map_iff in Hd. destruct Hd as (e & <- & He).
  apply between_incl, view_In in He. destruct He as [He Hw].
  exists e. split; [exact He|]. split; [exact Hw | reflexivity].
Qed.

(** X4.  A page never holds more than [limit] events, nor more than the
    view has. *)
Theorem X4_page_is_at_most_limit_long :
  forall (h : Heap LogStream.t) (log_group_name log_stream_name : string)
         (start_time end_time : option Z) (limit : Z)
         (next_token : option string) (start_from_head : bool)
         (events_page : list ResponseDict) (backward forward : string),
    outcome (LogStream.get_log_events log_group_name log_stream_name
               start_time end_time limit next_token start_from_head) h
    = Ok (events_page, backward, forward) ->
    (length events_page <= Z.to_nat limit)%nat
    /\ (length events_page <= length (view start_time end_time h))%nat.
Proof.
  intros h g n st et limit tok sfh page bt ft H.
  destruct (get_log_events_ok_between _ _ _ _ _ _ _ _ _ _ _ H)
    as (a & b & Hab & ->).
  rewrite List.length_map.
  pose proof (between_length (view st et h) a b). rewrite Hab in *. exact H0.
Qed.

(** X5.  The sort of the view is stable: the events that share a timestamp
    come in the order in which the stream received them. *)
Theorem X5_equal_timestamps_keep_ingestion_order :
  forall (h : Heap LogStream.t) (start_time end_time : option Z) (ts : Z),
    at_timestamp ts (view start_time end_time h)
    = at_timestamp ts
        (List.filter (LogStream.filter_func start_time end_time)
           (LogStream.events (snd h))).
Proof. intros h st et ts. apply sorted_at_timestamp. Qed.


(** ** Streams: paging in both directions *)

Lemma format_056d_inj x y : Py.format_056d x = Py.format_056d y -> x = y.
Proof.
  intros H. apply (f_equal list_ascii_of_string) in H.
  rewrite !format_056d_chars in H.
  assert (Hminus : forall w z r,
            "-"%char :: r = repeat "0"%char w ++ digit_list z -> False).
  { intros w z r E. pose proof (padded_digits w z) as Hd.
    rewrite <- E in Hd. inversion Hd as [|? ? Hc _]. discriminate Hc. }
  destruct (Z.ltb_spec x 0), (Z.ltb_spec y 0).
  - injection H as H. apply (f_equal value) in H.
    rewrite !value_zeros, !digit_list_value in H by lia. lia.
  - exfalso. exact (Hminus _ _ _ H).
  - exfalso. symmetry in H. exact (Hminus _ _ _ H).
  - apply (f_equal value) in H.
    rewrite !value_zeros, !digit_list_value in H by lia. exact H.
Qed.

Lemma token_inj c x y : token c x = token c y -> x = y.
Proof. unfold token. intros [= H]. apply format_056d_inj, H. Qed.

(** The tokens of a returned page, and the window behind a page that is not
    empty. *)
Lemma get_log_events_ok_shape g n st et limit (h : Heap LogStream.t)
      tok sfh page bt ft :
  outcome (LogStream.get_log_events g n st et limit tok sfh) h
  = Ok (page, bt, ft) ->
  exists s e,
    bt = token "b" s /\ ft = token "f" e
    /\ (page <> [] ->
        exists a b,
          b - a + 1 = limit /\ a <= final_index st et h /\ 0 <= b
          /\ s = Z.max 0 a /\ e = Z.min b (final_index st et h)
          /\ s <= e
          /\ page = map LogEvent.to_response_dict
                      (Py.slice (view st et h) s (e + 1))).
Proof.
  intros H. rewrite get_log_events_outcome in H.
  fold (view st et h) in H. fold (final_index st et h) in H.
  destruct (LogStream.get_index_and_direction_from_token tok) as [[d i]|x];
    [|discriminate].
  destruct (LogStream.window d i (limit - 1) (final_index st et h) sfh)
    as [[a b]|x] eqn:Hwin; [|discriminate].
  apply window_length in Hwin. revert H.
  destruct (Z.ltb_spec (final_index st et h) a) as [Ha|Ha].
  { intros [= <- <- <-]. do 2 eexists. repeat split. congruence. }
  destruct (Z.ltb_spec b 0) as [Hb|Hb].
  { intros [= <- <- <-]. do 2 eexists. repeat split. congruence. }
  intros [= <- <- <-]. do 2 eexists. split; [reflexivity|].
  split; [reflexivity|]. intros Hne. exists a, b.
  repeat split; try assumption.
  pose proof (slice_length (view st et h) (Z.max 0 a)
                (Z.min b (final_index st et h) + 1)) as Hlen.
  unfold final_index in *.
  destruct (Py.slice (view st et h) (Z.max 0 a)
              (Z.min b (Z.of_nat (length (view st et h)) - 1) + 1));
    [cbn in Hne; congruence|].
  cbn [length] in Hlen. lia.
Qed.

(** X6.  Neighbouring pages lead to each other.  If a page that is not
    empty is followed, through its forward token, by a page that is not
    empty, then the backward token of that next page returns the first
    page with its two tokens; and the same with the directions exchanged.
    The limit and the time range are the same in the three calls, and the
    view has fewer than 10^4300 events, so that [int()] reads the indices
    in the tokens. *)
Theorem X6_neighbouring_pages_lead_to_each_other :
  forall (h : Heap LogStream.t) (log_group_name log_stream_name : string)
         (start_time end_time : option Z) (limit : Z)
         (next_token : option string) (sfh1 sfh2 sfh3 : bool)
         (page page' : list ResponseDict)
         (backward forward backward' forward' : string),
    let get tok sfh :=
      outcome (LogStream.get_log_events log_group_name log_stream_name
                 start_time end_time limit tok sfh) h in
    final_index start_time end_time h < max_int_read ->
    get next_token sfh1 = Ok (page, backward, forward) ->
    page <> [] -> page' <> [] ->
    (get (Some forward) sfh2 = Ok (page', backward', forward') ->
       get (Some backward') sfh3 = Ok (page, backward, forward))
    /\ (get (Some backward) sfh2 = Ok (page', backward', forward') ->
          get (Some forward') sfh3 = Ok (page, backward, forward)).
Proof.
  intros h g n st et limit tok sfh1 sfh2 sfh3 page page' bt ft bt' ft' get
         Hread H1 Hne Hne'.
  destruct (get_log_events_ok_shape _ _ _ _ _ _ _ _ _ _ _ H1)
    as (s & e & -> & -> & Hshape).
  destruct (Hshape Hne) as (a & b & Hab & Ha & Hb & Hs & He & Hse & Hpage).
  pose proof (final_index_ge st et h) as Hfin.
  pose proof max_int_read_gt as Hmax.
  set (final := final_index st et h) in *.
  split; intros H2.
  - destruct (get_log_events_ok_shape _ _ _ _ _ _ _ _ _ _ _ H2)
      as (s' & e' & -> & -> & Hshape').
    destruct (Hshape' Hne')
      as (a' & b' & Hab' & Ha' & Hb' & Hs' & He' & Hse' & _).
    unfold get in H2. rewrite get_log_events_outcome, get_index_token,
      window_f in H2 by lia.
    fold (view st et h) in H2. fold (final_index st et h) in H2.
    fold final in H2. revert H2.
    destruct (Z.ltb_spec final (e + 1)) as [Hx|Hx];
      [intros [= E _ _]; congruence|].
    destruct (Z.ltb_spec (e + 1 + (limit - 1)) 0) as [Hy|Hy];
      [intros [= E _ _]; congruence|].
    intros [= _ Eb _]. apply format_056d_inj in Eb.
    unfold get.
    rewrite get_log_events_outcome, get_index_token, window_b by lia.
    fold (view st et h). fold (final_index st et h). fold final.
    destruct (Z.ltb_spec final (s' - 1 - (limit - 1))); [lia|].
    destruct (Z.ltb_spec (s' - 1) 0); [lia|].
    rewrite Hpage.
    replace (Z.max 0 (s' - 1 - (limit - 1))) with s by lia.
    replace (Z.min (s' - 1) final) with e by lia. reflexivity.
  - destruct (get_log_events_ok_shape _ _ _ _ _ _ _ _ _ _ _ H2)
      as (s' & e' & -> & -> & Hshape').
    destruct (Hshape' Hne')
      as (a' & b' & Hab' & Ha' & Hb' & Hs' & He' & Hse' & _).
    unfold get in H2. rewrite get_log_events_outcome, get_index_token,
      window_b in H2 by lia.
    fold (view st et h) in H2. fold (final_index st et h) in H2.
    fold final in H2. revert H2.
    destruct (Z.ltb_spec final (s - 1 - (limit - 1))) as [Hx|Hx];
      [intros [= E _ _]; congruence|].
    destruct (Z.ltb_spec (s - 1) 0) as [Hy|Hy];
      [intros [= E _ _]; congruence|].
    intros [= _ _ Ef]. apply format_056d_inj in Ef.
    unfold get.
    rewrite get_log_events_outcome, get_index_token, window_f by lia.
    fold (view st et h). fold (final_index st et h). fold final.
    destruct (Z.ltb_spec final (e' + 1)); [lia|].
    destruct (Z.ltb_spec (e' + 1 + (limit - 1)) 0); [lia|].
    rewrite Hpage.
    replace (Z.max 0 (e' + 1)) with s by lia.
    replace (Z.min (e' + 1 + (limit - 1)) final) with e by lia. reflexivity.
Qed.

Section BackwardPaging.
Variables (log_group_name log_stream_name : string).
Variables (start_time end_time : option Z) (limit : Z).
Variable h : Heap LogStream.t.
Hypothesis limit_pos : 1 <= limit.

Let evs := view start_time end_time h.
Let final := final_index start_time end_time h.
Let get tok sfh :=
  LogStream.get_log_events log_group_name log_stream_name
    start_time end_time limit tok sfh.
Let L := Z.to_nat limit.
Let n := length evs.

Hypothesis Hreadable : final < max_int_read.

Lemma backward_page_run k :
  exists forward,
    backward_page k log_group_name log_stream_name start_time end_time limit h
    = (Ok (map LogEvent.to_response_dict
             (skipn (n - S k * L) (firstn (n - k * L) evs)),
           token "b" (Z.max 0 (Z.of_nat n - Z.of_nat (S k * L))), forward),
       h).
Proof.
  assert (Hfin : final = Z.of_nat (length evs) - 1) by reflexivity.
  assert (HL : limit = Z.of_nat L) by (unfold L; lia).
  induction k as [|k IH].
  - cbn [backward_page]. fold (get None false).
    unfold get. rewrite get_log_events_run, get_log_events_outcome.
    cbn [LogStream.get_index_and_direction_from_token LogStream.window].
    fold (view start_time end_time h). fold evs.
    change (Z.of_nat (length evs) - 1) with final.
    destruct (Z.ltb_spec final (final - (limit - 1))); [lia|].
    destruct (Z.ltb_spec final 0) as [H0|H0].
    + assert (Hnil : evs = [])
        by (destruct evs; [reflexivity | cbn in Hfin; lia]).
      unfold n. rewrite Hnil. cbn [length Nat.sub firstn skipn map].
      rewrite skipn_nil. eexists. repeat f_equal. lia.
    + rewrite Hfin, slice_clamped by lia. rewrite <- Hfin.
      replace (0 * L)%nat with O by lia. rewrite Nat.sub_0_r.
      unfold n. rewrite firstn_all.
      replace (Z.to_nat (final - (limit - 1))) with (length evs - 1 * L)%nat
        by lia.
      rewrite firstn_all2 by (rewrite length_skipn; lia).
      replace (Z.max 0 (final - (limit - 1)))
        with (Z.max 0 (Z.of_nat (length evs) - Z.of_nat (1 * L))) by lia.
      eexists. reflexivity.
  - destruct IH as [ft IH]. cbn [backward_page]. unfold bind.
    rewrite IH. cbn [fst snd].
    set (I := Z.max 0 (Z.of_nat n - Z.of_nat (S k * L))).
    fold (get (Some (token "b" I)) false).
    unfold get. rewrite get_log_events_run, get_log_events_outcome.
    rewrite get_index_token
      by (apply (index_readable final); [exact Hreadable|]; unfold I; nia).
    rewrite window_b.
    fold (view start_time end_time h). fold evs.
    change (Z.of_nat (length evs) - 1) with final.
    assert (Hn : Z.of_nat n = final + 1) by (unfold n; lia).
    destruct (Z.ltb_spec final (I - 1 - (limit - 1))); [lia|].
    destruct (Z.ltb_spec (I - 1) 0) as [H0|H0].
    + replace (n - S k * L)%nat with O by lia. cbn [firstn].
      rewrite skipn_nil.
      replace (Z.max 0 (Z.of_nat n - Z.of_nat (S (S k) * L))) with 0 by lia.
      eexists. reflexivity.
    + rewrite Hfin, slice_clamped by lia.
      replace (Z.to_nat (I - 1 - (limit - 1))) with (n - S (S k) * L)%nat
        by lia.
      replace (Z.to_nat (I - 1 + 1)) with (n - S k * L)%nat by lia.
      rewrite skipn_firstn_comm.
      replace (Z.max 0 (I - 1 - (limit - 1)))
        with (Z.max 0 (Z.of_nat n - Z.of_nat (S (S k) * L))) by lia.
      eexists. reflexivity.
Qed.
End BackwardPaging.

(** X7.  Paging backward from the tail with a limit of at least 1, each
    call fed the backward token of the one before: call number [k] returns
    the [k]-th block of [limit] events counted from the end of the view
    (the events from index [n - (k+1) * limit] up to, not including,
    [n - k * limit], cut at 0), in ascending order.  The view has fewer
    than 10^4300 events, so that [int()] reads the indices in the
    tokens. *)
Theorem X7_backward_paging_returns_blocks_from_the_end :
  forall (h : Heap LogStream.t) (log_group_name log_stream_name : string)
         (start_time end_time : option Z) (limit : Z) (k : nat),
    1 <= limit ->
    final_index start_time end_time h < max_int_read ->
    let evs := view start_time end_time h in
    exists backward forward,
      outcome (backward_page k log_group_name log_stream_name
                 start_time end_time limit) h
      = Ok (map LogEvent.to_response_dict
              (skipn (length evs - S k * Z.to_nat limit)
                 (firstn (length evs - k * Z.to_nat limit) evs)),
            backward, forward).
Proof.
  intros h g n st et limit k Hlimit Hread evs.
  destruct (backward_page_run g n st et limit h Hlimit Hread k) as [ft Hk].
  unfold outcome. rewrite Hk. eauto.
Qed.

(** ** Streams: description *)

Lemma fold_min_spec r : forall x,
  (fold_left Z.min r x <= x /\ Forall (fun y => fold_left Z.min r x <= y) r)
  /\ (fold_left Z.min r x = x \/ In (fold_left Z.min r x) r).
Proof.
  induction r as [|y r IH]; intros x; cbn [fold_left].
  - repeat split; [lia | constructor | left; reflexivity].
  - destruct (IH (Z.min x y)) as ((H1 & H2) & H3).
    repeat split; [lia | constructor; [lia | exact H2] |].
    destruct H3 as [H3|H3]; [|right; right; exact H3].
    destruct (Z.min_spec x y) as [[_ E]|[_ E]];
      [left; lia | right; left; lia].
Qed.

Lemma fold_max_spec r : forall x,
  (x <= fold_left Z.max r x /\ Forall (fun y => y <= fold_left Z.max r x) r)
  /\ (fold_left Z.max r x = x \/ In (fold_left Z.max r x) r).
Proof.
  induction r as [|y r IH]; intros x; cbn [fold_left].
  - repeat split; [lia | constructor | left; reflexivity].
  - destruct (IH (Z.max x y)) as ((H1 & H2) & H3).
    repeat split; [lia | constructor; [lia | exact H2] |].
    destruct H3 as [H3|H3]; [|right; right; exact H3].
    destruct (Z.max_spec x y) as [[_ E]|[_ E]];
      [right; left; lia | left; lia].
Qed.

Lemma min_of_spec l lo :
  Py.min_of l = Some lo -> In lo l /\ forall y, In y l -> lo <= y.
Proof.
  destruct l as [|x r]; [discriminate|]. intros [= <-].
  destruct (fold_min_spec r x) as ((H1 & H2) & H3). split.
  - destruct H3 as [->|H3]; [left; reflexivity | right; exact H3].
  - intros y [<-|Hy]; [exact H1|].
    rewrite List.Forall_forall in H2. apply H2, Hy.
Qed.

Lemma max_of_spec l hi :
  Py.max_of l = Some hi -> In hi l /\ forall y, In y l -> y <= hi.
Proof.
  destruct l as [|x r]; [discriminate|]. intros [= <-].
  destruct (fold_max_spec r x) as ((H1 & H2) & H3). split.
  - destruct H3 as [->|H3]; [left; reflexivity | right; exact H3].
  - intros y [<-|Hy]; [exact H1|].
    rewrite List.Forall_forall in H2. apply H2, Hy.
Qed.

Lemma to_describe_dict_run (h : Heap LogStream.t) :
  LogStream.to_describe_dict h
  = (Ok {| sd_arn := LogStream.arn (snd h);
           sd_creationTime := LogStream.creationTime (snd h);
           sd_logStreamName := LogStream.logStreamName (snd h);
           sd_storedBytes := LogStream.storedBytes (snd h);
           sd_rest :=
             match LogStream.events (snd h) with
             | [] => None
             | _ :: _ =>
                 Some {| sd_firstEventTimestamp :=
                           Py.min_of (map LogEvent.timestamp
                                        (LogStream.events (snd h)));
                         sd_lastEventTimestamp :=
                           Py.max_of (map LogEvent.timestamp
                                        (LogStream.events (snd h)));
                         sd_lastIngestionTime :=
                           LogStream.lastIngestionTime (snd h);
                         sd_uploadSequenceToken :=
                           Py.str (LogStream.uploadSequenceToken (snd h)) |}
             end |},
     (fst h,
      LogStream.set_lastEventTimestamp
        (match LogStream.events (snd h) with
         | [] => None
         | _ :: _ =>
             Py.max_of (map LogEvent.timestamp (LogStream.events (snd h)))
         end)
        (LogStream.set_firstEventTimestamp
           (match LogStream.events (snd h) with
            | [] => None
            | _ :: _ =>
                Py.min_of (map LogEvent.timestamp (LogStream.events (snd h)))
            end) (snd h)))).
Proof.
  destruct h as [gl s]. destruct s as [? ? ? ? ? ? ? ? ? evs].
  destruct evs; reflexivity.
Qed.

(** X8.  The description of a stream carries arn, creation time, name and
    storedBytes as they are.  For a stream without events the four keys
    firstEventTimestamp, lastEventTimestamp, lastIngestionTime and
    uploadSequenceToken are absent.  For a stream with events they are
    present: firstEventTimestamp and lastEventTimestamp are timestamps of
    events of the stream with every timestamp of the stream between them,
    whatever the order of ingestion, and uploadSequenceToken is the counter
    as [str] renders it, without padding. *)
Theorem X8_stream_description :
  forall h : Heap LogStream.t,
    exists d,
      outcome LogStream.to_describe_dict h = Ok d
      /\ sd_arn d = LogStream.arn (snd h)
      /\ sd_creationTime d = LogStream.creationTime (snd h)
      /\ sd_logStreamName d = LogStream.logStreamName (snd h)
      /\ sd_storedBytes d = LogStream.storedBytes (snd h)
      /\ (LogStream.events (snd h) = [] -> sd_rest d = None)
      /\ (LogStream.events (snd h) <> [] ->
          exists lo hi,
            sd_rest d
            = Some {| sd_firstEventTimestamp := Some lo;
                      sd_lastEventTimestamp := Some hi;
                      sd_lastIngestionTime :=
                        LogStream.lastIngestionTime (snd h);
                      sd_uploadSequenceToken :=
                        Py.str (LogStream.uploadSequenceToken (snd h)) |}
            /\ (forall e, In e (LogStream.events (snd h)) ->
                  lo <= LogEvent.timestamp e <= hi)
            /\ (exists e, In e (LogStream.events (snd h))
                          /\ LogEvent.timestamp e = lo)
            /\ (exists e, In e (LogStream.events (snd h))
                          /\ LogEvent.timestamp e = hi)).
Proof.
  intros h. eexists. unfold outcome. rewrite to_describe_dict_run.
  cbn [fst sd_arn sd_creationTime sd_logStreamName sd_storedBytes sd_rest].
  split; [reflexivity|]. do 4 (split; [reflexivity|]).
  split; [intros ->; reflexivity|]. intros Hne.
  destruct (LogStream.events (snd h)) as [|e0 r] eqn:E; [congruence|].
  destruct (Py.min_of (map LogEvent.timestamp (e0 :: r))) as [lo|] eqn:Hlo;
    [|discriminate].
  destruct (Py.max_of (map LogEvent.timestamp (e0 :: r))) as [hi|] eqn:Hhi;
    [|discriminate].
  apply min_of_spec in Hlo. apply max_of_spec in Hhi.
  destruct Hlo as [Hlo1 Hlo2], Hhi as [Hhi1 Hhi2].
  exists lo, hi. split; [reflexivity|]. split; [|split].
  - intros e He. apply (in_map LogEvent.timestamp) in He.
    split; [apply Hlo2 | apply Hhi2]; exact He.
  - apply in_map_iff in Hlo1. destruct Hlo1 as (e & He & Hin). eauto.
  - apply in_map_iff in Hhi1. destruct Hhi1 as (e & He & Hin). eauto.
Qed.

(** X9.  Describing a stream writes nothing but firstEventTimestamp and
    lastEventTimestamp: the events, storedBytes, uploadSequenceToken,
    lastIngestionTime, name, arn, creation time and the class counters are
    as before.  Describing twice gives the same description and the same
    state as describing once. *)
Theorem X9_stream_description_only_refreshes_derived_fields :
  forall h : Heap LogStream.t,
    let h' := after LogStream.to_describe_dict h in
    fst h' = fst h
    /\ LogStream.events (snd h') = LogStream.events (snd h)
    /\ LogStream.storedBytes (snd h') = LogStream.storedBytes (snd h)
    /\ LogStream.uploadSequenceToken (snd h')
       = LogStream.uploadSequenceToken (snd h)
    /\ LogStream.lastIngestionTime (snd h')
       = LogStream.lastIngestionTime (snd h)
    /\ LogStream.logStreamName (snd h') = LogStream.logStreamName (snd h)
    /\ LogStream.arn (snd h') = LogStream.arn (snd h)
    /\ LogStream.creationTime (snd h') = LogStream.creationTime (snd h)
    /\ LogStream.region (snd h') = LogStream.region (snd h)
    /\ LogStream.to_describe_dict h'
       = (outcome LogStream.to_describe_dict h, h').
Proof.
  intros h h'. unfold h', after, outcome.
  rewrite (to_describe_dict_run h). cbn [fst snd].
  repeat split. rewrite to_describe_dict_run. reflexivity.
Qed.

(** ** Dictionaries *)

Section DictFacts.
Context {V : Type}.
Implicit Types (d : list (string * V)) (k : string) (v : V).

Lemma contains_getitem k d :
  Py.contains k d = match Py.getitem k d with Some _ => true | None => false end.
Proof.
  induction d as [|[k' v'] r IH]; cbn; [reflexivity|].
  destruct (String.eqb k k'); [reflexivity | exact IH].
Qed.

Lemma contains_In k d : Py.contains k d = true <-> In k (map fst d).
Proof.
  induction d as [|[k' v'] r IH]; cbn; [split; [discriminate | tauto]|].
  destruct (String.eqb_spec k k') as [->|Hne]; [tauto|].
  rewrite IH. split; [tauto | intros [E|H]; [congruence | exact H]].
Qed.

Lemma getitem_setitem_eq k v d : Py.getitem k (Py.setitem k v d) = Some v.
Proof.
  induction d as [|[k' v'] r IH]; cbn.
  - rewrite String.eqb_refl. reflexivity.
  - destruct (String.eqb_spec k k') as [->|Hne]; cbn.
    + rewrite String.eqb_refl. reflexivity.
    + destruct (String.eqb_spec k k'); [contradiction | exact IH].
Qed.

Lemma getitem_setitem_ne k k' v d :
  k' <> k -> Py.getitem k' (Py.setitem k v d) = Py.getitem k' d.
Proof.
  intros Hne. induction d as [|[k2 v2] r IH]; cbn.
  - destruct (String.eqb_spec k' k); [contradiction | reflexivity].
  - destruct (String.eqb_spec k k2) as [->|Hk]; cbn.
    + destruct (String.eqb_spec k' k2); [contradiction | reflexivity].
    + destruct (String.eqb k' k2); [reflexivity | exact IH].
Qed.

(** Assigning to a present key keeps the iteration order; assigning to an
    absent key puts it last. *)
Lemma setitem_present k v d :
  Py.contains k d = true -> map fst (Py.setitem k v d) = map fst d.
Proof.
  induction d as [|[k' v'] r IH]; cbn; [discriminate|].
  destruct (String.eqb k k'); [reflexivity|].
  intros H. cbn. rewrite (IH H). reflexivity.
Qed.

Lemma setitem_absent k v d :
  Py.contains k d = false -> Py.setitem k v d = d ++ [(k, v)].
Proof.
  induction d as [|[k' v'] r IH]; cbn; [reflexivity|].
  destruct (String.eqb k k'); [discriminate|].
  intros H. rewrite (IH H). reflexivity.
Qed.

Lemma delitem_filter k d :
  List.NoDup (map fst d) ->
  Py.delitem k d = List.filter (fun item => negb (String.eqb k (fst item))) d.
Proof.
  induction d as [|[k' v'] r IH]; cbn; [reflexivity|]. intros Hnd.
  inversion Hnd as [|? ? Hnot Hr]; subst.
  destruct (String.eqb_spec k k') as [->|Hne]; cbn.
  - clear IH Hnd Hr. induction r as [|[k2 v2] r IHr]; [reflexivity|].
    cbn in *. destruct (String.eqb_spec k' k2) as [->|Hne]; [tauto|].
    cbn. rewrite <- IHr by tauto. reflexivity.
  - rewrite (IH Hr). reflexivity.
Qed.

Lemma getitem_delitem_eq k d :
  List.NoDup (map fst d) -> Py.getitem k (Py.delitem k d) = None.
Proof.
  induction d as [|[k' v'] r IH]; cbn; [reflexivity|]. intros Hnd.
  inversion Hnd as [|? ? Hnot Hr]; subst.
  destruct (String.eqb_spec k k') as [->|Hne]; cbn.
  - destruct (Py.getitem k' r) eqn:E; [|reflexivity].
    exfalso. apply Hnot. apply contains_In. rewrite contains_getitem, E.
    reflexivity.
  - destruct (String.eqb_spec k k'); [contradiction | apply IH, Hr].
Qed.

Lemma getitem_delitem_ne k k' d :
  k' <> k -> Py.getitem k' (Py.delitem k d) = Py.getitem k' d.
Proof.
  intros Hne. induction d as [|[k2 v2] r IH]; cbn; [reflexivity|].
  destruct (String.eqb_spec k k2) as [->|Hk]; cbn.
  - destruct (String.eqb_spec k' k2); [contradiction | reflexivity].
  - destruct (String.eqb k' k2); [reflexivity | exact IH].
Qed.
End DictFacts.

(** ** Groups: streams *)

Lemma call_stream_run {A} name (m : M (Heap LogStream.t) A)
      (h : Heap LogGroup.t) s r gl' s' :
  Py.getitem name (LogGroup.streams (snd h)) = Some s ->
  m (fst h, s) = (r, (gl', s')) ->
  LogGroup.call_stream name m h
  = (r, (gl', LogGroup.set_streams
                (Py.setitem name s' (LogGroup.streams (snd h))) (snd h))).
Proof.
  intros Hget Hm. unfold LogGroup.call_stream. rewrite Hget, Hm. reflexivity.
Qed.

(** A call that leaves the stream as it is leaves the group as it is. *)
Lemma call_stream_frame {A} name (m : M (Heap LogStream.t) A)
      (h : Heap LogGroup.t) :
  (forall hs, after m hs = hs) -> after (LogGroup.call_stream name m) h = h.
Proof.
  intros Hm. unfold after, LogGroup.call_stream.
  destruct (Py.getitem name (LogGroup.streams (snd h))) as [s|] eqn:Hget;
    [|reflexivity].
  specialize (Hm (fst h, s)). unfold after in Hm.
  destruct (m (fst h, s)) as [r [gl' s']]. cbn in Hm. injection Hm as -> ->.
  cbn. rewrite (setitem_getitem _ _ _ Hget), set_streams_id.
  destruct h; reflexivity.
Qed.

Lemma for_each_frame {S A B} (f : A -> M S B) l :
  (forall x s, after (f x) s = s) -> forall s, after (for_each f l) s = s.
Proof.
  intros Hf. induction l as [|x r IH]; intros s; [reflexivity|].
  unfold after. rewrite for_each_cons.
  specialize (Hf x s). unfold after in Hf.
  destruct (f x s) as [[y|e] s1]; cbn in Hf; subst s1; [|reflexivity].
  specialize (IH s). unfold after in IH.
  destruct (for_each f r s) as [[ys|e] s2]; cbn in IH; subst s2; reflexivity.
Qed.

Lemma stream_filter_frame g names st et limit off pat il hs :
  after (LogStream.filter_log_events g names st et limit off pat il) hs = hs.
Proof.
  unfold after, LogStream.filter_log_events.
  destruct (Py.truthy_str pat); reflexivity.
Qed.

(** X10.  The read operations of a group, get_log_events and
    filter_log_events, leave the group, its streams and the class counters
    exactly as they were, for every argument combination and whether they
    return or raise. *)
Theorem X10_group_reads_leave_group_unchanged :
  forall (h : Heap LogGroup.t) (log_group_name log_stream_name : string)
         (log_stream_names : option (list string))
         (start_time end_time : option Z) (limit : Z)
         (next_token : option string) (start_from_head : bool)
         (offset : option Z) (filter_pattern : option string)
         (interleaved : bool),
    after (LogGroup.get_log_events log_group_name log_stream_name
             start_time end_time limit next_token start_from_head) h = h
    /\ after (LogGroup.filter_log_events log_group_name log_stream_names
                start_time end_time limit offset filter_pattern interleaved)
             h = h.
Proof.
  intros h g n names st et limit tok sfh off pat il. split.
  - unfold after, LogGroup.get_log_events, bind, self. cbn [fst snd].
    destruct (negb (Py.contains n (LogGroup.streams (snd h))));
      [reflexivity|].
    apply (call_stream_frame n _ h). intros hs. apply get_log_events_frame.
  - unfold after, LogGroup.filter_log_events, bind, self. cbn [fst snd].
    match goal with |- context [for_each ?f ?l h] =>
      pose proof (for_each_frame f l) as Hfe end.
    unfold after in Hfe.
    match type of Hfe with ?P -> _ => assert (Hp : P) end.
    { intros item s. apply (call_stream_frame (fst item) _ s).
      intros hs. apply stream_filter_frame. }
    specialize (Hfe Hp h).
    destruct (for_each _ _ h) as [[per|e] s1]; cbn in Hfe; subst s1;
      reflexivity.
Qed.

Lemma create_log_stream_run now name (h : Heap LogGroup.t) :
  LogGroup.create_log_stream now name h
  = if Py.contains name (LogGroup.streams (snd h)) then
      (Raise ResourceAlreadyExistsException, h)
    else
      (Ok tt,
       ({| LogEvent_event_id := LogEvent_event_id (fst h);
           LogStream_log_ids := LogStream_log_ids (fst h) + 1;
           dicts := dicts (fst h) |},
        LogGroup.set_streams
          (Py.setitem name
             (LogStream.new now (LogStream_log_ids (fst h))
                (LogGroup.region (snd h)) (LogGroup.name (snd h)) name)
             (LogGroup.streams (snd h)))
          (snd h))).
Proof.
  destruct h as [gl g].
  unfold LogGroup.create_log_stream, bind, self. cbn [fst snd].
  destruct (Py.contains name (LogGroup.streams g)); reflexivity.
Qed.

Lemma delete_log_stream_run name (h : Heap LogGroup.t) :
  LogGroup.delete_log_stream name h
  = if Py.contains name (LogGroup.streams (snd h)) then
      (Ok tt,
       (fst h,
        LogGroup.set_streams (Py.delitem name (LogGroup.streams (snd h)))
          (snd h)))
    else (Raise ResourceNotFoundException, h).
Proof.
  destruct h as [gl g].
  unfold LogGroup.delete_log_stream, bind, self. cbn [fst snd].
  destruct (Py.contains name (LogGroup.streams g)); reflexivity.
Qed.

(** X11.  Streams of a group, by name.  create_log_stream of an absent
    name succeeds: the stream is new (no events, storedBytes 0,
    uploadSequenceToken 0, its arn numbered by the class counter, which
    goes up by one), it comes last in the iteration order and the streams
    already there are not touched.  Of a present name it raises
    ResourceAlreadyExistsException and changes nothing.
    delete_log_stream of an absent name raises ResourceNotFoundException
    and changes nothing; of a present name it removes that stream and
    keeps the others in their order, after which the name can be created
    again. *)
Theorem X11_stream_lifecycle_in_a_group :
  forall (h : Heap LogGroup.t) (now : Z) (log_stream_name : string),
    let streams := LogGroup.streams (snd h) in
    let create := LogGroup.create_log_stream now log_stream_name in
    let delete := LogGroup.delete_log_stream log_stream_name in
    List.NoDup (map fst streams) ->
    (Py.contains log_stream_name streams = false ->
       outcome create h = Ok tt
       /\ LogGroup.streams (snd (after create h))
          = streams
            ++ [(log_stream_name,
                 LogStream.new now (LogStream_log_ids (fst h))
                   (LogGroup.region (snd h)) (LogGroup.name (snd h))
                   log_stream_name)]
       /\ LogStream_log_ids (fst (after create h))
          = LogStream_log_ids (fst h) + 1
       /\ outcome delete h = Raise ResourceNotFoundException
       /\ after delete h = h)
    /\ (Py.contains log_stream_name streams = true ->
          outcome create h = Raise ResourceAlreadyExistsException
          /\ after create h = h
          /\ outcome delete h = Ok tt
          /\ LogGroup.streams (snd (after delete h))
             = List.filter
                 (fun item => negb (String.eqb log_stream_name (fst item)))
                 streams
          /\ Py.contains log_stream_name
               (LogGroup.streams (snd (after delete h))) = false
          /\ forall now', outcome (LogGroup.create_log_stream now'
                                     log_stream_name) (after delete h)
                          = Ok tt).
Proof.
  intros h now name streams create delete Hnd.
  unfold outcome, after, create, delete.
  rewrite create_log_stream_run, delete_log_stream_run. fold streams.
  split; intros Hc; rewrite Hc; cbn [fst snd].
  - repeat split. apply setitem_absent, Hc.
  - assert (Hgone : Py.contains name (Py.delitem name streams) = false).
    { rewrite contains_getitem, getitem_delitem_eq by exact Hnd.
      reflexivity. }
    repeat split; try assumption.
    + cbn. apply delitem_filter, Hnd.
    + intros now'. rewrite create_log_stream_run. cbn [fst snd].
      cbn [LogGroup.streams LogGroup.set_streams]. rewrite Hgone.
      reflexivity.
Qed.

Lemma group_put_run now g n batch tok (h : Heap LogGroup.t) s :
  Py.getitem n (LogGroup.streams (snd h)) = Some s ->
  LogGroup.put_log_events now g n batch tok h
  = (outcome (LogStream.put_log_events now g n batch tok) (fst h, s),
     (fst (after (LogStream.put_log_events now g n batch tok) (fst h, s)),
      LogGroup.set_streams
        (Py.setitem n
           (snd (after (LogStream.put_log_events now g n batch tok)
                       (fst h, s)))
           (LogGroup.streams (snd h)))
        (snd h))).
Proof.
  intros Hget. unfold LogGroup.put_log_events, bind, self. cbn [fst snd].
  rewrite contains_getitem, Hget. cbn [negb].
  unfold outcome, after.
  destruct (LogStream.put_log_events now g n batch tok (fst h, s))
    as [r [gl' s']] eqn:E.
  apply (call_stream_run n _ h s r gl' s' Hget E).
Qed.

(** X12.  put_log_events of a group raises ResourceNotFoundException, and
    changes nothing, when the group has no stream of that name.  Otherwise
    it returns what the stream returns and leaves the stream as the
    stream's own put_log_events leaves it; no other stream is touched and
    the iteration order of the streams stays. *)
Theorem X12_group_put_touches_one_stream :
  forall (h : Heap LogGroup.t) (now : Z)
         (log_group_name log_stream_name : string)
         (log_events : list InputLogEvent) (sequence_token : option string),
    let put :=
      LogGroup.put_log_events now log_group_name log_stream_name
        log_events sequence_token in
    let stream_put :=
      LogStream.put_log_events now log_group_name log_stream_name
        log_events sequence_token in
    (Py.getitem log_stream_name (LogGroup.streams (snd h)) = None ->
       outcome put h = Raise ResourceNotFoundException /\ after put h = h)
    /\ (forall s,
          Py.getitem log_stream_name (LogGroup.streams (snd h)) = Some s ->
          outcome put h = outcome stream_put (fst h, s)
          /\ Py.getitem log_stream_name (LogGroup.streams (snd (after put h)))
             = Some (snd (after stream_put (fst h, s)))
          /\ (forall other,
                other <> log_stream_name ->
                Py.getitem other (LogGroup.streams (snd (after put h)))
                = Py.getitem other (LogGroup.streams (snd h)))
          /\ map fst (LogGroup.streams (snd (after put h)))
             = map fst (LogGroup.streams (snd h))).
Proof.
  intros h now g n batch tok put stream_put. split.
  - intros Hnone. unfold outcome, after, put, LogGroup.put_log_events, bind,
      self. cbn [fst snd]. rewrite contains_getitem, Hnone. split; reflexivity.
  - intros s Hget.
    pose proof (group_put_run now g n batch tok h s Hget) as Hrun.
    fold put in Hrun. fold stream_put in Hrun.
    assert (Eo : outcome put h = outcome stream_put (fst h, s))
      by (unfold outcome at 1; rewrite Hrun; reflexivity).
    assert (Ea : LogGroup.streams (snd (after put h))
                 = Py.setitem n (snd (after stream_put (fst h, s)))
                     (LogGroup.streams (snd h)))
      by (unfold after at 1; rewrite Hrun; reflexivity).
    rewrite Ea.
    split; [exact Eo|]. split; [apply getitem_setitem_eq|].
    split; [intros other Hne; apply getitem_setitem_ne, Hne|].
    apply setitem_present. rewrite contains_getitem, Hget. reflexivity.
Qed.

(** ** Groups: reading a filtered result page by page *)

Lemma slice_from {A} (l : list A) lo len :
  0 <= lo -> 0 <= len ->
  Py.slice l lo (lo + len)
  = firstn (Z.to_nat len) (skipn (Z.to_nat lo) l).
Proof.
  intros Hlo Hlen. unfold Py.slice.
  destruct (Z.ltb_spec lo 0); [lia|].
  destruct (Z.ltb_spec (lo + len) 0); [lia|].
  set (n := Z.of_nat (length l)).
  destruct (Z.le_gt_cases n lo) as [Hge|Hlt].
  - rewrite !skipn_all2 by lia. rewrite !firstn_nil. reflexivity.
  - replace (Z.to_nat (Z.min lo n)) with (Z.to_nat lo) by lia.
    destruct (Z.le_gt_cases (lo + len) n) as [Hin|Hout].
    + f_equal. lia.
    + rewrite !firstn_all2; [reflexivity| |]; rewrite length_skipn; lia.
Qed.

Lemma filter_log_events_state g names st et limit off il (h : Heap LogGroup.t) :
  List.NoDup (map fst (LogGroup.streams (snd h))) ->
  let events := filter_result names st et il (snd h) in
  let lo := match off with None => 0 | Some k => k end in
  LogGroup.filter_log_events g names st et limit off None il h
  = (Ok (Py.slice events lo (lo + limit),
         (if lo + limit >=? Z.of_nat (length events) then None
          else Some (lo + limit)),
         map (fun item =>
                {| ss_logStreamName := LogStream.logStreamName (snd item);
                   searchedCompletely := true |})
             (selected_streams names (snd h))),
     h).
Proof.
  intros Hnd events lo.
  pose proof (selected_streams_getitem names (snd h) Hnd) as Hall.
  unfold LogGroup.filter_log_events, bind, self. cbn [fst snd].
  fold (selected_streams names (snd h)).
  rewrite (for_each_stream_ok g names st et limit off None il h _ Hall eq_refl).
  reflexivity.
Qed.

Lemma filter_all_pages_run g names st et limit il (h : Heap LogGroup.t) :
  List.NoDup (map fst (LogGroup.streams (snd h))) ->
  1 <= limit ->
  let events := filter_result names st et il (snd h) in
  forall fuel off,
    let lo := match off with None => 0 | Some k => k end in
    0 <= lo ->
    (length events - Z.to_nat lo < fuel)%nat ->
    filter_all_pages fuel g names st et limit off il h
    = (Ok (Some (skipn (Z.to_nat lo) events)), h).
Proof.
  intros Hnd Hlimit events fuel.
  induction fuel as [|fuel IH]; intros off lo Hlo Hfuel; [lia|].
  cbn [filter_all_pages]. unfold bind at 1.
  rewrite (filter_log_events_state g names st et limit off il h Hnd).
  fold events. fold lo. cbn [fst snd].
  rewrite slice_from by lia.
  destruct (Z.geb_spec (lo + limit) (Z.of_nat (length events))) as [Hend|Hmore].
  - unfold ret. rewrite firstn_all2 by (rewrite length_skipn; lia).
    reflexivity.
  - unfold bind. rewrite (IH (Some (lo + limit))) by lia.
    unfold ret. cbn [option_map]. do 3 f_equal.
    replace (Z.to_nat (lo + limit)) with (Z.to_nat limit + Z.to_nat lo)%nat
      by lia.
    rewrite <- skipn_skipn. apply firstn_skipn.
Qed.

(** X13.  With a limit of at least 1 and no pattern, a client that starts
    without a token and keeps calling filter_log_events with the token
    returned, until it is None, receives the whole filtered sequence of the
    selected streams, every event once and in order; one call more than
    there are events is always enough. *)
Theorem X13_filter_pages_join_to_the_whole_result :
  forall (h : Heap LogGroup.t) (log_group_name : string)
         (log_stream_names : option (list string))
         (start_time end_time : option Z) (limit : Z) (interleaved : bool),
    List.NoDup (map fst (LogGroup.streams (snd h))) ->
    1 <= limit ->
    let events :=
      filter_result log_stream_names start_time end_time interleaved (snd h) in
    outcome (filter_all_pages (S (length events)) log_group_name
               log_stream_names start_time end_time limit None interleaved) h
    = Ok (Some events).
Proof.
  intros h g names st et limit il Hnd Hlimit events.
  unfold outcome.
  rewrite (filter_all_pages_run g names st et limit il h Hnd Hlimit
             (S (length events)) None); [reflexivity | lia |].
  fold events. cbn. lia.
Qed.

(** ** Groups: tags, retention, description *)

Lemma getitem_update {V} (other : list (string * V)) : forall d k,
  List.NoDup (map fst other) ->
  Py.getitem k (Py.update d other)
  = match Py.getitem k other with
    | Some v => Some v
    | None => Py.getitem k d
    end.
Proof.
  unfold Py.update.
  induction other as [|[k1 v1] r IH]; intros d k Hnd; [reflexivity|].
  inversion Hnd as [|? ? Hnot Hr]; subst.
  cbn [fold_left fst snd Py.getitem]. rewrite (IH _ _ Hr).
  destruct (String.eqb_spec k k1) as [->|Hne].
  - destruct (Py.getitem k1 r) eqn:E.
    + exfalso. apply Hnot. apply contains_In. rewrite contains_getitem, E.
      reflexivity.
    + apply getitem_setitem_eq.
  - destruct (Py.getitem k r); [reflexivity|].
    apply getitem_setitem_ne, Hne.
Qed.

Lemma getitem_filter_keys {V} (p : string -> bool) (d : list (string * V)) k :
  Py.getitem k (List.filter (fun kv => p (fst kv)) d)
  = if p k then Py.getitem k d else None.
Proof.
  induction d as [|[k1 v1] r IH]; cbn; [destruct (p k); reflexivity|].
  destruct (p k1) eqn:Hp1; cbn.
  - destruct (String.eqb_spec k k1) as [->|Hne]; [rewrite Hp1; reflexivity|].
    exact IH.
  - destruct (String.eqb_spec k k1) as [->|Hne]; [|exact IH].
    rewrite IH, Hp1. reflexivity.
Qed.

(** The store of dict objects. *)
Lemma deref_alloc gl d r :
  deref (set_dicts (dicts gl ++ [d]) gl) r
  = if (r =? length (dicts gl))%nat then d else deref gl r.
Proof.
  unfold deref. cbn [dicts set_dicts].
  destruct (Nat.eqb_spec r (length (dicts gl))) as [->|Hne].
  - rewrite lookup_app_r by lia. rewrite Nat.sub_diag. reflexivity.
  - destruct (Nat.lt_ge_cases r (length (dicts gl))).
    + rewrite lookup_app_l by lia. reflexivity.
    + rewrite !lookup_ge_None_2; [reflexivity | lia |].
      rewrite List.length_app. cbn. lia.
Qed.

Lemma deref_insert gl r x r' :
  deref (set_dicts (<[r := x]> (dicts gl)) gl) r'
  = if (r' =? r)%nat && (r <? length (dicts gl))%nat then x
    else deref gl r'.
Proof.
  unfold deref. cbn [dicts set_dicts].
  destruct (Nat.eqb_spec r' r) as [->|Hne]; cbn [andb].
  - destruct (Nat.ltb_spec r (length (dicts gl))).
    + rewrite list_lookup_insert_eq by lia. reflexivity.
    + rewrite list_insert_ge by lia. reflexivity.
  - rewrite list_lookup_insert_ne by congruence. reflexivity.
Qed.

Lemma deref_lt gl r : deref gl r <> [] -> (r < length (dicts gl))%nat.
Proof.
  unfold deref. intros H.
  destruct (dicts gl !! r) eqn:E; [|contradiction].
  eapply lookup_lt_Some, E.
Qed.

Lemma truthy_dict_deref gl r :
  truthy_dict gl (Some r) = match deref gl r with [] => false | _ => true end.
Proof. reflexivity. Qed.

Lemma update_nonempty {V} (other : list (string * V)) : forall d,
  d <> [] -> Py.update d other <> [].
Proof.
  unfold Py.update. induction other as [|[k v] r IH]; intros d Hd; [exact Hd|].
  cbn [fold_left fst snd]. apply IH.
  destruct d as [|[k' v'] d']; [congruence|]. cbn.
  destruct (String.eqb k k'); discriminate.
Qed.

(** What a client reads is what the group shows. *)
Lemma read_tags_outcome (h : Heap LogGroup.t) :
  outcome read_tags h = Ok (shown_tags (fst h) (snd h)).
Proof.
  destruct h as [gl g].
  unfold outcome, read_tags, LogGroup.list_tags, shown_tags, new_dict, bind,
    self, globals, update_globals, modify, ret. cbn [fst snd].
  destruct (LogGroup.tags g) as [r|]; cbn [fst snd].
  - rewrite truthy_dict_deref. destruct (deref gl r) eqn:E; cbn [fst snd].
    + rewrite deref_alloc, Nat.eqb_refl. reflexivity.
    + rewrite E. reflexivity.
  - rewrite deref_alloc, Nat.eqb_refl. reflexivity.
Qed.

Lemma tag_run new_tags (h : Heap LogGroup.t) :
  LogGroup.tag new_tags h
  = (Ok tt,
     match LogGroup.tags (snd h) with
     | Some r =>
         if truthy_dict (fst h) (Some r) then
           (set_dicts
              (<[r := Py.update (deref (fst h) r) (deref (fst h) new_tags)]>
                 (dicts (fst h)))
              (fst h),
            snd h)
         else (fst h, LogGroup.set_tags (Some new_tags) (snd h))
     | None => (fst h, LogGroup.set_tags (Some new_tags) (snd h))
     end).
Proof.
  destruct h as [gl g].
  unfold LogGroup.tag, dict_update, bind, self, globals, update_globals,
    update_self, modify. cbn [fst snd].
  destruct (LogGroup.tags g) as [r|]; [|reflexivity].
  destruct (truthy_dict gl (Some r)); reflexivity.
Qed.

Lemma untag_run ks (h : Heap LogGroup.t) :
  LogGroup.untag ks h
  = (Ok tt,
     match LogGroup.tags (snd h) with
     | Some r =>
         if truthy_dict (fst h) (Some r) then
           (set_dicts
              (dicts (fst h)
               ++ [List.filter (fun kv => negb (Py.mem (fst kv) ks))
                     (deref (fst h) r)])
              (fst h),
            LogGroup.set_tags (Some (length (dicts (fst h)))) (snd h))
         else h
     | None => h
     end).
Proof.
  destruct h as [gl g].
  unfold LogGroup.untag, new_dict, bind, self, globals, update_globals,
    update_self, modify, ret. cbn [fst snd].
  destruct (LogGroup.tags g) as [r|]; [|reflexivity].
  destruct (truthy_dict gl (Some r)); reflexivity.
Qed.

(** X14.  Tags of a group, as a client reads them from the object
    list_tags returns (no tags and an empty dictionary both read as
    empty).  After [tag] with a dict object, every key of that dict has
    its value and every other key has the value it had.  After [untag],
    the listed keys are gone and every other key has the value it had;
    untagging a group without tags is harmless. *)
Theorem X14_tag_and_untag :
  forall (h : Heap LogGroup.t) (new_tags : dict_ref)
         (tags_to_remove : list string) (current : list (string * string)),
    outcome read_tags h = Ok current ->
    List.NoDup (map fst (deref (fst h) new_tags)) ->
    (exists tagged,
        outcome (LogGroup.tag new_tags ;; read_tags) h = Ok tagged
        /\ forall k,
             Py.getitem k tagged
             = match Py.getitem k (deref (fst h) new_tags) with
               | Some v => Some v
               | None => Py.getitem k current
               end)
    /\ (exists untagged,
          outcome (LogGroup.untag tags_to_remove ;; read_tags) h
          = Ok untagged
          /\ forall k,
               Py.getitem k untagged
               = if Py.mem k tags_to_remove then None
                 else Py.getitem k current).
Proof.
  intros h new_tags ks current Hcur Hnd.
  rewrite read_tags_outcome in Hcur. injection Hcur as <-.
  rewrite (outcome_seq _ _ _ _ _ (tag_run new_tags h)).
  rewrite (outcome_seq _ _ _ _ _ (untag_run ks h)).
  rewrite !read_tags_outcome.
  destruct h as [gl g]. unfold shown_tags. cbn [fst snd] in *.
  destruct (LogGroup.tags g) as [r|] eqn:Et.
  - rewrite truthy_dict_deref. destruct (deref gl r) as [|item rest] eqn:Er.
    + cbn [fst snd LogGroup.tags LogGroup.set_tags]. rewrite Et, Er. split.
      * eexists. split; [reflexivity|]. intros k.
        destruct (Py.getitem k (deref gl new_tags)); reflexivity.
      * eexists. split; [reflexivity|]. intros k.
        destruct (Py.mem k ks); reflexivity.
    + cbn [fst snd LogGroup.tags LogGroup.set_tags]. rewrite Et. split.
      * eexists. split; [reflexivity|]. intros k.
        rewrite deref_insert, Nat.eqb_refl. cbn [andb].
        assert (Hlt : (r < length (dicts gl))%nat)
          by (apply deref_lt; rewrite Er; discriminate).
        destruct (Nat.ltb_spec r (length (dicts gl))); [|lia].
        apply getitem_update, Hnd.
      * eexists. split; [reflexivity|]. intros k.
        rewrite deref_alloc, Nat.eqb_refl.
        rewrite (getitem_filter_keys (fun key => negb (Py.mem key ks))
                   (item :: rest) k).
        destruct (Py.mem k ks); reflexivity.
  - cbn [fst snd LogGroup.tags LogGroup.set_tags]. rewrite Et. split.
    + eexists. split; [reflexivity|]. intros k.
      destruct (Py.getitem k (deref gl new_tags)); reflexivity.
    + eexists. split; [reflexivity|]. intros k.
      destruct (Py.mem k ks); reflexivity.
Qed.

(** X15.  retentionInDays appears in the description of a group exactly
    when a retention other than 0 is set: after set_retention_policy with
    [days] the description carries [days] unless [days] is 0, and after a
    following set_retention_policy with None the key is absent.  The other
    entries of the description do not depend on the retention, and
    metricFilterCount is always 0. *)
Theorem X15_retention_in_the_description :
  forall (h : Heap LogGroup.t) (days : Z),
    exists d0 d1 d2,
      outcome LogGroup.to_describe_dict h = Ok d0
      /\ outcome (LogGroup.set_retention_policy (Some days) ;;
                  LogGroup.to_describe_dict) h = Ok d1
      /\ outcome (LogGroup.set_retention_policy (Some days) ;;
                  LogGroup.set_retention_policy None ;;
                  LogGroup.to_describe_dict) h = Ok d2
      /\ gd_retentionInDays d1 = (if days =? 0 then None else Some days)
      /\ gd_retentionInDays d2 = None
      /\ gd_metricFilterCount d0 = 0
      /\ (gd_arn d1, gd_creationTime d1, gd_logGroupName d1,
          gd_metricFilterCount d1, gd_storedBytes d1)
         = (gd_arn d0, gd_creationTime d0, gd_logGroupName d0,
            gd_metricFilterCount d0, gd_storedBytes d0)
      /\ (gd_arn d2, gd_creationTime d2, gd_logGroupName d2,
          gd_metricFilterCount d2, gd_storedBytes d2)
         = (gd_arn d0, gd_creationTime d0, gd_logGroupName d0,
            gd_metricFilterCount d0, gd_storedBytes d0).
Proof.
  intros [gl g] days. do 3 eexists.
  unfold outcome, LogGroup.set_retention_policy, LogGroup.to_describe_dict,
    bind, self, ret, update_self, modify.
  cbn [fst snd].
  split; [reflexivity|]. split; [reflexivity|]. split; [reflexivity|].
  cbn. destruct (days =? 0); repeat split.
Qed.

Lemma sum_setitem {V} (f : V -> Z) k s s' (d : list (string * V)) :
  Py.getitem k d = Some s ->
  Py.sum (map (fun item => f (snd item)) (Py.setitem k s' d))
  = Py.sum (map (fun item => f (snd item)) d) - f s + f s'.
Proof.
  induction d as [|[k1 v1] r IH]; cbn [Py.getitem Py.setitem];
    [discriminate|].
  destruct (String.eqb k k1).
  - intros [= ->]. cbn [map snd].
    change (Py.sum (?x :: ?l)) with (x + Py.sum l).
    change (Py.sum (f s :: ?l)) with (f s + Py.sum l). lia.
  - intros H. cbn [map snd].
    change (Py.sum (f v1 :: ?l)) with (f v1 + Py.sum l).
    change (Py.sum (f v1 :: ?l)) with (f v1 + Py.sum l).
    rewrite (IH H). lia.
Qed.

(** X16.  The storedBytes of a group's description is the sum of the
    storedBytes of its streams, and a put_log_events into one of its
    streams raises it by the number of characters of the messages of the
    batch. *)
Theorem X16_group_stored_bytes_follow_the_streams :
  forall (h : Heap LogGroup.t) (now : Z)
         (log_group_name log_stream_name : string)
         (log_events : list InputLogEvent) (sequence_token : option string)
         (s : LogStream.t),
    Py.getitem log_stream_name (LogGroup.streams (snd h)) = Some s ->
    exists d0 d1,
      outcome LogGroup.to_describe_dict h = Ok d0
      /\ outcome (LogGroup.put_log_events now log_group_name log_stream_name
                    log_events sequence_token ;;
                  LogGroup.to_describe_dict) h = Ok d1
      /\ gd_storedBytes d0
         = Py.sum (map (fun item => LogStream.storedBytes (snd item))
                       (LogGroup.streams (snd h)))
      /\ gd_storedBytes d1
         = gd_storedBytes d0
           + Py.sum (map (fun e => Py.len (in_message e)) log_events).
Proof.
  intros h now g n batch tok s Hget. do 2 eexists.
  split; [reflexivity|].
  pose proof (group_put_run now g n batch tok h s Hget) as Hrun.
  unfold outcome at 1 in Hrun. unfold after in Hrun.
  rewrite put_log_events_state in Hrun. cbn [fst snd] in Hrun.
  split.
  - rewrite (outcome_seq _ _ _ _ _ Hrun). reflexivity.
  - split; [reflexivity|].
    cbn [outcome fst snd LogGroup.to_describe_dict gd_storedBytes bind self
         ret LogGroup.streams LogGroup.set_streams].
    unfold outcome, LogGroup.to_describe_dict, bind, self, ret.
    cbn [fst snd gd_storedBytes LogGroup.streams LogGroup.set_streams].
    rewrite (sum_setitem LogStream.storedBytes n s _ _ Hget).
    cbn [LogStream.storedBytes LogStream.set_uploadSequenceToken
         LogStream.set_events LogStream.set_storedBytes]. lia.
Qed.

(** ** Groups: describe_log_streams *)

Section SortedByFacts.
Context {A K : Type} (leb : K -> K -> bool) (key : A -> K).
Hypothesis leb_total : forall a b, leb a b = true \/ leb b a = true.
Hypothesis leb_trans :
  forall a b c, leb a b = true -> leb b c = true -> leb a c = true.

Lemma insert_by_Permutation reverse x l :
  Permutation (Py.insert_by leb key reverse x l) (x :: l).
Proof.
  induction l as [|y r IH]; cbn; [reflexivity|].
  destruct (if reverse then leb (key y) (key x) else leb (key x) (key y));
    [reflexivity|].
  rewrite IH. apply perm_swap.
Qed.

Lemma sorted_by_Permutation reverse l :
  Permutation (Py.sorted_by leb key reverse l) l.
Proof.
  induction l as [|x r IH]; cbn; [reflexivity|].
  rewrite insert_by_Permutation. now constructor.
Qed.

Lemma in_order_trans reverse x y z :
  in_order leb key reverse x y -> in_order leb key reverse y z -> in_order leb key reverse x z.
Proof. unfold in_order. destruct reverse; eauto. Qed.

Lemma insert_by_sorted reverse x l :
  StronglySorted (in_order leb key reverse) l ->
  StronglySorted (in_order leb key reverse) (Py.insert_by leb key reverse x l).
Proof.
  induction 1 as [|y r Hr IH Hy]; cbn.
  - repeat constructor.
  - destruct (if reverse then leb (key y) (key x) else leb (key x) (key y))
      eqn:E.
    + assert (Hxy : in_order leb key reverse x y)
        by (unfold in_order; destruct reverse; exact E).
      constructor; [constructor; assumption|].
      constructor; [exact Hxy|].
      eapply List.Forall_impl; [|exact Hy].
      intros z Hz. eapply in_order_trans; eassumption.
    + assert (Hyx : in_order leb key reverse y x).
      { unfold in_order. destruct reverse.
        - destruct (leb_total (key x) (key y)); [assumption | congruence].
        - destruct (leb_total (key y) (key x)); [assumption | congruence]. }
      constructor; [exact IH|].
      eapply Permutation_Forall; [symmetry; apply insert_by_Permutation|].
      constructor; assumption.
Qed.

Lemma sorted_by_sorted reverse l :
  StronglySorted (in_order leb key reverse) (Py.sorted_by leb key reverse l).
Proof.
  induction l as [|x r IH]; cbn; [constructor|].
  apply insert_by_sorted, IH.
Qed.
End SortedByFacts.

Lemma string_compare_refl s : String.compare s s = Eq.
Proof.
  induction s as [|c s IH]; cbn; [reflexivity|].
  unfold Ascii.compare. rewrite N.compare_refl. exact IH.
Qed.

Lemma string_leb_trans s1 : forall s2 s3,
  String.leb s1 s2 = true -> String.leb s2 s3 = true ->
  String.leb s1 s3 = true.
Proof.
  unfold String.leb.
  induction s1 as [|c1 s1 IH]; intros [|c2 s2] [|c3 s3]; cbn;
    try reflexivity; try discriminate.
  unfold Ascii.compare.
  destruct (N.compare_spec (N_of_ascii c1) (N_of_ascii c2)) as [E12|L12|G12];
    try discriminate;
    destruct (N.compare_spec (N_of_ascii c2) (N_of_ascii c3)) as [E23|L23|G23];
    try discriminate; intros H12 H23.
  - replace (N_of_ascii c1 ?= N_of_ascii c3)%N with Eq
      by (symmetry; apply N.compare_eq_iff; congruence).
    exact (IH s2 s3 H12 H23).
  - replace (N_of_ascii c1 ?= N_of_ascii c3)%N with Lt
      by (symmetry; apply N.compare_lt_iff; lia).
    reflexivity.
  - replace (N_of_ascii c1 ?= N_of_ascii c3)%N with Lt
      by (symmetry; apply N.compare_lt_iff; lia).
    reflexivity.
  - replace (N_of_ascii c1 ?= N_of_ascii c3)%N with Lt
      by (symmetry; apply N.compare_lt_iff; lia).
    reflexivity.
Qed.

Lemma z_leb_total a b : (a <=? b) = true \/ (b <=? a) = true.
Proof. destruct (Z.leb_spec a b); [left; reflexivity | right; apply Z.leb_le; lia]. Qed.

Lemma z_leb_trans a b c :
  (a <=? b) = true -> (b <=? c) = true -> (a <=? c) = true.
Proof. rewrite !Z.leb_le. lia. Qed.

Lemma to_describe_dict_description (hs : Heap LogStream.t) :
  outcome LogStream.to_describe_dict hs = Ok (description_of (snd hs))
  /\ fst (after LogStream.to_describe_dict hs) = fst hs.
Proof.
  unfold outcome, after. rewrite to_describe_dict_run. split; reflexivity.
Qed.

Lemma keys_filter_NoDup {V} (p : string * V -> bool) (d : list (string * V)) :
  List.NoDup (map fst d) -> List.NoDup (map fst (List.filter p d)).
Proof.
  induction d as [|kv r IH]; cbn; intros Hnd; [constructor|].
  inversion Hnd as [|? ? Hnot Hr]; subst.
  destruct (p kv); cbn; [|apply IH, Hr].
  constructor; [|apply IH, Hr].
  intros Hin. apply Hnot. apply in_map_iff in Hin.
  destruct Hin as (x & Hx & Hin). apply filter_In in Hin.
  apply in_map_iff. exists x. tauto.
Qed.

Lemma filter_getitem {V} (p : string * V -> bool) (d : list (string * V)) :
  List.NoDup (map fst d) ->
  Forall (fun item => Py.getitem (fst item) d = Some (snd item))
         (List.filter p d).
Proof.
  intros Hnd. apply List.Forall_forall. intros [k v] Hin.
  apply filter_In in Hin. destruct Hin as [Hin _].
  apply getitem_In; assumption.
Qed.

Lemma for_each_describe items : forall h : Heap LogGroup.t,
  List.NoDup (map fst items) ->
  Forall (fun item =>
            Py.getitem (fst item) (LogGroup.streams (snd h))
            = Some (snd item)) items ->
  exists h',
    for_each
      (fun item =>
         let* d := LogGroup.call_stream (fst item) LogStream.to_describe_dict in
         ret (fst item, d)) items h
    = (Ok (map (fun item => (fst item, description_of (snd item))) items), h').
Proof.
  induction items as [|[k s] r IH]; intros h Hnd Hall.
  - exists h. reflexivity.
  - inversion Hnd as [|? ? Hnot Hr]; subst.
    inversion Hall as [|? ? Hk Hrest]; subst. cbn [fst snd] in *.
    rewrite for_each_cons. cbn beta. cbn [fst]. unfold bind at 1.
    destruct (LogStream.to_describe_dict (fst h, s)) as [res [gl' s']] eqn:E.
    pose proof (to_describe_dict_description (fst h, s)) as [Ho _].
    unfold outcome in Ho. rewrite E in Ho. cbn in Ho. subst res.
    rewrite (call_stream_run k _ h s _ gl' s' Hk E). unfold ret at 1.
    match goal with |- context [for_each _ r ?h1] =>
      destruct (IH h1 Hr) as [h' Hrun] end.
    + cbn [snd LogGroup.streams LogGroup.set_streams].
      rewrite List.Forall_forall in Hrest |- *. intros item Hin.
      rewrite getitem_setitem_ne; [apply Hrest, Hin|].
      intros E1. apply Hnot. rewrite <- E1. apply in_map, Hin.
    + rewrite Hrun. exists h'. reflexivity.
Qed.

Lemma StronglySorted_weaken {A} (R R' : A -> A -> Prop) l :
  (forall x y, R x y -> R' x y) -> StronglySorted R l -> StronglySorted R' l.
Proof.
  intros HR. induction 1 as [|x r Hr IH Hx]; constructor; [exact IH|].
  eapply List.Forall_impl; [|exact Hx]. intros y. apply HR.
Qed.

(** X17.  describe_log_streams describes the streams whose name starts
    with the prefix and no others.  It orders them by name when order_by is
    "logStreamName" and by last event timestamp (0 for a stream without
    events) otherwise, ascending, or descending when asked; the ordered
    list holds each of these streams once.  The page is the part
    [token : token + limit] of the ordered list and the new token is
    [token + limit], or None once that reaches the number of described
    streams. *)
Theorem X17_describe_log_streams :
  forall (h : Heap LogGroup.t) (descending : bool) (limit : Z)
         (log_group_name log_stream_name_prefix : string)
         (next_token : option Z) (order_by : string),
    List.NoDup (map fst (LogGroup.streams (snd h))) ->
    let all := described_streams log_stream_name_prefix (snd h) in
    let lo := match next_token with None => 0 | Some k => k end in
    exists ordered,
      outcome (LogGroup.describe_log_streams descending limit log_group_name
                 log_stream_name_prefix next_token order_by) h
      = Ok (map snd (Py.slice ordered lo (lo + limit)),
            if lo + limit >=? Z.of_nat (length all) then None
            else Some (lo + limit))
      /\ Permutation ordered all
      /\ Forall (fun x => Py.startswith (fst x) log_stream_name_prefix = true)
                ordered
      /\ (order_by = "logStreamName" ->
          StronglySorted (by_name descending) ordered)
      /\ (order_by <> "logStreamName" ->
          StronglySorted (by_last_event descending) ordered).
Proof.
  intros h descending limit g prefix tok order_by Hnd all lo.
  set (matching := List.filter
                     (fun item => Py.startswith (fst item) prefix)
                     (LogGroup.streams (snd h))).
  destruct (for_each_describe matching h) as [h' Hrun].
  { apply keys_filter_NoDup, Hnd. }
  { apply filter_getitem, Hnd. }
  assert (Hall : Forall (fun x => Py.startswith (fst x) prefix = true) all).
  { unfold all, described_streams. fold matching.
    apply List.Forall_forall. intros x Hx. apply in_map_iff in Hx.
    destruct Hx as (item & <- & Hin). apply filter_In in Hin. apply Hin. }
  set (ordered :=
         if String.eqb order_by "logStreamName" then
           Py.sorted_by String.leb fst descending all
         else
           Py.sorted_by Z.leb
             (fun item => LogGroup.last_event_timestamp (snd item))
             descending all).
  assert (Hperm : Permutation ordered all).
  { unfold ordered. destruct (String.eqb order_by "logStreamName");
      apply sorted_by_Permutation. }
  exists ordered. split; [|split; [exact Hperm|split; [|split]]].
  - unfold outcome, LogGroup.describe_log_streams, bind, self.
    cbn [fst snd]. fold matching. unfold bind in Hrun. rewrite Hrun.
    change (map (fun item => (fst item, description_of (snd item))) matching)
      with all.
    fold lo. fold ordered. unfold ret. cbn [fst].
    rewrite (Permutation_length Hperm). reflexivity.
  - eapply Permutation_Forall; [symmetry; exact Hperm | exact Hall].
  - intros ->. unfold ordered. rewrite String.eqb_refl.
    apply (sorted_by_sorted String.leb fst String.leb_total
             (fun a b c => string_leb_trans a b c)).
  - intros Hne. unfold ordered.
    destruct (String.eqb_spec order_by "logStreamName"); [contradiction|].
    pose proof (sorted_by_sorted Z.leb
                  (fun item : string * StreamDescription =>
                     LogGroup.last_event_timestamp (snd item))
                  z_leb_total z_leb_trans descending all) as Hs.
    eapply StronglySorted_weaken; [|exact Hs].
    intros x y. unfold in_order, by_last_event.
    destruct descending; apply Z.leb_le.
Qed.

(** ** The registry *)

Lemma contains_absent name (b : LogsBackend.t) :
  LogsBackend.groups b !! name = None -> LogsBackend.contains name b = false.
Proof.
  intros H. unfold LogsBackend.contains. rewrite H.
  apply bool_decide_eq_false_2. intros [? ?]. discriminate.
Qed.

Lemma contains_present name (b : LogsBackend.t) g :
  LogsBackend.groups b !! name = Some g -> LogsBackend.contains name b = true.
Proof.
  intros H. unfold LogsBackend.contains. rewrite H.
  apply bool_decide_eq_true_2. eauto.
Qed.

(** X18.  Every operation of the registry that addresses a group by name
    raises ResourceNotFoundException when no group has that name, and
    leaves the registry and the class counters as they were. *)
Theorem X18_absent_group_is_not_found :
  forall (h : Heap LogsBackend.t) (log_group_name : string),
    LogsBackend.groups (snd h) !! log_group_name = None ->
    let not_found {A} (op : M (Heap LogsBackend.t) A) : Prop :=
      op h = (Raise ResourceNotFoundException, h) in
    not_found (LogsBackend.delete_log_group log_group_name)
    /\ (forall now name,
          not_found (LogsBackend.create_log_stream now log_group_name name))
    /\ (forall name,
          not_found (LogsBackend.delete_log_stream log_group_name name))
    /\ (forall descending limit prefix token order_by,
          not_found (LogsBackend.describe_log_streams descending limit
                       log_group_name prefix token order_by))
    /\ (forall now name log_events sequence_token,
          not_found (LogsBackend.put_log_events now log_group_name name
                       log_events sequence_token))
    /\ (forall name start_time end_time limit token start_from_head,
          not_found (LogsBackend.get_log_events log_group_name name
                       start_time end_time limit token start_from_head))
    /\ (forall names start_time end_time limit token pattern interleaved,
          not_found (LogsBackend.filter_log_events log_group_name names
                       start_time end_time limit token pattern interleaved))
    /\ (forall days,
          not_found (LogsBackend.put_retention_policy log_group_name days))
    /\ not_found (LogsBackend.delete_retention_policy log_group_name)
    /\ not_found (LogsBackend.list_tags_log_group log_group_name)
    /\ (forall tags,
          not_found (LogsBackend.tag_log_group log_group_name tags))
    /\ (forall tags,
          not_found (LogsBackend.untag_log_group log_group_name tags)).
Proof.
  intros h name Hnone not_found. apply contains_absent in Hnone.
  unfold not_found.
  repeat split; intros;
    unfold LogsBackend.delete_log_group, LogsBackend.create_log_stream,
      LogsBackend.delete_log_stream, LogsBackend.describe_log_streams,
      LogsBackend.put_log_events, LogsBackend.get_log_events,
      LogsBackend.filter_log_events, LogsBackend.put_retention_policy,
      LogsBackend.delete_retention_policy, LogsBackend.list_tags_log_group,
      LogsBackend.tag_log_group, LogsBackend.untag_log_group, bind, self;
    cbn [fst snd]; rewrite Hnone; reflexivity.
Qed.

Lemma call_group_delegates {A} name (m : M (Heap LogGroup.t) A)
      (h : Heap LogsBackend.t) g :
  LogsBackend.groups (snd h) !! name = Some g ->
  delegates (LogsBackend.call_group name m) name m h g.
Proof.
  intros Hget. unfold delegates, outcome, after, LogsBackend.call_group.
  rewrite Hget. destruct (m (fst h, g)) as [r [gl' g']]. cbn [fst snd].
  cbn [LogsBackend.groups LogsBackend.set_groups LogsBackend.region_name].
  split; [reflexivity|]. split; [reflexivity|].
  split; [apply lookup_insert_eq|]. split; [|reflexivity].
  intros other Hne. apply lookup_insert_ne. congruence.
Qed.

Lemma guarded_call_group {A} name (m : M (Heap LogGroup.t) A)
      (h : Heap LogsBackend.t) g :
  LogsBackend.groups (snd h) !! name = Some g ->
  (let* b := self in
   if negb (LogsBackend.contains name b) then raise ResourceNotFoundException
   else LogsBackend.call_group name m) h
  = LogsBackend.call_group name m h.
Proof.
  intros Hget. unfold bind, self. cbn [fst snd].
  rewrite (contains_present _ _ _ Hget). reflexivity.
Qed.

Lemma guarded_delegates {A} name (m : M (Heap LogGroup.t) A)
      (h : Heap LogsBackend.t) g :
  LogsBackend.groups (snd h) !! name = Some g ->
  delegates
    (let* b := self in
     if negb (LogsBackend.contains name b) then raise ResourceNotFoundException
     else LogsBackend.call_group name m) name m h g.
Proof.
  intros Hget.
  pose proof (call_group_delegates name m h g Hget) as H.
  unfold delegates, outcome, after in *.
  rewrite (guarded_call_group name m h g Hget). exact H.
Qed.

(** What any group shows as tags after [tag] on the group [g]: the update,
    when [g] updates its dict in place and the group holds that same
    object; what it showed before, otherwise. *)
Lemma shown_tags_after_tag gl g new_tags g' :
  shown_tags (fst (after (LogGroup.tag new_tags) (gl, g))) g'
  = if truthy_dict gl (LogGroup.tags g)
       && bool_decide (LogGroup.tags g' = LogGroup.tags g)
    then Py.update (shown_tags gl g) (deref gl new_tags)
    else shown_tags gl g'.
Proof.
  unfold after. rewrite tag_run. cbn [fst snd]. unfold shown_tags.
  destruct (LogGroup.tags g) as [r|]; [|reflexivity].
  destruct (truthy_dict gl (Some r)) eqn:T; cbn [fst andb]; [|reflexivity].
  assert (Hlt : (r < length (dicts gl))%nat).
  { apply deref_lt. rewrite truthy_dict_deref in T.
    destruct (deref gl r); [discriminate | discriminate]. }
  destruct (LogGroup.tags g') as [r'|].
  - rewrite deref_insert. destruct (Nat.eqb_spec r' r) as [->|Hne].
    + rewrite bool_decide_eq_true_2 by reflexivity. cbn [andb].
      destruct (Nat.ltb_spec r (length (dicts gl))); [reflexivity | lia].
    + rewrite bool_decide_eq_false_2 by congruence. reflexivity.
  - rewrite bool_decide_eq_false_2 by discriminate. reflexivity.
Qed.

(** X19.  Every operation of the registry that addresses a group by name,
    when the group exists, ends exactly as the method of that group ends
    (value or exception), leaves the class counters and the dict objects
    as that method leaves them, stores the group as the method leaves it,
    and leaves every other group object and the region name as they were.
    Tags are held by address, and [tag] updates in place the dict of a
    group whose tags are not empty: after tag_log_group every group object
    that holds the same dict object shows the updated tags, and every
    other one shows the tags it showed before. *)
Theorem X19_registry_hands_over_to_the_group :
  forall (h : Heap LogsBackend.t) (log_group_name : string) (g : LogGroup.t),
    LogsBackend.groups (snd h) !! log_group_name = Some g ->
    (forall now name,
        delegates (LogsBackend.create_log_stream now log_group_name name)
          log_group_name (LogGroup.create_log_stream now name) h g)
    /\ (forall name,
          delegates (LogsBackend.delete_log_stream log_group_name name)
            log_group_name (LogGroup.delete_log_stream name) h g)
    /\ (forall descending limit prefix token order_by,
          delegates
            (LogsBackend.describe_log_streams descending limit
               log_group_name prefix token order_by)
            log_group_name
            (LogGroup.describe_log_streams descending limit log_group_name
               prefix token order_by) h g)
    /\ (forall now name log_events sequence_token,
          delegates
            (LogsBackend.put_log_events now log_group_name name log_events
               sequence_token)
            log_group_name
            (LogGroup.put_log_events now log_group_name name log_events
               sequence_token) h g)
    /\ (forall name start_time end_time limit token start_from_head,
          delegates
            (LogsBackend.get_log_events log_group_name name start_time
               end_time limit token start_from_head)
            log_group_name
            (LogGroup.get_log_events log_group_name name start_time
               end_time limit token start_from_head) h g)
    /\ (forall names start_time end_time limit token pattern interleaved,
          delegates
            (LogsBackend.filter_log_events log_group_name names start_time
               end_time limit token pattern interleaved)
            log_group_name
            (LogGroup.filter_log_events log_group_name names start_time
               end_time limit token pattern interleaved) h g)
    /\ (forall days,
          delegates (LogsBackend.put_retention_policy log_group_name days)
            log_group_name (LogGroup.set_retention_policy days) h g)
    /\ delegates (LogsBackend.delete_retention_policy log_group_name)
         log_group_name (LogGroup.set_retention_policy None) h g
    /\ delegates (LogsBackend.list_tags_log_group log_group_name)
         log_group_name LogGroup.list_tags h g
    /\ (forall tags,
          delegates (LogsBackend.tag_log_group log_group_name tags)
            log_group_name (LogGroup.tag tags) h g)
    /\ (forall tags,
          delegates (LogsBackend.untag_log_group log_group_name tags)
            log_group_name (LogGroup.untag tags) h g)
    /\ (forall tags (g' : LogGroup.t),
          shown_tags
            (fst (after (LogsBackend.tag_log_group log_group_name tags) h))
            g'
          = if truthy_dict (fst h) (LogGroup.tags g)
               && bool_decide (LogGroup.tags g' = LogGroup.tags g)
            then Py.update (shown_tags (fst h) g) (deref (fst h) tags)
            else shown_tags (fst h) g').
Proof.
  intros h name g Hget.
  repeat match goal with |- _ /\ _ => split end;
    try (intros; apply (guarded_delegates name _ h g Hget)).
  intros tags g'.
  destruct (guarded_delegates name (LogGroup.tag tags) h g Hget)
    as (_ & Hstore & _).
  change (LogsBackend.tag_log_group name tags)
    with (let* b := self in
          if negb (LogsBackend.contains name b) then
            raise ResourceNotFoundException
          else LogsBackend.call_group name (LogGroup.tag tags)).
  rewrite Hstore. destruct h as [gl b]. apply shown_tags_after_tag.
Qed.

Lemma create_log_group_run now name tags (h : Heap LogsBackend.t) :
  LogsBackend.create_log_group now name tags h
  = if LogsBackend.contains name (snd h) then
      (Raise ResourceAlreadyExistsException, h)
    else
      (Ok tt,
       (fst h,
        LogsBackend.set_groups
          (<[name := LogGroup.new now (LogsBackend.region_name (snd h))
                       name tags]> (LogsBackend.groups (snd h)))
          (snd h))).
Proof.
  destruct h as [gl b].
  unfold LogsBackend.create_log_group, bind, self. cbn [fst snd].
  destruct (LogsBackend.contains name b); reflexivity.
Qed.

Lemma ensure_log_group_run now name tags (h : Heap LogsBackend.t) :
  LogsBackend.ensure_log_group now name tags h
  = if LogsBackend.contains name (snd h) then (Ok tt, h)
    else
      (Ok tt,
       (fst h,
        LogsBackend.set_groups
          (<[name := LogGroup.new now (LogsBackend.region_name (snd h))
                       name tags]> (LogsBackend.groups (snd h)))
          (snd h))).
Proof.
  destruct h as [gl b].
  unfold LogsBackend.ensure_log_group, bind, self. cbn [fst snd].
  destruct (LogsBackend.contains name b); reflexivity.
Qed.

Lemma delete_log_group_run name (h : Heap LogsBackend.t) :
  LogsBackend.delete_log_group name h
  = if LogsBackend.contains name (snd h) then
      (Ok tt,
       (fst h,
        LogsBackend.set_groups
          (base.delete name (LogsBackend.groups (snd h))) (snd h)))
    else (Raise ResourceNotFoundException, h).
Proof.
  destruct h as [gl b].
  unfold LogsBackend.delete_log_group, bind, self. cbn [fst snd].
  destruct (LogsBackend.contains name b); reflexivity.
Qed.

Lemma contains_spec name (b : LogsBackend.t) :
  LogsBackend.contains name b = true
  <-> is_Some (LogsBackend.groups b !! name).
Proof. unfold LogsBackend.contains. apply bool_decide_eq_true. Qed.

(** X20.  ensure_log_group never raises.  It leaves the registry as it is
    when the group exists, keeping the group with its streams and tags,
    and does what create_log_group does when it is absent; afterwards the
    group exists, and a second ensure_log_group of the name changes
    nothing. *)
Theorem X20_ensure_log_group :
  forall (h : Heap LogsBackend.t) (now : Z) (log_group_name : string)
         (tags : option dict_ref),
    let ensure := LogsBackend.ensure_log_group now log_group_name tags in
    outcome ensure h = Ok tt
    /\ (is_Some (LogsBackend.groups (snd h) !! log_group_name) ->
          after ensure h = h)
    /\ (LogsBackend.groups (snd h) !! log_group_name = None ->
          after ensure h
          = after (LogsBackend.create_log_group now log_group_name tags) h)
    /\ is_Some (LogsBackend.groups (snd (after ensure h)) !! log_group_name)
    /\ (forall now' tags',
          LogsBackend.ensure_log_group now' log_group_name tags'
            (after ensure h)
          = (Ok tt, after ensure h)).
Proof.
  intros h now name tags ensure.
  assert (Hafter : is_Some (LogsBackend.groups (snd (after ensure h)) !! name)).
  { unfold after, ensure. rewrite ensure_log_group_run.
    destruct (LogsBackend.contains name (snd h)) eqn:E; cbn [snd].
    - apply contains_spec, E.
    - cbn [LogsBackend.groups LogsBackend.set_groups].
      rewrite lookup_insert_eq. eauto. }
  split; [|split; [|split; [|split]]].
  - unfold outcome, ensure. rewrite ensure_log_group_run.
    destruct (LogsBackend.contains name (snd h)); reflexivity.
  - intros Hsome. apply contains_spec in Hsome.
    unfold after, ensure. rewrite ensure_log_group_run, Hsome. reflexivity.
  - intros Hnone. apply contains_absent in Hnone.
    unfold after, ensure.
    rewrite ensure_log_group_run, create_log_group_run, Hnone. reflexivity.
  - exact Hafter.
  - intros now' tags'. rewrite ensure_log_group_run.
    apply contains_spec in Hafter. rewrite Hafter. reflexivity.
Qed.

(** X21.  Creating, ensuring or deleting the group of one name never
    touches the group of another name, the region name or the class
    counters, whether the call returns or raises. *)
Theorem X21_group_names_are_independent :
  forall (h : Heap LogsBackend.t) (now : Z) (log_group_name other : string)
         (tags : option dict_ref),
    other <> log_group_name ->
    let untouched {A} (op : M (Heap LogsBackend.t) A) : Prop :=
      LogsBackend.groups (snd (after op h)) !! other
      = LogsBackend.groups (snd h) !! other
      /\ LogsBackend.region_name (snd (after op h))
         = LogsBackend.region_name (snd h)
      /\ fst (after op h) = fst h in
    untouched (LogsBackend.create_log_group now log_group_name tags)
    /\ untouched (LogsBackend.ensure_log_group now log_group_name tags)
    /\ untouched (LogsBackend.delete_log_group log_group_name).
Proof.
  intros h now name other tags Hne untouched. unfold untouched, after.
  rewrite create_log_group_run, ensure_log_group_run, delete_log_group_run.
  destruct (LogsBackend.contains name (snd h)); cbn [fst snd];
    cbn [LogsBackend.groups LogsBackend.set_groups LogsBackend.region_name];
    repeat split;
    try (apply lookup_insert_ne; congruence);
    try (apply lookup_delete_ne; congruence).
Qed.

(** X22.  reset empties the registry: afterwards no name has a group, so
    create_log_group succeeds for every name and get_log_events raises
    ResourceNotFoundException for every name.  The region name is kept,
    and so are the class counters, from which event ids and stream numbers
    go on. *)
Theorem X22_reset_empties_the_registry :
  forall (h : Heap LogsBackend.t),
    let h' := after LogsBackend.reset h in
    outcome LogsBackend.reset h = Ok tt
    /\ (forall name, LogsBackend.groups (snd h') !! name = None)
    /\ LogsBackend.region_name (snd h') = LogsBackend.region_name (snd h)
    /\ fst h' = fst h
    /\ (forall now name tags,
          outcome (LogsBackend.create_log_group now name tags) h' = Ok tt)
    /\ (forall name stream start_time end_time limit token start_from_head,
          outcome (LogsBackend.get_log_events name stream start_time end_time
                     limit token start_from_head) h'
          = Raise ResourceNotFoundException).
Proof.
  intros [gl b] h'. unfold h', after, outcome, LogsBackend.reset, bind, self,
    update_self, modify. cbn [fst snd].
  split; [reflexivity|]. split; [intros name; apply lookup_empty|].
  split; [reflexivity|]. split; [reflexivity|]. split.
  - intros now name tags. rewrite create_log_group_run. cbn [snd].
    rewrite contains_absent by apply lookup_empty. reflexivity.
  - intros. unfold LogsBackend.get_log_events, bind, self. cbn [fst snd].
    rewrite contains_absent by apply lookup_empty. reflexivity.
Qed.

(** ** The registry: from a new group to the events read back *)

Lemma setitem_setitem {V} k (v1 v2 : V) d :
  Py.setitem k v2 (Py.setitem k v1 d) = Py.setitem k v2 d.
Proof.
  induction d as [|[k' v'] r IH]; cbn.
  - rewrite String.eqb_refl. reflexivity.
  - destruct (String.eqb k k') eqn:E; cbn; rewrite E; [reflexivity|].
    rewrite IH. reflexivity.
Qed.

(** Two calls in a row on the stream stored under one name are one call of
    the two methods in a row. *)
Lemma call_stream_seq {A B} name (m1 : M (Heap LogStream.t) A)
      (m2 : M (Heap LogStream.t) B) (h : Heap LogGroup.t) s :
  Py.getitem name (LogGroup.streams (snd h)) = Some s ->
  (LogGroup.call_stream name m1 ;; LogGroup.call_stream name m2) h
  = LogGroup.call_stream name (m1 ;; m2) h.
Proof.
  intros Hget. unfold bind, LogGroup.call_stream. rewrite Hget.
  destruct (m1 (fst h, s)) as [[x|e] [gl1 s1]]; [|reflexivity].
  cbn [fst snd LogGroup.streams LogGroup.set_streams].
  rewrite getitem_setitem_eq.
  destruct (m2 (gl1, s1)) as [r2 [gl2 s2]].
  rewrite setitem_setitem. reflexivity.
Qed.

Lemma call_group_seq {A B} name (m1 : M (Heap LogGroup.t) A)
      (m2 : M (Heap LogGroup.t) B) (h : Heap LogsBackend.t) g :
  LogsBackend.groups (snd h) !! name = Some g ->
  (LogsBackend.call_group name m1 ;; LogsBackend.call_group name m2) h
  = LogsBackend.call_group name (m1 ;; m2) h.
Proof.
  intros Hget. unfold bind, LogsBackend.call_group. rewrite Hget.
  destruct (m1 (fst h, g)) as [[x|e] [gl1 g1]]; [|reflexivity].
  cbn [fst snd LogsBackend.groups LogsBackend.set_groups].
  rewrite lookup_insert_eq.
  destruct (m2 (gl1, g1)) as [r2 [gl2 g2]].
  rewrite insert_insert_eq. reflexivity.
Qed.

(** A guarded call on a stream of a group, followed by a computation that
    is itself a call on that stream: one call of the two methods in a
    row. *)
Lemma guarded_stream_bind {A B} name (m1 : M (Heap LogStream.t) A)
      (k : M (Heap LogGroup.t) B) (m2 : M (Heap LogStream.t) B)
      (h : Heap LogGroup.t) s :
  Py.getitem name (LogGroup.streams (snd h)) = Some s ->
  (forall h' s',
      Py.getitem name (LogGroup.streams (snd h')) = Some s' ->
      k h' = LogGroup.call_stream name m2 h') ->
  ((let* g := self in
    if negb (Py.contains name (LogGroup.streams g)) then
      raise ResourceNotFoundException
    else LogGroup.call_stream name m1) ;; k) h
  = LogGroup.call_stream name (m1 ;; m2) h.
Proof.
  intros Hget Hk. rewrite <- (call_stream_seq name m1 m2 h s Hget).
  unfold bind, self. cbn [fst snd]. rewrite contains_getitem, Hget.
  cbn [negb]. destruct (m1 (fst h, s)) as [r [gl1 s1]] eqn:E1.
  rewrite (call_stream_run name m1 h s r gl1 s1 Hget E1).
  destruct r as [x|e]; [|reflexivity].
  apply (Hk _ s1). cbn [snd LogGroup.streams LogGroup.set_streams].
  apply getitem_setitem_eq.
Qed.

Lemma guarded_call_stream {A} name (m : M (Heap LogStream.t) A)
      (h : Heap LogGroup.t) s :
  Py.getitem name (LogGroup.streams (snd h)) = Some s ->
  (let* g := self in
   if negb (Py.contains name (LogGroup.streams g)) then
     raise ResourceNotFoundException
   else LogGroup.call_stream name m) h
  = LogGroup.call_stream name m h.
Proof.
  intros Hget. unfold bind, self. cbn [fst snd].
  rewrite contains_getitem, Hget. reflexivity.
Qed.

Lemma guarded_group_bind {A B} name (m1 : M (Heap LogGroup.t) A)
      (k : M (Heap LogsBackend.t) B) (m2 : M (Heap LogGroup.t) B)
      (h : Heap LogsBackend.t) g :
  LogsBackend.groups (snd h) !! name = Some g ->
  (forall h' g',
      LogsBackend.groups (snd h') !! name = Some g' ->
      k h' = LogsBackend.call_group name m2 h') ->
  ((let* b := self in
    if negb (LogsBackend.contains name b) then raise ResourceNotFoundException
    else LogsBackend.call_group name m1) ;; k) h
  = LogsBackend.call_group name (m1 ;; m2) h.
Proof.
  intros Hget Hk. rewrite <- (call_group_seq name m1 m2 h g Hget).
  unfold bind, self. cbn [fst snd]. rewrite (contains_present _ _ _ Hget).
  cbn [negb]. destruct (m1 (fst h, g)) as [r [gl1 g1]] eqn:E1.
  assert (E : LogsBackend.call_group name m1 h
              = (r, (gl1, LogsBackend.set_groups
                            (<[name := g1]> (LogsBackend.groups (snd h)))
                            (snd h)))).
  { unfold LogsBackend.call_group. rewrite Hget, E1. reflexivity. }
  rewrite E. destruct r as [x|e]; [|reflexivity].
  apply (Hk _ g1). cbn [snd LogsBackend.groups LogsBackend.set_groups].
  apply lookup_insert_eq.
Qed.

Lemma call_stream_outcome {A} name (m : M (Heap LogStream.t) A)
      (h : Heap LogGroup.t) s :
  Py.getitem name (LogGroup.streams (snd h)) = Some s ->
  outcome (LogGroup.call_stream name m) h = outcome m (fst h, s).
Proof.
  intros Hget. unfold outcome, LogGroup.call_stream. rewrite Hget.
  destruct (m (fst h, s)) as [r [gl' s']]. reflexivity.
Qed.

Lemma call_group_outcome {A} name (m : M (Heap LogGroup.t) A)
      (h : Heap LogsBackend.t) g :
  LogsBackend.groups (snd h) !! name = Some g ->
  outcome (LogsBackend.call_group name m) h = outcome m (fst h, g).
Proof.
  intros Hget. unfold outcome, LogsBackend.call_group. rewrite Hget.
  destruct (m (fst h, g)) as [r [gl' g']]. reflexivity.
Qed.

(** In a group without streams: create a stream, put a batch, read it. *)
Lemma group_round_trip gl G now1 now2 g n batch tok limit sfh :
  LogGroup.streams G = [] ->
  Z.of_nat (length batch) <= limit ->
  exists backward forward,
    outcome
      (LogGroup.create_log_stream now1 n ;;
       LogGroup.put_log_events now2 g n batch tok ;;
       LogGroup.get_log_events g n None None limit None sfh) (gl, G)
    = Ok (map (response_of now2) (Py.sorted in_timestamp batch),
          backward, forward).
Proof.
  intros Hs Hlimit.
  pose proof (create_log_stream_run now1 n (gl, G)) as E.
  cbn [fst snd] in E. rewrite Hs in E. cbn [Py.contains Py.setitem] in E.
  rewrite (outcome_seq _ _ _ _ _ E).
  match goal with |- context [outcome _ (?gl', ?G')] =>
    set (gl1 := gl'); set (G1 := G') end.
  set (s0 := LogStream.new now1 (LogStream_log_ids gl) (LogGroup.region G)
               (LogGroup.name G) n) in *.
  assert (Hget : Py.getitem n (LogGroup.streams (snd (gl1, G1))) = Some s0).
  { cbn. rewrite String.eqb_refl. reflexivity. }
  unfold outcome at 1.
  unfold LogGroup.put_log_events, LogGroup.get_log_events.
  rewrite (guarded_stream_bind n _ _
             (LogStream.get_log_events g n None None limit None sfh)
             (gl1, G1) s0 Hget).
  - fold (outcome (LogGroup.call_stream n
            (LogStream.put_log_events now2 g n batch tok ;;
             LogStream.get_log_events g n None None limit None sfh))
            (gl1, G1)).
    rewrite (call_stream_outcome n _ (gl1, G1) s0 Hget).
    apply put_then_get_on_empty_stream; [reflexivity | exact Hlimit].
  - intros h' s' Hget'. apply (guarded_call_stream n _ h' s' Hget').
Qed.

(** X23.  Through the registry, from nothing: when no group has the name,
    create_log_group, create_log_stream, put_log_events of one batch and
    get_log_events without time bounds, with a limit of at least the size
    of the batch, return every item of the batch in response form, with
    the clock reading of the put as ingestionTime, in ascending timestamp
    order and items of equal timestamp in batch order.  No step raises. *)
Theorem X23_registry_round_trip :
  forall (h : Heap LogsBackend.t) (now0 now1 now2 limit : Z)
         (log_group_name log_stream_name : string)
         (tags : option dict_ref)
         (log_events : list InputLogEvent) (sequence_token : option string)
         (start_from_head : bool),
    LogsBackend.groups (snd h) !! log_group_name = None ->
    Z.of_nat (length log_events) <= limit ->
    exists backward forward,
      outcome
        (LogsBackend.create_log_group now0 log_group_name tags ;;
         LogsBackend.create_log_stream now1 log_group_name log_stream_name ;;
         LogsBackend.put_log_events now2 log_group_name log_stream_name
           log_events sequence_token ;;
         LogsBackend.get_log_events log_group_name log_stream_name None None
           limit None start_from_head) h
      = Ok (map (response_of now2) (Py.sorted in_timestamp log_events),
            backward, forward).
Proof.
  intros h now0 now1 now2 limit g n tags batch tok sfh Hnone Hlimit.
  pose proof (create_log_group_run now0 g tags h) as E.
  rewrite (contains_absent _ _ Hnone) in E.
  rewrite (outcome_seq _ _ _ _ _ E).
  match goal with |- context [outcome _ ?h1'] => set (h1 := h1') end.
  set (G := LogGroup.new now0 (LogsBackend.region_name (snd h)) g tags) in *.
  assert (Hget : LogsBackend.groups (snd h1) !! g = Some G).
  { unfold h1. cbn [snd LogsBackend.groups LogsBackend.set_groups].
    apply lookup_insert_eq. }
  unfold outcome at 1.
  unfold LogsBackend.create_log_stream, LogsBackend.put_log_events,
    LogsBackend.get_log_events.
  rewrite (guarded_group_bind g _ _
             (LogGroup.put_log_events now2 g n batch tok ;;
              LogGroup.get_log_events g n None None limit None sfh)
             h1 G Hget).
  - match goal with |- context [fst (LogsBackend.call_group g ?m h1)] =>
      fold (outcome (LogsBackend.call_group g m) h1) end.
    rewrite (call_group_outcome g _ h1 G Hget).
    apply group_round_trip; [reflexivity | exact Hlimit].
  - intros h' g' Hget'.
    apply (guarded_group_bind g _ _ _ h' g' Hget').
    intros h'' g'' Hget''. apply (guarded_call_group g _ h'' g'' Hget'').
Qed.

(** ** Event ids *)

Lemma ids_delitem_In k (d : list (string * LogStream.t)) i :
  In i (concat (map (fun item => event_ids (snd item)) (Py.delitem k d))) ->
  In i (concat (map (fun item => event_ids (snd item)) d)).
Proof.
  induction d as [|[k' v] r IH]; [intros []|].
  cbn [Py.delitem]. destruct (String.eqb k k'); cbn [map concat snd].
  - intros H. apply in_or_app. right. exact H.
  - intros H. apply in_app_or in H as [H|H]; apply in_or_app;
      [left; exact H | right; apply IH, H].
Qed.

Lemma ids_delitem_NoDup k (d : list (string * LogStream.t)) :
  List.NoDup (concat (map (fun item => event_ids (snd item)) d)) ->
  List.NoDup
    (concat (map (fun item => event_ids (snd item)) (Py.delitem k d))).
Proof.
  induction d as [|[k' v] r IH]; [intros H; exact H|].
  cbn [Py.delitem]. destruct (String.eqb k k'); cbn [map concat snd].
  - apply List.NoDup_app_remove_l.
  - intros H. apply List.NoDup_app.
    + eapply List.NoDup_app_remove_r, H.
    + apply IH. eapply List.NoDup_app_remove_l, H.
    + intros i Hi Hr. apply ids_delitem_In in Hr.
      revert H Hi Hr. generalize (event_ids v).
      intros l. induction l as [|x l IHl]; [intros _ []|].
      cbn [app]. intros Hnd [->|Hi] Hr.
      * apply List.NoDup_cons_iff in Hnd as [Hnot _].
        apply Hnot, in_or_app. right. exact Hr.
      * apply List.NoDup_cons_iff in Hnd as [_ Hnd]. exact (IHl Hnd Hi Hr).
Qed.

Lemma ids_setitem n s s' extra (d : list (string * LogStream.t)) :
  Py.getitem n d = Some s ->
  event_ids s' = event_ids s ++ extra ->
  Permutation
    (concat (map (fun item => event_ids (snd item)) (Py.setitem n s' d)))
    (concat (map (fun item => event_ids (snd item)) d) ++ extra).
Proof.
  intros Hget Hs'. induction d as [|[k' v] r IH]; [discriminate|].
  cbn [Py.getitem] in Hget. cbn [Py.setitem].
  destruct (String.eqb n k'); cbn [map concat snd].
  - injection Hget as ->. rewrite Hs', <- !app_assoc.
    apply Permutation_app_head, Permutation_app_comm.
  - rewrite <- app_assoc. apply Permutation_app_head, IH, Hget.
Qed.

Lemma new_ids_NoDup c n :
  List.NoDup (map (fun k => c + Z.of_nat k) (seq 0 n)).
Proof.
  apply Finite.Injective_map_NoDup; [|apply seq_NoDup].
  intros x y H. lia.
Qed.

(** The three writing operations of a group keep [ids_issued]. *)
Lemma ids_issued_kept (h : Heap LogGroup.t) :
  ids_issued h ->
  (forall now name,
      ids_issued (after (LogGroup.create_log_stream now name) h))
  /\ (forall name,
        ids_issued (after (LogGroup.delete_log_stream name) h))
  /\ (forall now log_group_name log_stream_name log_events sequence_token,
        ids_issued
          (after (LogGroup.put_log_events now log_group_name
                    log_stream_name log_events sequence_token) h)).
Proof.
  intros [Hnd Hlt]. split; [|split].
  - intros now name. unfold after. rewrite create_log_stream_run.
    destruct (Py.contains name (LogGroup.streams (snd h))) eqn:Hc;
      [split; assumption|].
    unfold ids_issued, group_event_ids.
    cbn [fst snd LogGroup.streams LogGroup.set_streams LogEvent_event_id].
    rewrite (setitem_absent _ _ _ Hc), List.map_app, concat_app.
    cbn [map concat snd]. unfold event_ids at 2 4.
    cbn [LogStream.events LogStream.new map]. rewrite !app_nil_r.
    split; assumption.
  - intros name. unfold after. rewrite delete_log_stream_run.
    destruct (Py.contains name (LogGroup.streams (snd h)));
      [|split; assumption].
    unfold ids_issued, group_event_ids.
    cbn [fst snd LogGroup.streams LogGroup.set_streams].
    split; [apply ids_delitem_NoDup, Hnd|].
    apply List.Forall_forall. intros i Hi. apply ids_delitem_In in Hi.
    exact (proj1 (List.Forall_forall _ _) Hlt i Hi).
  - intros now g n batch tok.
    destruct (Py.getitem n (LogGroup.streams (snd h))) as [s|] eqn:Hget.
    + unfold after at 1. rewrite (group_put_run now g n batch tok h s Hget).
      unfold after. rewrite put_log_events_state.
      unfold ids_issued, group_event_ids.
      cbn [fst snd LogGroup.streams LogGroup.set_streams LogEvent_event_id].
      match goal with
      | |- context [Py.setitem n ?s1 _] =>
          pose proof (ids_setitem n s s1
                        (map (fun k => LogEvent_event_id (fst h) + Z.of_nat k)
                             (seq 0 (length batch)))
                        (LogGroup.streams (snd h)) Hget) as Hperm
      end.
      match type of Hperm with ?P -> _ => assert (Hp : P) end.
      { unfold event_ids.
        cbn [LogStream.events LogStream.set_uploadSequenceToken
             LogStream.set_events].
        rewrite List.map_app.
        rewrite (proj2 (proj2 (proj2 (new_events_fields now batch _)))).
        reflexivity. }
      specialize (Hperm Hp). symmetry in Hperm.
      split.
      * eapply Permutation_NoDup; [exact Hperm|].
        apply List.NoDup_app; [exact Hnd | apply new_ids_NoDup|].
        intros i Hi Hin. apply in_map_iff in Hin as (k & <- & _).
        pose proof (proj1 (List.Forall_forall _ _) Hlt _ Hi) as Hb.
        cbv beta in Hb. lia.
      * eapply Permutation_Forall; [exact Hperm|].
        apply List.Forall_app. split.
        -- eapply List.Forall_impl; [|exact Hlt]. cbn. intros; lia.
        -- apply List.Forall_forall. intros i Hin.
           apply in_map_iff in Hin as (k & <- & Hk).
           apply in_seq in Hk. lia.
    + assert (E : LogGroup.put_log_events now g n batch tok h
                  = (Raise ResourceNotFoundException, h)).
      { unfold LogGroup.put_log_events, bind, self.
        rewrite contains_getitem, Hget. destruct h; reflexivity. }
      unfold after. rewrite E. split; assumption.
Qed.

Lemma apply_writes_ids_issued ws : forall h,
  ids_issued h -> ids_issued (apply_writes ws h).
Proof.
  induction ws as [|w r IH]; intros h Hh; [exact Hh|].
  apply IH. destruct (ids_issued_kept h Hh) as (Hc & Hd & Hp).
  destruct w; [apply Hc | apply Hd | apply Hp].
Qed.

(** X24.  Event ids are never given out twice.  When the event ids held
    by the streams of a group are pairwise distinct and below the class
    counter LogEvent._event_id, they still are after create_log_stream,
    delete_log_stream and put_log_events of the group, whatever the
    arguments and whether the call returns or raises.  A new group holds
    no event ids, so after every sequence of these calls on a new group
    the events of all its streams have pairwise distinct eventIds. *)
Theorem X24_event_ids_are_never_reused :
  (forall (gl : Globals) (now : Z) (region name : string)
          (tags : option dict_ref)
          (writes : list group_write),
      List.NoDup
        (group_event_ids
           (snd (apply_writes writes
                   (gl, LogGroup.new now region name tags)))))
  /\ (forall h : Heap LogGroup.t,
        ids_issued h ->
        (forall now name,
            ids_issued (after (LogGroup.create_log_stream now name) h))
        /\ (forall name,
              ids_issued (after (LogGroup.delete_log_stream name) h))
        /\ (forall now log_group_name log_stream_name log_events
                   sequence_token,
              ids_issued
                (after (LogGroup.put_log_events now log_group_name
                          log_stream_name log_events sequence_token) h))).
Proof.
  split; [|exact ids_issued_kept].
  intros gl now region name tags writes.
  apply (apply_writes_ids_issued writes). split; constructor.
Qed.

(** ** The further properties at concrete inputs *)

(** X2 on a new stream and a batch of three. *)
Lemma X2_get_returns_what_was_put_witness :
  exists backward forward,
    outcome
      (LogStream.put_log_events 7 "g" "s"
         [ev 30 "c"; ev 10 "a"; ev 20 "b"] None ;;
       LogStream.get_log_events "g" "s" None None 5 None true)
      (globals0, LogStream.new 0 0 "r" "g" "s")
    = Ok (map (response_of 7)
            (Py.sorted in_timestamp [ev 30 "c"; ev 10 "a"; ev 20 "b"]),
          backward, forward).
Proof.
  apply (X2_get_returns_what_was_put globals0 0 0 7 5 "r" "g" "s" "g" "s"
           [ev 30 "c"; ev 10 "a"; ev 20 "b"] None true).
  simpl. lia.
Defined.

(** X3 on the stream with timestamps 10..50 and the range [20, 40]. *)
Lemma X3_time_range_is_inclusive_and_zero_is_open_witness :
  exists e,
    In e (LogStream.events (snd demo_stream))
    /\ within (Some 20) (Some 40) (LogEvent.timestamp e)
    /\ response_of 7 (ev 20 "b") = LogEvent.to_response_dict e.
Proof.
  apply (proj2 (X3_time_range_is_inclusive_and_zero_is_open demo_stream
                  "g" "s" (Some 20) (Some 40) 2 None true)
           [response_of 7 (ev 20 "b"); response_of 7 (ev 30 "c")]
           (token "b" 0) (token "f" 1)).
  - vm_compute. reflexivity.
  - left. reflexivity.
Defined.

(** X4 on the first page of two of the same stream. *)
Lemma X4_page_is_at_most_limit_long_witness :
  (length [response_of 7 (ev 10 "a"); response_of 7 (ev 20 "b")]
   <= Z.to_nat 2)%nat
  /\ (length [response_of 7 (ev 10 "a"); response_of 7 (ev 20 "b")]
      <= length (view None None demo_stream))%nat.
Proof.
  apply (X4_page_is_at_most_limit_long demo_stream "g" "s" None None 2 None
           true [response_of 7 (ev 10 "a"); response_of 7 (ev 20 "b")]
           (token "b" 0) (token "f" 1)).
  vm_compute. reflexivity.
Defined.

(** X6 on the first two pages of the same stream. *)
Lemma X6_neighbouring_pages_lead_to_each_other_witness :
  outcome (LogStream.get_log_events "g" "s" None None 2
             (Some (token "b" 2)) false) demo_stream
  = Ok ([response_of 7 (ev 10 "a"); response_of 7 (ev 20 "b")],
        token "b" 0, token "f" 1).
Proof.
  apply (proj1 (X6_neighbouring_pages_lead_to_each_other demo_stream
                  "g" "s" None None 2 None true true false
                  [response_of 7 (ev 10 "a"); response_of 7 (ev 20 "b")]
                  [response_of 7 (ev 30 "c"); response_of 7 (ev 40 "d")]
                  (token "b" 0) (token "f" 1) (token "b" 2) (token "f" 3)
                  ltac:(vm_compute; reflexivity)
                  ltac:(vm_compute; reflexivity) ltac:(discriminate)
                  ltac:(discriminate))).
  vm_compute. reflexivity.
Defined.

(** X7 on the second call of a client paging backward by two. *)
Lemma X7_backward_paging_returns_blocks_from_the_end_witness :
  let evs := view None None demo_stream in
  exists backward forward,
    outcome (backward_page 1 "g" "s" None None 2) demo_stream
    = Ok (map LogEvent.to_response_dict
            (skipn (length evs - 2 * Z.to_nat 2)
               (firstn (length evs - 1 * Z.to_nat 2) evs)),
          backward, forward).
Proof.
  apply (X7_backward_paging_returns_blocks_from_the_end demo_stream "g" "s"
           None None 2 1).
  - lia.
  - vm_compute. reflexivity.
Defined.

(** X8 on the stream with timestamps 10..50. *)
Lemma X8_stream_description_witness :
  exists d lo hi,
    outcome LogStream.to_describe_dict demo_stream = Ok d
    /\ sd_rest d
       = Some {| sd_firstEventTimestamp := Some lo;
                 sd_lastEventTimestamp := Some hi;
                 sd_lastIngestionTime :=
                   LogStream.lastIngestionTime (snd demo_stream);
                 sd_uploadSequenceToken :=
                   Py.str (LogStream.uploadSequenceToken (snd demo_stream)) |}.
Proof.
  destruct (X8_stream_description demo_stream)
    as (d & Hd & _ & _ & _ & _ & _ & Hne).
  destruct Hne as (lo & hi & Hr & _); [vm_compute; discriminate|].
  exists d, lo, hi. split; assumption.
Defined.

(** X11 on the group with the streams "a" and "b": "c" can be created,
    "a" cannot. *)
Lemma X11_stream_lifecycle_in_a_group_witness :
  outcome (LogGroup.create_log_stream 5 "c") demo_group = Ok tt
  /\ outcome (LogGroup.create_log_stream 5 "a") demo_group
     = Raise ResourceAlreadyExistsException.
Proof.
  assert (Hnd : List.NoDup (map fst (LogGroup.streams (snd demo_group)))).
  { vm_compute. repeat constructor; cbn; intuition discriminate. }
  split.
  - apply (proj1 (X11_stream_lifecycle_in_a_group demo_group 5 "c" Hnd)).
    vm_compute. reflexivity.
  - apply (proj2 (X11_stream_lifecycle_in_a_group demo_group 5 "a" Hnd)).
    vm_compute. reflexivity.
Defined.

(** X12 on the same group and a stream name it does not have. *)
Lemma X12_group_put_touches_one_stream_witness :
  outcome (LogGroup.put_log_events 9 "g" "c" [ev 1 "x"] None) demo_group
  = Raise ResourceNotFoundException
  /\ after (LogGroup.put_log_events 9 "g" "c" [ev 1 "x"] None) demo_group
     = demo_group.
Proof.
  apply (proj1 (X12_group_put_touches_one_stream demo_group 9 "g" "c"
                  [ev 1 "x"] None)).
  vm_compute. reflexivity.
Defined.

(** X13 on the same group, read in pages of three. *)
Lemma X13_filter_pages_join_to_the_whole_result_witness :
  let events := filter_result None None None true (snd demo_group) in
  outcome (filter_all_pages (S (length events)) "g" None None None 3 None
             true) demo_group
  = Ok (Some events).
Proof.
  apply (X13_filter_pages_join_to_the_whole_result demo_group "g" None None
           None 3 true).
  - vm_compute. repeat constructor; cbn; intuition discriminate.
  - lia.
Defined.

(** X14 on the same group, which has no tags, and the dict {"k": "v"} at
    address 0. *)
Lemma X14_tag_and_untag_witness :
  exists tagged,
    outcome (LogGroup.tag 0%nat ;; read_tags) demo_group_and_dict = Ok tagged
    /\ Py.getitem "k" tagged = Some "v".
Proof.
  destruct (X14_tag_and_untag demo_group_and_dict 0%nat ["k"] [])
    as ((tagged & Hrun & Hget) & _).
  - vm_compute. reflexivity.
  - vm_compute. repeat constructor; cbn; intuition discriminate.
  - exists tagged. split; [exact Hrun|]. rewrite Hget. reflexivity.
Defined.

(** X16 on the same group and a put of three characters to "a". *)
Lemma X16_group_stored_bytes_follow_the_streams_witness :
  exists d0 d1,
    outcome LogGroup.to_describe_dict demo_group = Ok d0
    /\ outcome (LogGroup.put_log_events 9 "g" "a" [ev 60 "xyz"] None ;;
                LogGroup.to_describe_dict) demo_group = Ok d1
    /\ gd_storedBytes d0
       = Py.sum (map (fun item => LogStream.storedBytes (snd item))
                     (LogGroup.streams (snd demo_group)))
    /\ gd_storedBytes d1
       = gd_storedBytes d0
         + Py.sum (map (fun e => Py.len (in_message e)) [ev 60 "xyz"]).
Proof.
  eapply (X16_group_stored_bytes_follow_the_streams demo_group 9 "g" "a"
            [ev 60 "xyz"] None).
  vm_compute. reflexivity.
Defined.

(** X17 on the same group: the first stream by name. *)
Lemma X17_describe_log_streams_witness :
  let all := described_streams "" (snd demo_group) in
  let lo := 0 in
  exists ordered,
    outcome (LogGroup.describe_log_streams false 1 "g" "" None
               "logStreamName") demo_group
    = Ok (map snd (Py.slice ordered lo (lo + 1)),
          if lo + 1 >=? Z.of_nat (length all) then None else Some (lo + 1))
    /\ Permutation ordered all
    /\ Forall (fun x => Py.startswith (fst x) "" = true) ordered
    /\ ("logStreamName" = "logStreamName" ->
        StronglySorted (by_name false) ordered)
    /\ ("logStreamName" <> "logStreamName" ->
        StronglySorted (by_last_event false) ordered).
Proof.
  apply (X17_describe_log_streams demo_group false 1 "g" "" None
           "logStreamName").
  vm_compute. repeat constructor; cbn; intuition discriminate.
Defined.

(** X18 on the registry holding "g" and the name "h". *)
Lemma X18_absent_group_is_not_found_witness :
  LogsBackend.delete_log_group "h" demo_backend
  = (Raise ResourceNotFoundException, demo_backend).
Proof.
  apply (proj1 (X18_absent_group_is_not_found demo_backend "h"
                  ltac:(vm_compute; reflexivity))).
Defined.

(** X19 on the registry whose groups "g1" and "g2" hold one dict object:
    tagging "g1" with the dict {"n": "w"} shows in "g2". *)
Lemma X19_registry_hands_over_to_the_group_witness :
  shown_tags
    (fst (after (LogsBackend.tag_log_group "g1" 1%nat) shared_tags_backend))
    (LogGroup.new 0 "r" "g2" (Some 0%nat))
  = [("k", "v"); ("n", "w")].
Proof.
  pose proof (X19_registry_hands_over_to_the_group shared_tags_backend "g1"
                (LogGroup.new 0 "r" "g1" (Some 0%nat))
                ltac:(vm_compute; reflexivity)) as H.
  do 11 (destruct H as [_ H]).
  rewrite H. vm_compute. reflexivity.
Defined.

(** X20 on the same registry: "g" is there already. *)
Lemma X20_ensure_log_group_witness :
  after (LogsBackend.ensure_log_group 5 "g" None) demo_backend
  = demo_backend.
Proof.
  apply (proj1 (proj2 (X20_ensure_log_group demo_backend 5 "g" None))).
  exists (LogGroup.new 0 "r" "g" None). vm_compute. reflexivity.
Defined.

(** X21 on the same registry: creating "h" leaves "g". *)
Lemma X21_group_names_are_independent_witness :
  LogsBackend.groups
    (snd (after (LogsBackend.create_log_group 5 "h" None) demo_backend))
    !! "g"
  = LogsBackend.groups (snd demo_backend) !! "g".
Proof.
  apply (proj1 (proj1 (X21_group_names_are_independent demo_backend 5 "h" "g"
                         None ltac:(discriminate)))).
Defined.

(** X23 on an empty registry. *)
Lemma X23_registry_round_trip_witness :
  exists backward forward,
    outcome
      (LogsBackend.create_log_group 1 "g" None ;;
       LogsBackend.create_log_stream 2 "g" "s" ;;
       LogsBackend.put_log_events 3 "g" "s"
         [ev 30 "c"; ev 10 "a"; ev 20 "b"] None ;;
       LogsBackend.get_log_events "g" "s" None None 5 None true)
      (globals0, LogsBackend.__init__ "r")
    = Ok (map (response_of 3)
            (Py.sorted in_timestamp [ev 30 "c"; ev 10 "a"; ev 20 "b"]),
          backward, forward).
Proof.
  apply (X23_registry_round_trip (globals0, LogsBackend.__init__ "r")
           1 2 3 5 "g" "s" None [ev 30 "c"; ev 10 "a"; ev 20 "b"] None true).
  - vm_compute. reflexivity.
  - simpl. lia.
Defined.

(** X24 on the group with the streams "a" and "b" and one more put. *)
Lemma X24_event_ids_are_never_reused_witness :
  ids_issued
    (after (LogGroup.put_log_events 9 "g" "a" [ev 60 "x"] None) demo_group).
Proof.
  apply (proj2 X24_event_ids_are_never_reused demo_group).
  split; vm_compute.
  - repeat constructor; cbn; intuition discriminate.
  - repeat constructor.
Defined.
